(** * ReconSouthAfrica: a shallow embedding of [app.py]

    The program is a console menu loop around a set of action procedures.
    Everything it does is an effect (prompting, printing, logging, one HTTP
    GET, one geo-database lookup), so the embedding is a state and exception
    monad over an explicit [World], with the third-party libraries
    (requests, BeautifulSoup, geoip2, the json decoder, the clock) taken as
    an environment of oracles.

    Text is modelled by [string], holding the UTF-8 encoding of a Python
    [str]; the runtime is that of CPython 3.11 (Unicode 14.0), on a
    terminal that reads and writes any text. A call may return, raise, or
    never return: [requests.get] is given no timeout. *)

From Stdlib Require Import ZArith NArith List String Ascii Bool Lia DecimalString.
Import ListNotations.
Local Open Scope string_scope.

(** ** Python runtime: text *)

Module Py.

Definition byte (c : ascii) : N := N_of_ascii c.

Definition between (lo hi n : N) : bool := (lo <=? n)%N && (n <=? hi)%N.

(** A character, kept as the bytes of its encoding. *)
Definition Char : Type := list ascii.

Definition continuation (c : ascii) : bool := between 128 191 (byte c).

(** The characters of a text. A [string] that is not well-formed UTF-8
    stands for no Python text; in it a byte that starts no well-formed
    sequence is taken as a character of its own. *)
Fixpoint split (l : list ascii) : list Char :=
  match l with
  | [] => []
  | a :: r =>
      if (byte a <? 128)%N then [a] :: split r
      else
        match r with
        | b :: r1 =>
            if between 192 223 (byte a) && continuation b then [a; b] :: split r1
            else
              match r1 with
              | c :: r2 =>
                  if between 224 239 (byte a) && continuation b && continuation c
                  then [a; b; c] :: split r2
                  else
                    match r2 with
                    | d :: r3 =>
                        if between 240 247 (byte a) && continuation b
                           && continuation c && continuation d
                        then [a; b; c; d] :: split r3
                        else [a] :: split r
                    | [] => [a] :: split r
                    end
              | [] => [a] :: split r
              end
        | [] => [[a]]
        end
  end.

Definition chars (s : string) : list Char := split (list_ascii_of_string s).
Definition str_of (l : list Char) : string :=
  string_of_list_ascii (List.concat l).

(** [ord(c)] *)
Definition ord (ch : Char) : N :=
  match ch with
  | [a; b] => (byte a mod 32) * 64 + byte b mod 64
  | [a; b; c] => (byte a mod 16) * 4096 + (byte b mod 64) * 64 + byte c mod 64
  | [a; b; c; d] =>
      (byte a mod 8) * 262144 + (byte b mod 64) * 4096 + (byte c mod 64) * 64
      + byte d mod 64
  | a :: _ => byte a
  | [] => 0
  end%N.

(** [str.isspace] on one character. *)
Definition is_space (n : N) : bool :=
  (between 9 13 n || between 28 32 n || (n =? 133) || (n =? 160) || (n =? 5760)
   || between 8192 8202 n || (n =? 8232) || (n =? 8233) || (n =? 8239)
   || (n =? 8287) || (n =? 12288))%N.

(** The digit zero of every decimal script; the digits 1 to 9 follow each. *)
Definition decimal_zeros : list N :=
  [48; 1632; 1776; 1984; 2406; 2534; 2662; 2790; 2918; 3046; 3174; 3302; 3430;
   3558; 3664; 3792; 3872; 4160; 4240; 6112; 6160; 6470; 6608; 6784; 6800;
   6992; 7088; 7232; 7248; 42528; 43216; 43264; 43472; 43504; 43600; 44016;
   65296; 66720; 68912; 69734; 69872; 69942; 70096; 70384; 70736; 70864;
   71248; 71360; 71472; 71904; 72016; 72784; 73040; 73120; 92768; 92864;
   93008; 120782; 120792; 120802; 120812; 120822; 123200; 123632; 125264;
   130032]%N.

(** The value of a decimal digit, of any script. *)
Definition digit (n : N) : option Z :=
  option_map (fun zero => Z.of_N (n - zero))
             (find (fun zero => between zero (zero + 9) n) decimal_zeros).

(** [str(n)] for a non-negative integer. *)
Definition str_nat (n : nat) : string := NilZero.string_of_uint (Nat.to_uint n).
Definition str_N (n : N) : string := NilZero.string_of_uint (N.to_uint n).

Fixpoint lstrip (l : list Char) : list Char :=
  match l with
  | c :: r => if is_space (ord c) then lstrip r else l
  | [] => []
  end.

(** [s.strip()] *)
Definition strip (s : string) : string :=
  str_of (rev (lstrip (rev (lstrip (chars s))))).

(** *** [int(s)]

    The blanks [int] skips around a literal are those of [str.isspace], but
    for the four separators U+001C to U+001F. *)
Definition is_blank (n : N) : bool :=
  (between 9 13 n || (n =? 32) || ((128 <=? n) && is_space n))%N.

Fixpoint skip_blanks (l : list Char) : list Char :=
  match l with
  | c :: r => if is_blank (ord c) then skip_blanks r else l
  | [] => []
  end.

(** The run of digits at the head of [l], with single underscores between
    digits: its value, the number of its digits, and what follows it.
    [None]: an underscore is doubled or ends the run. *)
Fixpoint scan_digits (value : Z) (count : N) (after_underscore : bool)
         (l : list Char) : option (Z * N * list Char) :=
  match l with
  | c :: r =>
      match digit (ord c) with
      | Some d => scan_digits (10 * value + d) (count + 1) false r
      | None =>
          if (ord c =? 95)%N then
            if after_underscore then None else scan_digits value count true r
          else if after_underscore then None else Some (value, count, l)
      end
  | [] => if after_underscore then None else Some (value, count, [])
  end.

(** [sys.get_int_max_str_digits()] *)
Definition max_str_digits : N := 4300.

Inductive IntResult : Type :=
| IntValue (n : Z)
| IntInvalid               (* invalid literal for int() with base 10 *)
| IntTooLong (digits : N). (* Exceeds the limit (4300 digits) *)

(** The literal after the sign. The limit on the digits is checked once
    the run of digits has been scanned, before what follows it is looked
    at; leading zeros count. *)
Definition int_unsigned (l : list Char) : IntResult :=
  match l with
  | c :: _ =>
      if (ord c =? 95)%N then IntInvalid
      else
        match scan_digits 0 0 false l with
        | Some (value, count, rest) =>
            if (count =? 0)%N then IntInvalid
            else if (max_str_digits <? count)%N then IntTooLong count
            else match skip_blanks rest with
                 | [] => IntValue value
                 | _ :: _ => IntInvalid
                 end
        | None => IntInvalid
        end
  | [] => IntInvalid
  end.

Definition int_result (s : string) : IntResult :=
  match skip_blanks (chars s) with
  | c :: r =>
      if (ord c =? 43)%N then int_unsigned r
      else if (ord c =? 45)%N then
        match int_unsigned r with
        | IntValue n => IntValue (- n)
        | other => other
        end
      else int_unsigned (c :: r)
  | [] => IntInvalid
  end.

(** [int(s)]: [None] stands for the [ValueError] the call raises. *)
Definition int (s : string) : option Z :=
  match int_result s with
  | IntValue n => Some n
  | _ => None
  end.

(** [sub in s] *)
Definition contains (sub s : string) : Prop :=
  exists pre post, s = pre ++ sub ++ post.

(** *** [repr(s)] *)

Definition hex_digit (n : N) : ascii :=
  if (n <? 10)%N then ascii_of_N (48 + n) else ascii_of_N (87 + n).

(** [n] in hexadecimal, on [width] digits. *)
Fixpoint hex (width : nat) (n : N) : list ascii :=
  match width with
  | O => []
  | S w => hex w (n / 16) ++ [hex_digit (n mod 16)]
  end.

(** The code points from U+0080 on that [str.isprintable] rejects, as
    ranges. *)
Definition not_printable : list (N * N) :=
  [(128, 160); (173, 173); (888, 889); (896, 899); (907, 907); (909, 909);
   (930, 930); (1328, 1328); (1367, 1368); (1419, 1420); (1424, 1424);
   (1480, 1487); (1515, 1518); (1525, 1541); (1564, 1564); (1757, 1757);
   (1806, 1807); (1867, 1868); (1970, 1983); (2043, 2044); (2094, 2095);
   (2111, 2111); (2140, 2141); (2143, 2143); (2155, 2159); (2191, 2199);
   (2274, 2274); (2436, 2436); (2445, 2446); (2449, 2450); (2473, 2473);
   (2481, 2481); (2483, 2485); (2490, 2491); (2501, 2502); (2505, 2506);
   (2511, 2518); (2520, 2523); (2526, 2526); (2532, 2533); (2559, 2560);
   (2564, 2564); (2571, 2574); (2577, 2578); (2601, 2601); (2609, 2609);
   (2612, 2612); (2615, 2615); (2618, 2619); (2621, 2621); (2627, 2630);
   (2633, 2634); (2638, 2640); (2642, 2648); (2653, 2653); (2655, 2661);
   (2679, 2688); (2692, 2692); (2702, 2702); (2706, 2706); (2729, 2729);
   (2737, 2737); (2740, 2740); (2746, 2747); (2758, 2758); (2762, 2762);
   (2766, 2767); (2769, 2783); (2788, 2789); (2802, 2808); (2816, 2816);
   (2820, 2820); (2829, 2830); (2833, 2834); (2857, 2857); (2865, 2865);
   (2868, 2868); (2874, 2875); (2885, 2886); (2889, 2890); (2894, 2900);
   (2904, 2907); (2910, 2910); (2916, 2917); (2936, 2945); (2948, 2948);
   (2955, 2957); (2961, 2961); (2966, 2968); (2971, 2971); (2973, 2973);
   (2976, 2978); (2981, 2983); (2987, 2989); (3002, 3005); (3011, 3013);
   (3017, 3017); (3022, 3023); (3025, 3030); (3032, 3045); (3067, 3071);
   (3085, 3085); (3089, 3089); (3113, 3113); (3130, 3131); (3141, 3141);
   (3145, 3145); (3150, 3156); (3159, 3159); (3163, 3164); (3166, 3167);
   (3172, 3173); (3184, 3190); (3213, 3213); (3217, 3217); (3241, 3241);
   (3252, 3252); (3258, 3259); (3269, 3269); (3273, 3273); (3278, 3284);
   (3287, 3292); (3295, 3295); (3300, 3301); (3312, 3312); (3315, 3327);
   (3341, 3341); (3345, 3345); (3397, 3397); (3401, 3401); (3408, 3411);
   (3428, 3429); (3456, 3456); (3460, 3460); (3479, 3481); (3506, 3506);
   (3516, 3516); (3518, 3519); (3527, 3529); (3531, 3534); (3541, 3541);
   (3543, 3543); (3552, 3557); (3568, 3569); (3573, 3584); (3643, 3646);
   (3676, 3712); (3715, 3715); (3717, 3717); (3723, 3723); (3748, 3748);
   (3750, 3750); (3774, 3775); (3781, 3781); (3783, 3783); (3790, 3791);
   (3802, 3803); (3808, 3839); (3912, 3912); (3949, 3952); (3992, 3992);
   (4029, 4029); (4045, 4045); (4059, 4095); (4294, 4294); (4296, 4300);
   (4302, 4303); (4681, 4681); (4686, 4687); (4695, 4695); (4697, 4697);
   (4702, 4703); (4745, 4745); (4750, 4751); (4785, 4785); (4790, 4791);
   (4799, 4799); (4801, 4801); (4806, 4807); (4823, 4823); (4881, 4881);
   (4886, 4887); (4955, 4956); (4989, 4991); (5018, 5023); (5110, 5111);
   (5118, 5119); (5760, 5760); (5789, 5791); (5881, 5887); (5910, 5918);
   (5943, 5951); (5972, 5983); (5997, 5997); (6001, 6001); (6004, 6015);
   (6110, 6111); (6122, 6127); (6138, 6143); (6158, 6158); (6170, 6175);
   (6265, 6271); (6315, 6319); (6390, 6399); (6431, 6431); (6444, 6447);
   (6460, 6463); (6465, 6467); (6510, 6511); (6517, 6527); (6572, 6575);
   (6602, 6607); (6619, 6621); (6684, 6685); (6751, 6751); (6781, 6782);
   (6794, 6799); (6810, 6815); (6830, 6831); (6863, 6911); (6989, 6991);
   (7039, 7039); (7156, 7163); (7224, 7226); (7242, 7244); (7305, 7311);
   (7355, 7356); (7368, 7375); (7419, 7423); (7958, 7959); (7966, 7967);
   (8006, 8007); (8014, 8015); (8024, 8024); (8026, 8026); (8028, 8028);
   (8030, 8030); (8062, 8063); (8117, 8117); (8133, 8133); (8148, 8149);
   (8156, 8156); (8176, 8177); (8181, 8181); (8191, 8207); (8232, 8239);
   (8287, 8303); (8306, 8307); (8335, 8335); (8349, 8351); (8385, 8399);
   (8433, 8447); (8588, 8591); (9255, 9279); (9291, 9311); (11124, 11125);
   (11158, 11158); (11508, 11512); (11558, 11558); (11560, 11564);
   (11566, 11567); (11624, 11630); (11633, 11646); (11671, 11679);
   (11687, 11687); (11695, 11695); (11703, 11703); (11711, 11711);
   (11719, 11719); (11727, 11727); (11735, 11735); (11743, 11743);
   (11870, 11903); (11930, 11930); (12020, 12031); (12246, 12271);
   (12284, 12288); (12352, 12352); (12439, 12440); (12544, 12548);
   (12592, 12592); (12687, 12687); (12772, 12783); (12831, 12831);
   (42125, 42127); (42183, 42191); (42540, 42559); (42744, 42751);
   (42955, 42959); (42962, 42962); (42964, 42964); (42970, 42993);
   (43053, 43055); (43066, 43071); (43128, 43135); (43206, 43213);
   (43226, 43231); (43348, 43358); (43389, 43391); (43470, 43470);
   (43482, 43485); (43519, 43519); (43575, 43583); (43598, 43599);
   (43610, 43611); (43715, 43738); (43767, 43776); (43783, 43784);
   (43791, 43792); (43799, 43807); (43815, 43815); (43823, 43823);
   (43884, 43887); (44014, 44015); (44026, 44031); (55204, 55215);
   (55239, 55242); (55292, 63743); (64110, 64111); (64218, 64255);
   (64263, 64274); (64280, 64284); (64311, 64311); (64317, 64317);
   (64319, 64319); (64322, 64322); (64325, 64325); (64451, 64466);
   (64912, 64913); (64968, 64974); (64976, 65007); (65050, 65055);
   (65107, 65107); (65127, 65127); (65132, 65135); (65141, 65141);
   (65277, 65280); (65471, 65473); (65480, 65481); (65488, 65489);
   (65496, 65497); (65501, 65503); (65511, 65511); (65519, 65531);
   (65534, 65535); (65548, 65548); (65575, 65575); (65595, 65595);
   (65598, 65598); (65614, 65615); (65630, 65663); (65787, 65791);
   (65795, 65798); (65844, 65846); (65935, 65935); (65949, 65951);
   (65953, 65999); (66046, 66175); (66205, 66207); (66257, 66271);
   (66300, 66303); (66340, 66348); (66379, 66383); (66427, 66431);
   (66462, 66462); (66500, 66503); (66518, 66559); (66718, 66719);
   (66730, 66735); (66772, 66775); (66812, 66815); (66856, 66863);
   (66916, 66926); (66939, 66939); (66955, 66955); (66963, 66963);
   (66966, 66966); (66978, 66978); (66994, 66994); (67002, 67002);
   (67005, 67071); (67383, 67391); (67414, 67423); (67432, 67455);
   (67462, 67462); (67505, 67505); (67515, 67583); (67590, 67591);
   (67593, 67593); (67638, 67638); (67641, 67643); (67645, 67646);
   (67670, 67670); (67743, 67750); (67760, 67807); (67827, 67827);
   (67830, 67834); (67868, 67870); (67898, 67902); (67904, 67967);
   (68024, 68027); (68048, 68049); (68100, 68100); (68103, 68107);
   (68116, 68116); (68120, 68120); (68150, 68151); (68155, 68158);
   (68169, 68175); (68185, 68191); (68256, 68287); (68327, 68330);
   (68343, 68351); (68406, 68408); (68438, 68439); (68467, 68471);
   (68498, 68504); (68509, 68520); (68528, 68607); (68681, 68735);
   (68787, 68799); (68851, 68857); (68904, 68911); (68922, 69215);
   (69247, 69247); (69290, 69290); (69294, 69295); (69298, 69375);
   (69416, 69423); (69466, 69487); (69514, 69551); (69580, 69599);
   (69623, 69631); (69710, 69713); (69750, 69758); (69821, 69821);
   (69827, 69839); (69865, 69871); (69882, 69887); (69941, 69941);
   (69960, 69967); (70007, 70015); (70112, 70112); (70133, 70143);
   (70162, 70162); (70207, 70271); (70279, 70279); (70281, 70281);
   (70286, 70286); (70302, 70302); (70314, 70319); (70379, 70383);
   (70394, 70399); (70404, 70404); (70413, 70414); (70417, 70418);
   (70441, 70441); (70449, 70449); (70452, 70452); (70458, 70458);
   (70469, 70470); (70473, 70474); (70478, 70479); (70481, 70486);
   (70488, 70492); (70500, 70501); (70509, 70511); (70517, 70655);
   (70748, 70748); (70754, 70783); (70856, 70863); (70874, 71039);
   (71094, 71095); (71134, 71167); (71237, 71247); (71258, 71263);
   (71277, 71295); (71354, 71359); (71370, 71423); (71451, 71452);
   (71468, 71471); (71495, 71679); (71740, 71839); (71923, 71934);
   (71943, 71944); (71946, 71947); (71956, 71956); (71959, 71959);
   (71990, 71990); (71993, 71994); (72007, 72015); (72026, 72095);
   (72104, 72105); (72152, 72153); (72165, 72191); (72264, 72271);
   (72355, 72367); (72441, 72703); (72713, 72713); (72759, 72759);
   (72774, 72783); (72813, 72815); (72848, 72849); (72872, 72872);
   (72887, 72959); (72967, 72967); (72970, 72970); (73015, 73017);
   (73019, 73019); (73022, 73022); (73032, 73039); (73050, 73055);
   (73062, 73062); (73065, 73065); (73103, 73103); (73106, 73106);
   (73113, 73119); (73130, 73439); (73465, 73647); (73649, 73663);
   (73714, 73726); (74650, 74751); (74863, 74863); (74869, 74879);
   (75076, 77711); (77811, 77823); (78895, 82943); (83527, 92159);
   (92729, 92735); (92767, 92767); (92778, 92781); (92863, 92863);
   (92874, 92879); (92910, 92911); (92918, 92927); (92998, 93007);
   (93018, 93018); (93026, 93026); (93048, 93052); (93072, 93759);
   (93851, 93951); (94027, 94030); (94088, 94094); (94112, 94175);
   (94181, 94191); (94194, 94207); (100344, 100351); (101590, 101631);
   (101641, 110575); (110580, 110580); (110588, 110588); (110591, 110591);
   (110883, 110927); (110931, 110947); (110952, 110959); (111356, 113663);
   (113771, 113775); (113789, 113791); (113801, 113807); (113818, 113819);
   (113824, 118527); (118574, 118575); (118599, 118607); (118724, 118783);
   (119030, 119039); (119079, 119080); (119155, 119162); (119275, 119295);
   (119366, 119519); (119540, 119551); (119639, 119647); (119673, 119807);
   (119893, 119893); (119965, 119965); (119968, 119969); (119971, 119972);
   (119975, 119976); (119981, 119981); (119994, 119994); (119996, 119996);
   (120004, 120004); (120070, 120070); (120075, 120076); (120085, 120085);
   (120093, 120093); (120122, 120122); (120127, 120127); (120133, 120133);
   (120135, 120137); (120145, 120145); (120486, 120487); (120780, 120781);
   (121484, 121498); (121504, 121504); (121520, 122623); (122655, 122879);
   (122887, 122887); (122905, 122906); (122914, 122914); (122917, 122917);
   (122923, 123135); (123181, 123183); (123198, 123199); (123210, 123213);
   (123216, 123535); (123567, 123583); (123642, 123646); (123648, 124895);
   (124903, 124903); (124908, 124908); (124911, 124911); (124927, 124927);
   (125125, 125126); (125143, 125183); (125260, 125263); (125274, 125277);
   (125280, 126064); (126133, 126208); (126270, 126463); (126468, 126468);
   (126496, 126496); (126499, 126499); (126501, 126502); (126504, 126504);
   (126515, 126515); (126520, 126520); (126522, 126522); (126524, 126529);
   (126531, 126534); (126536, 126536); (126538, 126538); (126540, 126540);
   (126544, 126544); (126547, 126547); (126549, 126550); (126552, 126552);
   (126554, 126554); (126556, 126556); (126558, 126558); (126560, 126560);
   (126563, 126563); (126565, 126566); (126571, 126571); (126579, 126579);
   (126584, 126584); (126589, 126589); (126591, 126591); (126602, 126602);
   (126620, 126624); (126628, 126628); (126634, 126634); (126652, 126703);
   (126706, 126975); (127020, 127023); (127124, 127135); (127151, 127152);
   (127168, 127168); (127184, 127184); (127222, 127231); (127406, 127461);
   (127491, 127503); (127548, 127551); (127561, 127567); (127570, 127583);
   (127590, 127743); (128728, 128732); (128749, 128751); (128765, 128767);
   (128884, 128895); (128985, 128991); (129004, 129007); (129009, 129023);
   (129036, 129039); (129096, 129103); (129114, 129119); (129160, 129167);
   (129198, 129199); (129202, 129279); (129620, 129631); (129646, 129647);
   (129653, 129655); (129661, 129663); (129671, 129679); (129709, 129711);
   (129723, 129727); (129734, 129743); (129754, 129759); (129768, 129775);
   (129783, 129791); (129939, 129939); (129995, 130031); (130042, 131071);
   (173792, 173823); (177977, 177983); (178206, 178207); (183970, 183983);
   (191457, 194559); (195102, 196607); (201547, 917759); (918000, 1114111)]%N.

Definition is_printable (n : N) : bool :=
  negb (existsb (fun range => between (fst range) (snd range) n) not_printable).

Definition repr_char (quote : N) (c : Char) : list ascii :=
  let n := ord c in
  if ((n =? quote) || (n =? 92))%N then "\"%char :: c
  else if (n =? 9)%N then ["\"%char; "t"%char]
  else if (n =? 10)%N then ["\"%char; "n"%char]
  else if (n =? 13)%N then ["\"%char; "r"%char]
  else if ((n <? 32) || (n =? 127))%N then ["\"%char; "x"%char] ++ hex 2 n
  else if (n <? 127)%N then c
  else if is_printable n then c
  else if (n <=? 255)%N then ["\"%char; "x"%char] ++ hex 2 n
  else if (n <=? 65535)%N then ["\"%char; "u"%char] ++ hex 4 n
  else ["\"%char; "U"%char] ++ hex 8 n.

Definition has_char (n : N) (l : list Char) : bool :=
  existsb (fun c => (ord c =? n)%N) l.

Definition repr_str (s : string) : string :=
  let l := chars s in
  let quote := if has_char 39 l && negb (has_char 34 l) then 34%N else 39%N in
  string_of_list_ascii
    (ascii_of_N quote :: flat_map (repr_char quote) l ++ [ascii_of_N quote]).

(** The message of the [ValueError] of [int(s)]. *)
Definition int_error (s : string) : string :=
  match int_result s with
  | IntTooLong digits =>
      "Exceeds the limit (4300 digits) for integer string conversion: value has "
      ++ str_N digits ++ " digits; use sys.set_int_max_str_digits() to increase the limit"
  | _ => "invalid literal for int() with base 10: " ++ repr_str s
  end.

(** *** The fragment of [re] the program uses

    A compiled pattern is a sequence of atoms; [re.escape] turns every
    character of its argument into a literal, so the only atoms are
    literals and the word boundary. The text a pattern is run on is ASCII
    (the program has one, a fixed sentence): the word class and the case
    table below are those of [re] for such a text, whatever the characters
    of the pattern. *)

Inductive Atom : Type :=
| WordBoundary
| Literal (c : N).

Record Pattern : Type := compile { atoms : list Atom; ignorecase : bool }.

Definition escape (s : string) : list Atom :=
  map (fun c => Literal (ord c)) (chars s).

(** The class [\w]: a letter, a digit or the underscore. *)
Definition is_word (n : N) : bool :=
  (between 48 57 n || between 65 90 n || between 97 122 n || (n =? 95))%N.

(** The case folding of [re.IGNORECASE]: a capital letter is its small
    letter; so are, for i, s and k, the four characters U+0130, U+0131,
    U+017F and U+212A. *)
Definition fold (n : N) : N :=
  (if between 65 90 n then n + 32
   else if (n =? 304) || (n =? 305) then 105
   else if n =? 383 then 115
   else if n =? 8490 then 107
   else n)%N.

Definition word_before (prev : option Char) : bool :=
  match prev with Some c => is_word (ord c) | None => false end.

Definition word_here (t : list Char) : bool :=
  match t with c :: _ => is_word (ord c) | [] => false end.

(** [\b] holds where exactly one neighbour is a word character. *)
Definition at_boundary (prev : option Char) (t : list Char) : bool :=
  xorb (word_before prev) (word_here t).

Definition char_matches (ic : bool) (c : N) (x : Char) : bool :=
  if ic then (fold (ord x) =? fold c)%N else (ord x =? c)%N.

(** Match the atoms at the current position; [prev] is the character just
    before it. The result is the matched text. *)
Fixpoint match_here (ic : bool) (p : list Atom) (prev : option Char)
         (t : list Char) : option (list Char) :=
  match p with
  | [] => Some []
  | WordBoundary :: p' =>
      if at_boundary prev t then match_here ic p' prev t else None
  | Literal c :: p' =>
      match t with
      | x :: t' =>
          if char_matches ic c x
          then option_map (cons x) (match_here ic p' (Some x) t')
          else None
      | [] => None
      end
  end.

(** The scan of [pattern.findall]: leftmost matches, none overlapping the
    previous one; [skip] counts the characters still covered by it. *)
Fixpoint scan (p : Pattern) (skip : nat) (prev : option Char)
         (t : list Char) : list (list Char) :=
  let here :=
    match skip with
    | O => match_here (ignorecase p) (atoms p) prev t
    | S _ => None
    end in
  let skip' := match here with Some m => List.length m | None => skip end in
  match here with Some m => [m] | None => [] end
  ++ match t with
     | [] => []
     | x :: t' => scan p (pred skip') (Some x) t'
     end.

Definition findall (p : Pattern) (s : string) : list string :=
  map str_of (scan p 0 None (chars s)).

End Py.

(** ** Exceptions *)

Inductive ExnClass : Type :=
| SystemExit
| EOFError
| ValueError
| JSONDecodeError
| KeyError
| TypeError
| IndexError
| ConnectionError
| Timeout
| HTTPError
| TooManyRedirects
| InvalidURL
| FileNotFoundError
| InvalidDatabaseError
| AddressNotFoundError
| RecursionError
| ParserRejectedMarkup
| OtherException (class_name : string). (* a class deriving from Exception,
                                           none of the above nor one of their
                                           subclasses *)

Record Exn : Type := mkExn { exn_class : ExnClass; exn_msg : string }.

(** [except Exception]: everything but [SystemExit], which derives from
    [BaseException] only. *)
Definition is_Exception (c : ExnClass) : bool :=
  match c with SystemExit => false | _ => true end.

(** [except ValueError]: the decoder's [JSONDecodeError] derives from it. *)
Definition is_ValueError (c : ExnClass) : bool :=
  match c with ValueError | JSONDecodeError => true | _ => false end.

(** [except requests.exceptions.RequestException] *)
Definition is_RequestException (c : ExnClass) : bool :=
  match c with
  | ConnectionError | Timeout | HTTPError | TooManyRedirects | InvalidURL => true
  | _ => false
  end.

(** ** The libraries, as oracles *)

(** What [requests.get] raises: a [RequestException] of one of four kinds,
    a plain [ValueError] (a redirect whose Location cannot be parsed), or an
    exception of another class. *)
Inductive RequestsError : Type :=
| RConnectionError
| RTimeout
| RTooManyRedirects
| RInvalidURL
| RValueError
| ROther (class_name : string).

Definition requests_class (k : RequestsError) : ExnClass :=
  match k with
  | RConnectionError => ConnectionError
  | RTimeout => Timeout
  | RTooManyRedirects => TooManyRedirects
  | RInvalidURL => InvalidURL
  | RValueError => ValueError
  | ROther name => OtherException name
  end.

(** A call of [requests.get] that yields no response: it raises, or, no
    timeout being given, it never returns. *)
Inductive GetFailure : Type :=
| GetRaises (k : RequestsError) (msg : string)
| GetHangs.

Record Response : Type := mkResponse { status_code : Z; text : string }.

(** What the json decoder raises: its own error on a malformed document,
    [RecursionError] on one nested too deep, or an exception of another
    class. *)
Inductive DecodeError : Type :=
| DJSONDecodeError
| DRecursionError
| DOther (class_name : string).

Definition decode_class (k : DecodeError) : ExnClass :=
  match k with
  | DJSONDecodeError => JSONDecodeError
  | DRecursionError => RecursionError
  | DOther name => OtherException name
  end.

(** What the HTML parser raises: [ParserRejectedMarkup] on a document it
    cannot read, or an exception of another class. *)
Inductive ParserError : Type :=
| PRejectedMarkup
| POther (class_name : string).

Definition parser_class (k : ParserError) : ExnClass :=
  match k with
  | PRejectedMarkup => ParserRejectedMarkup
  | POther name => OtherException name
  end.

#[warnings="-register-all"]
Inductive JSON : Type :=
| JNull
| JBool (b : bool)
| JNum (repr : string)
| JStr (s : string)
| JArr (items : list JSON)
| JObj (members : list (string * JSON)).

(** What the geo-database reader raises: on opening the file, the first two;
    on a lookup, the last three. *)
Inductive GeoError : Type :=
| GFileNotFound
| GInvalidDatabase
| GAddressNotFound
| GBadAddress.

Definition geo_class (k : GeoError) : ExnClass :=
  match k with
  | GFileNotFound => FileNotFoundError
  | GInvalidDatabase => InvalidDatabaseError
  | GAddressNotFound => AddressNotFoundError
  | GBadAddress => ValueError
  end.

(** A city record; a coordinate is carried as the text [str] gives it. *)
Record City : Type := mkCity {
  city_name : option string;
  country_name : option string;
  latitude : option string;
  longitude : option string
}.

Record Env : Type := mkEnv {
  (** [requests.get(url)], the n-th GET of the run *)
  http_get : nat -> string -> GetFailure + Response;
  (** the reason phrase [raise_for_status] puts in its message *)
  http_error_msg : Response -> string;
  (** [response.json()] on a body, [json.load] on a file *)
  json_decode : string -> (DecodeError * string) + JSON;
  (** [BeautifulSoup(html, 'html.parser')]: the error raised, if any *)
  html_parser : string -> option (ParserError * string);
  (** [soup.find_all(tag, class_=cls)] on a document, each node's [.text] *)
  find_all : string -> string -> string -> list string;
  (** [geoip2.database.Reader(path)] *)
  geo_open : string -> option (GeoError * string);
  (** [reader.city(ip)] *)
  geo_city : string -> (GeoError * string) + City;
  (** [asctime] of the n-th log record *)
  asctime : nat -> string
}.

(** ** The world *)

Inductive ConsoleEvent : Type :=
| Printed (line : string)     (* print(line) *)
| Prompted (prompt : string). (* the prompt of input(prompt) *)

Inductive Level : Type := INFO | ERROR.

Definition levelno (l : Level) : Z := match l with INFO => 20 | ERROR => 40 end.
Definition levelname (l : Level) : string :=
  match l with INFO => "INFO" | ERROR => "ERROR" end.

Record LogRecord : Type := mkLog { log_time : string; log_level : Level; log_msg : string }.

(** '%(asctime)s:%(levelname)s:%(message)s' *)
Definition format_record (r : LogRecord) : string :=
  log_time r ++ ":" ++ levelname (log_level r) ++ ":" ++ log_msg r.

Inductive GeoEvent : Type :=
| GeoOpened (path : string)
| GeoLookup (ip : string)
| GeoClosed.

(** The procedures a menu entry can be bound to. *)
Inductive Action : Type :=
| A_domain_lookup
| A_ip_geolocation
| A_public_records
| A_reverse_image_search
| A_saps_wanted_missing
| A_international_wanted_missing
| A_social_network_search (search_type : string)
| A_real_name_search_pattern
| A_google_dorks
| A_username_search
| A_email_address_search
| A_compromised_databases_search
| A_phone_number_search
| A_whois
| A_reverse_whois
| A_passive_dns
| A_geolocation_tools
| A_print_help
| A_print_settings
| A_exit_program.

Record World : Type := mkWorld {
  stdin : list string;          (* the lines the user will type *)
  console : list ConsoleEvent;  (* what was written to the terminal, oldest first *)
  logfile : list LogRecord;     (* reconsouthafrica.log, oldest first *)
  http_trace : list string;     (* the URL of every GET issued *)
  geo_trace : list GeoEvent;    (* every use of the geo-database reader *)
  calls : list Action           (* every entry into an action procedure *)
}.

(** ** The monad: state over [World], with exceptions *)

Inductive Result (A : Type) : Type :=
| Ok (a : A)
| Raise (e : Exn)
| Hang.            (* the call never returns *)
Arguments Ok {A} a.
Arguments Raise {A} e.
Arguments Hang {A}.

Definition M (A : Type) : Type := World -> Result A * World.

Definition ret {A} (a : A) : M A := fun w => (Ok a, w).

Definition bind {A B} (m : M A) (k : A -> M B) : M B :=
  fun w => match m w with
           | (Ok a, w') => k a w'
           | (Raise e, w') => (Raise e, w')
           | (Hang, w') => (Hang, w')
           end.

Definition raise {A} (c : ExnClass) (msg : string) : M A :=
  fun w => (Raise (mkExn c msg), w).

(** [try: m  except <classes> as e: handler e] *)
Definition try_except {A} (m : M A) (catches : ExnClass -> bool)
           (handler : Exn -> M A) : M A :=
  fun w => match m w with
           | (Ok a, w') => (Ok a, w')
           | (Raise e, w') =>
               if catches (exn_class e) then handler e w' else (Raise e, w')
           | (Hang, w') => (Hang, w')
           end.

(** Run [cleanup] when [m] is left, normally or by an exception, and keep
    the outcome of [m]: the exit of a [with] block whose manager does not
    swallow exceptions. *)
Definition finally {A} (m : M A) (cleanup : M unit) : M A :=
  fun w => match m w with
           | (Hang, w') => (Hang, w')
           | (r, w') => (r, snd (cleanup w'))
           end.

Declare Scope py_scope.
Delimit Scope py_scope with py.
Notation "x <- m ;; k" := (bind m (fun x => k))
  (at level 61, m at next level, right associativity) : py_scope.
Notation "m ;; k" := (bind m (fun _ => k))
  (at level 61, right associativity) : py_scope.
Local Open Scope py_scope.

Fixpoint for_each {A} (l : list A) (body : A -> M unit) : M unit :=
  match l with
  | [] => ret tt
  | x :: r => body x ;; for_each r body
  end.

(** ** Primitive effects *)

Definition print (line : string) : M unit :=
  fun w => (Ok tt, mkWorld (stdin w) (console w ++ [Printed line])%list (logfile w)
                          (http_trace w) (geo_trace w) (calls w)).

(** [input(prompt)]: end of input raises [EOFError]. *)
Definition input (prompt : string) : M string :=
  fun w =>
    let out := (console w ++ [Prompted prompt])%list in
    match stdin w with
    | line :: rest =>
        (Ok line, mkWorld rest out (logfile w) (http_trace w) (geo_trace w) (calls w))
    | [] =>
        (Raise (mkExn EOFError "EOF when reading a line"),
         mkWorld [] out (logfile w) (http_trace w) (geo_trace w) (calls w))
    end.

(** Entering an action procedure. *)
Definition enter (a : Action) : M unit :=
  fun w => (Ok tt, mkWorld (stdin w) (console w) (logfile w)
                          (http_trace w) (geo_trace w) (calls w ++ [a])%list).

Definition geo_event (ev : GeoEvent) : M unit :=
  fun w => (Ok tt, mkWorld (stdin w) (console w) (logfile w)
                          (http_trace w) (geo_trace w ++ [ev])%list (calls w)).

Section App.

Variable env : Env.

(** [setup_logging]: the root logger writes records of level INFO and
    above to the log file. *)
Definition root_level : Level := INFO.

Definition logging_log (l : Level) (msg : string) : M unit :=
  fun w =>
    if (levelno root_level <=? levelno l)%Z then
      (Ok tt, mkWorld (stdin w) (console w)
                      (logfile w ++ [mkLog (asctime env (List.length (logfile w))) l msg])%list
                      (http_trace w) (geo_trace w) (calls w))
    else (Ok tt, w).

Definition logging_error : string -> M unit := logging_log ERROR.
Definition logging_info : string -> M unit := logging_log INFO.

(** [requests.get(url)] *)
Definition requests_get (url : string) : M Response :=
  fun w =>
    let w' := mkWorld (stdin w) (console w) (logfile w)
                      (http_trace w ++ [url])%list (geo_trace w) (calls w) in
    match http_get env (List.length (http_trace w)) url with
    | inl (GetRaises k msg) => (Raise (mkExn (requests_class k) msg), w')
    | inl GetHangs => (Hang, w')
    | inr r => (Ok r, w')
    end.

(** [response.raise_for_status()]: an error for the 4xx and 5xx codes. *)
Definition raise_for_status (r : Response) : M unit :=
  if ((400 <=? status_code r) && (status_code r <? 600))%Z
  then raise HTTPError (http_error_msg env r)
  else ret tt.

(** [bool(response)] is [response.ok]: no error from [raise_for_status]. *)
Definition response_ok (r : Response) : bool :=
  negb ((400 <=? status_code r) && (status_code r <? 600))%Z.

Definition make_request (url : string) : M (option Response) :=
  try_except
    (response <- requests_get url ;;
     raise_for_status response ;;
     ret (Some response))
    is_RequestException
    (fun e =>
       logging_error ("Request failed: " ++ exn_msg e) ;;
       print ("Request failed: " ++ exn_msg e) ;;
       ret None).

(** [if response: ... else: ...] *)
Definition if_response {A} (response : option Response)
           (yes : Response -> M A) (no : M A) : M A :=
  match response with
  | Some r => if response_ok r then yes r else no
  | None => no
  end.

(** [BeautifulSoup(html, 'html.parser')]: a document is kept as its source. *)
Inductive Soup : Type := BeautifulSoup (html : string).

Definition parse_html (html : string) : M Soup :=
  match html_parser env html with
  | Some (k, msg) => raise (parser_class k) msg
  | None => ret (BeautifulSoup html)
  end.

Definition soup_find_all (soup : Soup) (tag cls : string) : list string :=
  match soup with BeautifulSoup html => find_all env html tag cls end.

(** *** Decoded JSON values, as the Python objects they become *)

Fixpoint repr (v : JSON) : string :=
  match v with
  | JNull => "None"
  | JBool true => "True"
  | JBool false => "False"
  | JNum r => r
  | JStr s => Py.repr_str s
  | JArr items => "[" ++ String.concat ", " (map repr items) ++ "]"
  | JObj members =>
      "{" ++ String.concat ", "
               (map (fun kv => match kv with
                               | (k, x) => Py.repr_str k ++ ": " ++ repr x
                               end) members)
          ++ "}"
  end.

(** [str(v)], what [print(v)] writes. *)
Definition str (v : JSON) : string :=
  match v with JStr s => s | _ => repr v end.

Definition type_name (v : JSON) : string :=
  match v with
  | JNull => "NoneType"
  | JBool _ => "bool"
  | JNum r =>
      if existsb (fun c => negb (Py.between 48 57 (Py.byte c) || (Py.byte c =? 45)%N))
                 (list_ascii_of_string r)
      then "float" else "int"
  | JStr _ => "str"
  | JArr _ => "list"
  | JObj _ => "dict"
  end.

Fixpoint dict_get (members : list (string * JSON)) (key : string) : option JSON :=
  match members with
  | [] => None
  | (k, x) :: r => if String.eqb k key then Some x else dict_get r key
  end.

(** [data[key]] with a text key. *)
Definition subscript (data : JSON) (key : string) : M JSON :=
  match data with
  | JObj members =>
      match dict_get members key with
      | Some x => ret x
      | None => raise KeyError (Py.repr_str key)
      end
  | JArr _ => raise TypeError "list indices must be integers or slices, not str"
  | JStr _ => raise TypeError "string indices must be integers, not 'str'"
  | _ => raise TypeError ("'" ++ type_name data ++ "' object is not subscriptable")
  end.

(** [for x in v]: the items of a list, the keys of a dict, the characters
    of a text. *)
Definition iterate (v : JSON) : M (list JSON) :=
  match v with
  | JArr items => ret items
  | JObj members => ret (map (fun kv => JStr (fst kv)) members)
  | JStr s => ret (map (fun c => JStr (Py.str_of [c])) (Py.chars s))
  | _ => raise TypeError ("'" ++ type_name v ++ "' object is not iterable")
  end.

(** [response.json()] *)
Definition response_json (r : Response) : M JSON :=
  match json_decode env (text r) with
  | inl (k, msg) => raise (decode_class k) msg
  | inr v => ret v
  end.

(** *** The geo-database reader *)

(** [with geoip2.database.Reader(path) as reader: body]: the reader is
    closed when the block is left, normally or by an exception. *)
Definition with_reader {A} (path : string) (body : M A) : M A :=
  match geo_open env path with
  | Some (k, msg) => raise (geo_class k) msg
  | None =>
      geo_event (GeoOpened path) ;;
      finally body (geo_event GeoClosed)
  end.

Definition reader_city (ip : string) : M City :=
  geo_event (GeoLookup ip) ;;
  match geo_city env ip with
  | inl (k, msg) => raise (geo_class k) msg
  | inr c => ret c
  end.

(** [str] of an optional field: [None] when absent. *)
Definition str_opt (o : option string) : string :=
  match o with Some s => s | None => "None" end.

(** ** The menu and the informational entries *)

Definition print_menu_options : list (string * Action) :=
  [ ("Domain Lookup", A_domain_lookup);
    ("IP Geolocation", A_ip_geolocation);
    ("Public Records Search", A_public_records);
    ("Reverse Image Search (TinEye)", A_reverse_image_search);
    ("SAPS Wanted/Missing Persons", A_saps_wanted_missing);
    ("International Wanted/Missing Persons", A_international_wanted_missing);
    ("Social Network Search by Email", A_social_network_search "email");
    ("Social Network Search by IP", A_social_network_search "ip");
    ("Social Network Search by VIN", A_social_network_search "vin");
    ("Real Name Search Pattern", A_real_name_search_pattern);
    ("Google Dorks", A_google_dorks);
    ("Username Search", A_username_search);
    ("Email Address Search", A_email_address_search);
    ("Compromised Databases Search", A_compromised_databases_search);
    ("Phone Number Search", A_phone_number_search);
    ("Whois Lookup", A_whois);
    ("Reverse Whois Lookup", A_reverse_whois);
    ("Passive DNS Lookup", A_passive_dns);
    ("Geolocation Tools", A_geolocation_tools);
    ("Help", A_print_help);
    ("Settings", A_print_settings);
    ("Exit", A_exit_program) ].

(** [enumerate(l, start=1)] *)
Definition enumerate1 {A} (l : list A) : list (nat * A) :=
  combine (seq 1 (List.length l)) l.

Definition menu_line (entry : nat * (string * Action)) : string :=
  match entry with
  | (index, (option, _)) => Py.str_nat index ++ ". " ++ option
  end.

Definition print_menu : M unit :=
  print "Choose an action:" ;;
  for_each (enumerate1 print_menu_options) (fun entry => print (menu_line entry)).

Definition print_help : M unit :=
  enter A_print_help ;;
  print "Help:" ;;
  print "Select an option from the menu for details on each action.".

Definition print_settings : M unit :=
  enter A_print_settings ;;
  print "Settings functionality not implemented yet.".

(** [exit()] raises [SystemExit(None)], whose [str] is 'None'. *)
Definition exit_program : M unit :=
  enter A_exit_program ;;
  print "Exiting..." ;;
  raise SystemExit "None".

(** ** Action procedures *)

Definition run_domain_lookup : M unit :=
  enter A_domain_lookup ;;
  domain <- input "Enter the domain to lookup: " ;;
  let url := "https://www.za-example.com/domain-lookup/" ++ domain in
  response <- make_request url ;;
  if_response response
    (fun r =>
       soup <- parse_html (text r) ;;
       print ("Domain Information for " ++ domain ++ ":") ;;
       for_each (soup_find_all soup "div" "domain-info") print)
    (print ("Failed to retrieve data for " ++ domain)).

Definition run_ip_geolocation : M unit :=
  enter A_ip_geolocation ;;
  ip_address <- input "Enter the IP address to geolocate: " ;;
  try_except
    (with_reader "GeoLite2-City.mmdb"
       (response <- reader_city ip_address ;;
        print ("Geolocation for IP " ++ ip_address ++ ":") ;;
        print ("City: " ++ str_opt (city_name response)) ;;
        print ("Country: " ++ str_opt (country_name response)) ;;
        print ("Latitude: " ++ str_opt (latitude response)) ;;
        print ("Longitude: " ++ str_opt (longitude response))))
    is_Exception
    (fun e =>
       logging_error ("Failed to geolocate IP address " ++ ip_address ++ ": " ++ exn_msg e) ;;
       print ("Failed to geolocate IP address " ++ ip_address ++ ": " ++ exn_msg e)).

Definition run_public_records : M unit :=
  enter A_public_records ;;
  name <- input "Enter the name to search public records: " ;;
  let url := "https://www.sa-publicrecords-example.com/search?name=" ++ name in
  response <- make_request url ;;
  if_response response
    (fun r =>
       data <- response_json r ;;
       print ("Public Records for " ++ name ++ ":") ;;
       records <- subscript data "records" ;;
       items <- iterate records ;;
       for_each items (fun record => print (str record)))
    (print ("Failed to retrieve public records for " ++ name)).

Definition run_reverse_image_search : M unit :=
  enter A_reverse_image_search ;;
  image_url <- input "Enter the image URL for reverse image search: " ;;
  let url := "https://tineye.com/search?url=" ++ image_url in
  response <- make_request url ;;
  if_response response
    (fun r =>
       soup <- parse_html (text r) ;;
       print ("Reverse Image Search Results for " ++ image_url ++ ":") ;;
       let results := soup_find_all soup "div" "result" in
       for_each results print)
    (print ("Failed to perform reverse image search for " ++ image_url)).

Definition run_saps_wanted_missing : M unit :=
  enter A_saps_wanted_missing ;;
  search_term <- input "Enter the search term for SAPS wanted/missing persons: " ;;
  let url := "https://www.saps.gov.za/crimestop/wanted/search.php?q=" ++ search_term in
  response <- make_request url ;;
  if_response response
    (fun r =>
       soup <- parse_html (text r) ;;
       print ("SAPS Wanted/Missing Persons for " ++ search_term ++ ":") ;;
       for_each (soup_find_all soup "div" "person-info") print)
    (print ("Failed to retrieve SAPS wanted/missing persons for " ++ search_term)).

Definition run_international_wanted_missing : M unit :=
  enter A_international_wanted_missing ;;
  search_term <- input "Enter the search term for international wanted/missing persons: " ;;
  let url := "https://www.interpol.int/en/How-we-work/Notices/View-Red-Notices?q="
             ++ search_term in
  response <- make_request url ;;
  if_response response
    (fun r =>
       soup <- parse_html (text r) ;;
       print ("International Wanted/Missing Persons for " ++ search_term ++ ":") ;;
       for_each (soup_find_all soup "div" "result") print)
    (print ("Failed to retrieve international wanted/missing persons for " ++ search_term)).

Definition run_social_network_search (search_type : string) : M unit :=
  enter (A_social_network_search search_type) ;;
  query <- input ("Enter the " ++ search_type ++ " for social network search: ") ;;
  let url := "https://www.socialnetworksearch-example.com/search?"
             ++ search_type ++ "=" ++ query in
  response <- make_request url ;;
  if_response response
    (fun r =>
       soup <- parse_html (text r) ;;
       print ("Social Network Search Results for " ++ search_type ++ " " ++ query ++ ":") ;;
       for_each (soup_find_all soup "div" "result") print)
    (print ("Failed to perform social network search for " ++ search_type ++ " " ++ query)).

Definition sample_text : string :=
  "Example text with real name John Doe and other content.".

Definition name_pattern (name : string) : Py.Pattern :=
  Py.compile ([Py.WordBoundary] ++ Py.escape name ++ [Py.WordBoundary]) true.

Definition run_real_name_search_pattern : M unit :=
  enter A_real_name_search_pattern ;;
  name <- input "Enter the real name for pattern search: " ;;
  print ("Searching for patterns matching real name: " ++ name) ;;
  let pattern := name_pattern name in
  let matches := Py.findall pattern sample_text in
  print ("Found " ++ Py.str_nat (List.length matches) ++ " matches for name " ++ name
         ++ " in sample text.").

Definition run_google_dorks : M unit :=
  enter A_google_dorks ;;
  search_query <- input "Enter the Google Dorks query: " ;;
  let url := "https://www.google.com/search?q=" ++ search_query in
  response <- make_request url ;;
  if_response response
    (fun r =>
       soup <- parse_html (text r) ;;
       print ("Google Dorks Search Results for query: " ++ search_query) ;;
       for_each (soup_find_all soup "h3" "r") print)
    (print ("Failed to perform Google Dorks search for query: " ++ search_query)).

Definition run_username_search : M unit :=
  enter A_username_search ;;
  username <- input "Enter the username for search: " ;;
  print ("Searching for information related to username: " ++ username) ;;
  print ("Username " ++ username ++ " found on various platforms.").

Definition run_email_address_search : M unit :=
  enter A_email_address_search ;;
  email <- input "Enter the email address for search: " ;;
  print ("Searching for information related to email address: " ++ email) ;;
  print ("Information related to " ++ email ++ " found.").

Definition run_compromised_databases_search : M unit :=
  enter A_compromised_databases_search ;;
  query <- input "Enter the query for compromised databases search: " ;;
  print ("Searching for compromised databases related to: " ++ query) ;;
  print ("Compromised databases related to " ++ query ++ " found.").

Definition run_phone_number_search : M unit :=
  enter A_phone_number_search ;;
  phone_number <- input "Enter the phone number for search: " ;;
  print ("Searching for information related to phone number: " ++ phone_number) ;;
  print ("Information related to phone number " ++ phone_number ++ " found.").

Definition run_whois : M unit :=
  enter A_whois ;;
  domain <- input "Enter the domain for Whois lookup: " ;;
  print ("Performing Whois lookup for domain: " ++ domain) ;;
  print ("Whois information for " ++ domain ++ ".").

Definition run_reverse_whois : M unit :=
  enter A_reverse_whois ;;
  name <- input "Enter the name for Reverse Whois lookup: " ;;
  print ("Performing Reverse Whois lookup for name: " ++ name) ;;
  print ("Reverse Whois information for " ++ name ++ ".").

Definition run_passive_dns : M unit :=
  enter A_passive_dns ;;
  query <- input "Enter the query for Passive DNS lookup: " ;;
  print ("Performing Passive DNS lookup for query: " ++ query) ;;
  print ("Passive DNS information for " ++ query ++ ".").

Definition run_geolocation_tools : M unit :=
  enter A_geolocation_tools ;;
  print "Geolocation Tools:" ;;
  print "1. IP-based Geolocation" ;;
  print "2. Location Search" ;;
  choice <- input "Enter your choice (1-2): " ;;
  if String.eqb choice "1" then
    run_ip_geolocation
  else if String.eqb choice "2" then
    location <- input "Enter the location to search: " ;;
    print ("Performing location search for: " ++ location) ;;
    print ("Location information for " ++ location ++ ".")
  else ret tt.

(** The procedure an entry of a menu table is bound to. *)
Definition proc (a : Action) : M unit :=
  match a with
  | A_domain_lookup => run_domain_lookup
  | A_ip_geolocation => run_ip_geolocation
  | A_public_records => run_public_records
  | A_reverse_image_search => run_reverse_image_search
  | A_saps_wanted_missing => run_saps_wanted_missing
  | A_international_wanted_missing => run_international_wanted_missing
  | A_social_network_search t => run_social_network_search t
  | A_real_name_search_pattern => run_real_name_search_pattern
  | A_google_dorks => run_google_dorks
  | A_username_search => run_username_search
  | A_email_address_search => run_email_address_search
  | A_compromised_databases_search => run_compromised_databases_search
  | A_phone_number_search => run_phone_number_search
  | A_whois => run_whois
  | A_reverse_whois => run_reverse_whois
  | A_passive_dns => run_passive_dns
  | A_geolocation_tools => run_geolocation_tools
  | A_print_help => print_help
  | A_print_settings => print_settings
  | A_exit_program => exit_program
  end.

(** ** The process loop *)

Definition run_menu_choice_options : list Action :=
  [ A_domain_lookup;
    A_ip_geolocation;
    A_public_records;
    A_reverse_image_search;
    A_saps_wanted_missing;
    A_international_wanted_missing;
    A_social_network_search "email";
    A_social_network_search "ip";
    A_social_network_search "vin";
    A_real_name_search_pattern;
    A_google_dorks;
    A_username_search;
    A_email_address_search;
    A_compromised_databases_search;
    A_phone_number_search;
    A_whois;
    A_reverse_whois;
    A_passive_dns;
    A_geolocation_tools ].

(** [l[i]]: a negative index counts from the end; [None] stands for the
    [IndexError]. *)
Definition py_index {A} (l : list A) (i : Z) : option A :=
  let n := Z.of_nat (List.length l) in
  if ((0 <=? i) && (i <? n))%Z then nth_error l (Z.to_nat i)
  else if ((- n <=? i) && (i <? 0))%Z then nth_error l (Z.to_nat (n + i))
  else None.

Definition run_menu_choice (choice : Z) : M unit :=
  match py_index run_menu_choice_options (choice - 1) with
  | Some a => proc a
  | None => raise IndexError "list index out of range"
  end.

(** [int(s)] *)
Definition py_int (s : string) : M Z :=
  match Py.int s with
  | Some n => ret n
  | None => raise ValueError (Py.int_error s)
  end.

(** What [start] does with the number read. *)
Definition start_choice (choice : Z) : M unit :=
  if ((1 <=? choice) && (choice <=? 22))%Z then
    if (choice =? 20)%Z then print_help
    else if (choice =? 21)%Z then print_settings
    else if (choice =? 22)%Z then exit_program
    else run_menu_choice choice
  else print "Invalid choice. Please enter a number between 1 and 22.".

(** One turn of the [while True] loop of [start]. *)
Definition start_iteration : M unit :=
  print_menu ;;
  try_except
    (line <- input "Enter your choice (1-22): " ;;
     choice <- py_int (Py.strip line) ;;
     start_choice choice)
    is_ValueError
    (fun _ => print "Invalid input. Please enter a number.").

(** [start]: the loop is left only by an exception. [None]: the loop has
    not ended within the turns allowed, or never will (a call it made does
    not return). *)
Fixpoint start (turns : nat) (w : World) : option (Exn * World) :=
  match turns with
  | O => None
  | S n =>
      match start_iteration w with
      | (Ok _, w') => start n w'
      | (Raise e, w') => Some (e, w')
      | (Hang, _) => None
      end
  end.

(** *** The registered-module runner *)

(** [f"{args}"] for a tuple of texts. *)
Definition repr_tuple (args : list string) : string :=
  match args with
  | [a] => "(" ++ Py.repr_str a ++ ",)"
  | _ => "(" ++ String.concat ", " (map Py.repr_str args) ++ ")"
  end.

(** [self.modules[module_name]], a module being its [run] function. *)
Definition modules_get (modules : list (string * (list string -> M unit)))
           (module_name : string) : option (list string -> M unit) :=
  option_map snd (find (fun m => String.eqb (fst m) module_name) modules).

Definition run_module (modules : list (string * (list string -> M unit)))
           (module_name : string) (args : list string) : M unit :=
  match modules_get modules module_name with
  | Some module_run =>
      try_except
        (module_run args ;;
         logging_info ("Successfully ran module " ++ module_name ++ " with args "
                       ++ repr_tuple args))
        is_Exception
        (fun e =>
           logging_error ("Error running module " ++ module_name ++ " with args "
                          ++ repr_tuple args ++ ": " ++ exn_msg e) ;;
           print ("An error occurred: " ++ exn_msg e))
  | None => print ("Module " ++ module_name ++ " not found")
  end.

(** *** Start-up: module discovery, logging, configuration *)

(** A discovered module, as its [run] function. *)
Definition PyModule : Type := list string -> M unit.

(** [d[k] = v] on a dict kept in insertion order. *)
Fixpoint dict_set {V : Type} (d : list (string * V)) (k : string) (v : V)
  : list (string * V) :=
  match d with
  | [] => [(k, v)]
  | (k', v') :: r =>
      if String.eqb k' k then (k', v) :: r else (k', v') :: dict_set r k v
  end.

(** The loop of [load_modules] over the names [pkgutil.iter_modules()]
    yields; [import_module] is [importlib.import_module], which runs the
    module's code and may raise. *)
Fixpoint load_modules_from (import_module : string -> M PyModule)
         (names : list string) (modules : list (string * PyModule))
  : M (list (string * PyModule)) :=
  match names with
  | [] => ret modules
  | name :: r =>
      if String.prefix "module_" name then
        module <- import_module name ;;
        load_modules_from import_module r (dict_set modules name module)
      else load_modules_from import_module r modules
  end.

Definition load_modules (iter_modules : list string)
           (import_module : string -> M PyModule) : M (list (string * PyModule)) :=
  load_modules_from import_module iter_modules [].






End App.

(** * Vocabulary of the properties *)

Local Open Scope py_scope.

(** ** Concrete environments and worlds, for running the model *)

(** A session in which the user types [lines], nothing has happened yet. *)
Definition session (lines : list string) : World := mkWorld lines [] [] [] [] [].

(** An environment in which every GET yields [get], every body decodes to
    [json], the geo-database opens as [opened] and every lookup yields
    [city]. *)
Definition fixed_env (get : (RequestsError * string) + Response)
           (json : string + JSON) (opened : option (GeoError * string))
           (city : (GeoError * string) + City) : Env :=
  mkEnv (fun _ _ => match get with
                    | inl (k, msg) => inl (GetRaises k msg)
                    | inr r => inr r
                    end)
        (fun r => Py.str_nat (Z.to_nat (status_code r)) ++ " Error")
        (fun _ => match json with
                  | inl msg => inl (DJSONDecodeError, msg)
                  | inr v => inr v
                  end)
        (fun _ => None)
        (fun _ _ _ => [])
        (fun _ => opened)
        (fun _ => city)
        (fun n => "t" ++ Py.str_nat n).

Definition pretoria : City :=
  mkCity (Some "Pretoria") (Some "South Africa") (Some "-25.7069") (Some "28.2294").

(** An environment with no network and no geo-database. *)
Definition offline_env : Env :=
  fixed_env (inl (RConnectionError, "connection refused")) (inl "no body")
            (Some (GFileNotFound, "[Errno 2] No such file or directory: 'GeoLite2-City.mmdb'"))
            (inl (GAddressNotFound, "not found")).

(** An environment whose server answers 200 with a body that is not JSON. *)
Definition undecodable_env : Env :=
  fixed_env (inr (mkResponse 200 "<html>maintenance</html>"))
            (inl "Expecting value: line 1 column 1 (char 0)")
            None (inr pretoria).

(** An environment whose server answers 200 with the JSON object [{}]. *)
Definition keyless_env : Env :=
  fixed_env (inr (mkResponse 200 "{}")) (inr (JObj [])) None (inr pretoria).

(** ** The fetch wrapper *)

(** What a failed fetch leaves behind: the GET in the trace, one ERROR
    record in the log, one line on the console. *)
Definition failed_fetch (env : Env) (url msg : string) (w : World) : World :=
  mkWorld (stdin w)
          (console w ++ [Printed ("Request failed: " ++ msg)])
          (logfile w ++ [mkLog (asctime env (List.length (logfile w))) ERROR
                               ("Request failed: " ++ msg)])
          (http_trace w ++ [url])
          (geo_trace w) (calls w).

(** What a successful fetch leaves behind: the GET in the trace only. *)
Definition quiet_fetch (url : string) (w : World) : World :=
  mkWorld (stdin w) (console w) (logfile w) (http_trace w ++ [url])
          (geo_trace w) (calls w).

Definition is_error_status (r : Response) : bool :=
  ((400 <=? status_code r) && (status_code r <? 600))%Z.

(** ** Stub actions *)

(** The prompt and the two line templates of a stub action: each line is a
    fixed prefix, the input, a fixed suffix. *)
Definition stub_format (a : Action)
  : option (string * (string * string) * (string * string)) :=
  match a with
  | A_username_search =>
      Some ("Enter the username for search: ",
            ("Searching for information related to username: ", EmptyString),
            ("Username ", " found on various platforms."))
  | A_email_address_search =>
      Some ("Enter the email address for search: ",
            ("Searching for information related to email address: ", EmptyString),
            ("Information related to ", " found."))
  | A_compromised_databases_search =>
      Some ("Enter the query for compromised databases search: ",
            ("Searching for compromised databases related to: ", EmptyString),
            ("Compromised databases related to ", " found."))
  | A_phone_number_search =>
      Some ("Enter the phone number for search: ",
            ("Searching for information related to phone number: ", EmptyString),
            ("Information related to phone number ", " found."))
  | A_whois =>
      Some ("Enter the domain for Whois lookup: ",
            ("Performing Whois lookup for domain: ", EmptyString),
            ("Whois information for ", "."))
  | A_reverse_whois =>
      Some ("Enter the name for Reverse Whois lookup: ",
            ("Performing Reverse Whois lookup for name: ", EmptyString),
            ("Reverse Whois information for ", "."))
  | A_passive_dns =>
      Some ("Enter the query for Passive DNS lookup: ",
            ("Performing Passive DNS lookup for query: ", EmptyString),
            ("Passive DNS information for ", "."))
  | _ => None
  end.

Definition fill (template : string * string) (s : string) : string :=
  fst template ++ s ++ snd template.

Definition stub_actions : list Action :=
  [A_username_search; A_email_address_search; A_compromised_databases_search;
   A_phone_number_search; A_whois; A_reverse_whois; A_passive_dns].

(** ** Geolocation *)

(** Readers open at the end of a trace. *)
Fixpoint open_readers (tr : list GeoEvent) : Z :=
  match tr with
  | [] => 0
  | GeoOpened _ :: r => open_readers r + 1
  | GeoClosed :: r => open_readers r - 1
  | GeoLookup _ :: r => open_readers r
  end.

Definition geo_db : string := "GeoLite2-City.mmdb".

Definition geo_failure (ip msg : string) : string :=
  "Failed to geolocate IP address " ++ ip ++ ": " ++ msg.

(** The world after a geolocation that failed with message [msg], having
    used the reader as [events] tells. *)
Definition after_geo_failure (env : Env) (ip msg : string) (rest : list string)
           (events : list GeoEvent) (w : World) : World :=
  mkWorld rest
          (console w ++ [Prompted "Enter the IP address to geolocate: ";
                         Printed (geo_failure ip msg)])
          (logfile w ++ [mkLog (asctime env (List.length (logfile w))) ERROR
                               (geo_failure ip msg)])
          (http_trace w)
          (geo_trace w ++ events)
          (calls w ++ [A_ip_geolocation]).

Definition after_geo_success (ip : string) (c : City) (rest : list string)
           (w : World) : World :=
  mkWorld rest
          (console w ++ [Prompted "Enter the IP address to geolocate: ";
                         Printed ("Geolocation for IP " ++ ip ++ ":");
                         Printed ("City: " ++ str_opt (city_name c));
                         Printed ("Country: " ++ str_opt (country_name c));
                         Printed ("Latitude: " ++ str_opt (latitude c));
                         Printed ("Longitude: " ++ str_opt (longitude c))])
          (logfile w)
          (http_trace w)
          (geo_trace w ++ [GeoOpened geo_db; GeoLookup ip; GeoClosed])
          (calls w ++ [A_ip_geolocation]).

(** The outcome of one geolocation, by what the database does. *)
Definition geolocation_outcome (env : Env) (ip : string) (rest : list string)
           (w : World) : World :=
  match geo_open env geo_db with
  | Some (_, msg) => after_geo_failure env ip msg rest [] w
  | None =>
      match geo_city env ip with
      | inl (_, msg) =>
          after_geo_failure env ip msg rest [GeoOpened geo_db; GeoLookup ip; GeoClosed] w
      | inr c => after_geo_success ip c rest w
      end
  end.

(** ** Real-name pattern search *)

(** What follows says, without the pattern machinery, what a whole-word,
    case-insensitive count of a name in a text is; texts are taken as
    their code points. *)
Definition code_points (s : string) : list N := map Py.ord (Py.chars s).

(** A letter, a digit or the underscore. *)
Definition word_char (n : N) : bool :=
  (((48 <=? n) && (n <=? 57)) || ((65 <=? n) && (n <=? 90))
   || ((97 <=? n) && (n <=? 122)) || (n =? 95))%N.

Definition capitals : list N := map N.of_nat (seq 65 26).

(** The characters that read as the capital letter [u]: itself and its
    small letter; for I also the dotted capital and the dotless small i,
    for S the long s, for K the Kelvin sign. *)
Definition variants (u : N) : list N :=
  ([u; u + 32]%N
   ++ (if u =? 73 then [304; 305]
       else if u =? 83 then [383]
       else if u =? 75 then [8490]
       else [])%N)%list.

(** The same character, or the same letter in another case. *)
Definition same_letter (c x : N) : bool :=
  (c =? x)%N
  || existsb (fun u => existsb (N.eqb c) (variants u) && existsb (N.eqb x) (variants u))
             capitals.

(** [m] is the name, letter by letter, up to case. *)
Fixpoint reads_as (name m : list N) : bool :=
  match name, m with
  | [], [] => true
  | c :: name', x :: m' => same_letter c x && reads_as name' m'
  | _, _ => false
  end.

Definition ends_in_word (before : list N) : bool :=
  match rev before with c :: _ => word_char c | [] => false end.

Definition starts_with_word (after : list N) : bool :=
  match after with c :: _ => word_char c | [] => false end.

(** A word starts or ends between [before] and [after]. *)
Definition word_edge (before after : list N) : bool :=
  negb (Bool.eqb (ends_in_word before) (starts_with_word after)).

(** In the text [before ++ after] the name stands right after [before], as
    a whole word: a word edge before it and one after it. *)
Definition stands_at (name before after : list N) : bool :=
  reads_as name (firstn (List.length name) after)
  && word_edge before after
  && word_edge (before ++ firstn (List.length name) after)
               (skipn (List.length name) after).

(** The whole-word occurrences of the name from the position between
    [before] and [after] on, counted from left to right; one that starts
    inside the occurrence counted before it is not counted. [covered] is
    the number of characters of [after] inside that occurrence. *)
Fixpoint count_from (name before after : list N) (covered : nat) : nat :=
  let here := (covered =? 0)%nat && stands_at name before after in
  ((if here then 1 else 0)
   + match after with
     | [] => 0
     | x :: after' =>
         count_from name (before ++ [x]) after'
                    (pred (if here then List.length name else covered))
     end)%nat.

Definition whole_word_count (name text : list N) : nat :=
  count_from name [] text 0.

Definition matches_of (name : string) : list string :=
  Py.findall (name_pattern name) sample_text.

(** The name 'with', its i written dotless (U+0131). *)
Definition dotless_with : string :=
  String "w" (String (ascii_of_nat 196) (String (ascii_of_nat 177) "th")).

(** ** Which procedures a computation enters *)

(** [m] leaves every world related by [R] to the one it started in. *)
Definition preserves {A} (R : World -> World -> Prop) (m : M A) : Prop :=
  forall w, R w (snd (m w)).

(** No action procedure was entered in between. *)
Definition same_calls (w w' : World) : Prop := calls w' = calls w.

(** No line was added to the input in between. *)
Definition input_not_longer (w w' : World) : Prop :=
  (List.length (stdin w') <= List.length (stdin w))%nat.

(** A relation that a run keeps: a preorder that printing, prompting and
    using the geo-database reader respect. *)
Class Kept (R : World -> World -> Prop) : Prop := {
  kept_refl : forall w, R w w;
  kept_trans : forall w1 w2 w3, R w1 w2 -> R w2 w3 -> R w1 w3;
  kept_print : forall line, preserves R (print line);
  kept_input : forall prompt, preserves R (input prompt);
  kept_geo_event : forall ev, preserves R (geo_event ev)
}.

(** ... and that logging and fetching, in the environment, respect. *)
Class KeptIn (env : Env) (R : World -> World -> Prop) : Prop := {
  kept_logging : forall l msg, preserves R (logging_log env l msg);
  kept_requests_get : forall url, preserves R (requests_get env url)
}.

(** [m] raises exceptions of the classes [P] only. *)
Definition raises_only {A} (P : ExnClass -> bool) (m : M A) : Prop :=
  forall w e w', m w = (Raise e, w') -> P (exn_class e) = true.

(** The procedures that go through the fetch wrapper. *)
Definition fetches (a : Action) : bool :=
  match a with
  | A_domain_lookup | A_public_records | A_reverse_image_search
  | A_saps_wanted_missing | A_international_wanted_missing
  | A_social_network_search _ | A_google_dorks => true
  | _ => false
  end.

(** The classes of exception that can leave a procedure: the end of input
    at a prompt; from Exit, [SystemExit]; from a procedure that fetches,
    what [requests.get] raises other than a [RequestException] and what
    the parser raises; from public records also what the decoder raises
    and the [KeyError] and [TypeError] of reading the decoded body. *)
Definition may_leave (a : Action) (c : ExnClass) : bool :=
  match a with
  | A_print_help | A_print_settings => false
  | A_exit_program =>
      match c with SystemExit => true | _ => false end
  | A_public_records =>
      match c with
      | EOFError | ValueError | OtherException _
      | JSONDecodeError | RecursionError | KeyError | TypeError => true
      | _ => false
      end
  | A_domain_lookup | A_reverse_image_search | A_saps_wanted_missing
  | A_international_wanted_missing | A_social_network_search _ | A_google_dorks =>
      match c with
      | EOFError | ValueError | OtherException _ | ParserRejectedMarkup => true
      | _ => false
      end
  | _ =>
      match c with EOFError => true | _ => false end
  end.

(** The classes of exception that can end the loop: those that can leave a
    procedure, but for [ValueError] and its subclasses. *)
Definition may_end_loop (c : ExnClass) : bool :=
  match c with
  | SystemExit | EOFError | KeyError | TypeError
  | RecursionError | ParserRejectedMarkup | OtherException _ => true
  | _ => false
  end.

Definition is_EOFError (c : ExnClass) : bool :=
  match c with EOFError => true | _ => false end.

(** Every GET returns, with a response or a [RequestException]. *)
Definition network_answers (env : Env) : Prop :=
  forall n url,
    match http_get env n url with
    | inl (GetRaises k _) => is_RequestException (requests_class k) = true
    | inl GetHangs => False
    | inr _ => True
    end.

(** Every GET returns or raises. *)
Definition get_returns (env : Env) : Prop :=
  forall n url, http_get env n url <> inl GetHangs.

(** The parser reads every page. *)
Definition parser_accepts (env : Env) : Prop :=
  forall html, html_parser env html = None.

(** [m] returns or raises, from every world. *)
Definition never_hangs {A} (m : M A) : Prop :=
  forall w, fst (m w) <> Hang.

(** The console was only added to in between. *)
Definition console_extends (w w' : World) : Prop :=
  exists tail, console w' = (console w ++ tail)%list.

(** [m] enters [a], then whatever [nested] lists, and nothing else. *)
Definition enters {A} (a : Action) (nested : World -> list Action) (m : M A) : Prop :=
  forall w, calls (snd (m w)) = (calls w ++ a :: nested w)%list.

(** The procedures Geolocation Tools goes on to enter: IP geolocation on
    the answer '1', none otherwise. *)
Definition geolocation_tools_nested (w : World) : list Action :=
  match stdin w with
  | choice :: _ => if String.eqb choice "1" then [A_ip_geolocation] else []
  | [] => []
  end.

(** ** The menu and the loop *)

(** What [print_menu] writes. *)
Definition menu_output : list ConsoleEvent :=
  Printed "Choose an action:"
  :: map (fun entry => Printed (menu_line entry)) (enumerate1 print_menu_options).

(** The world once [line] has been written to the console. *)
Definition said (line : string) (w : World) : World :=
  mkWorld (stdin w) (console w ++ [Printed line]) (logfile w)
          (http_trace w) (geo_trace w) (calls w).

(** The world once the menu has been shown and the choice read. *)
Definition asked (rest : list string) (w : World) : World :=
  mkWorld rest
          (console w ++ menu_output ++ [Prompted "Enter your choice (1-22): "])
          (logfile w) (http_trace w) (geo_trace w) (calls w).

Definition invalid_choice_message : string :=
  "Invalid choice. Please enter a number between 1 and 22.".

Definition invalid_input_message : string :=
  "Invalid input. Please enter a number.".

(** The loop goes on: after a turn that left the world [w'], a loop
    allowed more turns runs the next one from [w'], ending when that one
    raises and going on from where it ends otherwise; and that turn begins
    by showing the menu and the prompt again. *)
Definition prompts_again (env : Env) (w w' : World) : Prop :=
  (forall turns,
     start env (S (S turns)) w
     = match start_iteration env w' with
       | (Ok _, w'') => start env turns w''
       | (Raise e, w'') => Some (e, w'')
       | (Hang, _) => None
       end)
  /\ exists tail,
       console (snd (start_iteration env w'))
       = (console w' ++ menu_output
          ++ Prompted "Enter your choice (1-22): " :: tail)%list.

Definition is_ascii_digit (c : ascii) : bool :=
  ((48 <=? Py.byte c) && (Py.byte c <=? 57))%N.

(** A numeral: the digits 0 to 9 and nothing else, at least one. *)
Definition is_numeral (line : string) : bool :=
  match list_ascii_of_string line with
  | [] => false
  | l => forallb is_ascii_digit l
  end.

(** The number a numeral writes. *)
Definition numeral_value (line : string) : Z :=
  fold_left (fun value c => (10 * value + (Z.of_N (Py.byte c) - 48))%Z)
            (list_ascii_of_string line) 0%Z.

(** A numeral of 4301 digits. *)
Definition long_numeral : string := string_of_list_ascii (repeat "1"%char 4301).

(** ** Public records and the module runner *)

Definition public_records_url (name : string) : string :=
  "https://www.sa-publicrecords-example.com/search?name=" ++ name.

(** The world once the name has been read and the GET has succeeded. *)
Definition records_fetched (name : string) (rest : list string) (w : World) : World :=
  mkWorld rest
          (console w ++ [Prompted "Enter the name to search public records: "])
          (logfile w)
          (http_trace w ++ [public_records_url name])
          (geo_trace w)
          (calls w ++ [A_public_records]).

Definition module_error (module_name : string) (args : list string) (e : Exn) : string :=
  "Error running module " ++ module_name ++ " with args " ++ repr_tuple args
  ++ ": " ++ exn_msg e.

(** ** Fetching actions *)

(** The prompt of a fetching action and, for the text [x] typed at it, the
    URL requested and the line printed when the fetch fails. *)
Definition fetch_texts (a : Action) (x : string) : option (string * string * string) :=
  match a with
  | A_domain_lookup =>
      Some ("Enter the domain to lookup: ",
            "https://www.za-example.com/domain-lookup/" ++ x,
            "Failed to retrieve data for " ++ x)
  | A_public_records =>
      Some ("Enter the name to search public records: ",
            "https://www.sa-publicrecords-example.com/search?name=" ++ x,
            "Failed to retrieve public records for " ++ x)
  | A_reverse_image_search =>
      Some ("Enter the image URL for reverse image search: ",
            "https://tineye.com/search?url=" ++ x,
            "Failed to perform reverse image search for " ++ x)
  | A_saps_wanted_missing =>
      Some ("Enter the search term for SAPS wanted/missing persons: ",
            "https://www.saps.gov.za/crimestop/wanted/search.php?q=" ++ x,
            "Failed to retrieve SAPS wanted/missing persons for " ++ x)
  | A_international_wanted_missing =>
      Some ("Enter the search term for international wanted/missing persons: ",
            "https://www.interpol.int/en/How-we-work/Notices/View-Red-Notices?q=" ++ x,
            "Failed to retrieve international wanted/missing persons for " ++ x)
  | A_social_network_search t =>
      Some ("Enter the " ++ t ++ " for social network search: ",
            "https://www.socialnetworksearch-example.com/search?" ++ t ++ "=" ++ x,
            "Failed to perform social network search for " ++ t ++ " " ++ x)
  | A_google_dorks =>
      Some ("Enter the Google Dorks query: ",
            "https://www.google.com/search?q=" ++ x,
            "Failed to perform Google Dorks search for query: " ++ x)
  | _ => None
  end.

(** The heading a scraping action prints for the text [x], and the tag and
    class of the elements it lists. *)
Definition scrape_texts (a : Action) (x : string) : option (string * string * string) :=
  match a with
  | A_domain_lookup =>
      Some ("Domain Information for " ++ x ++ ":", "div", "domain-info")
  | A_reverse_image_search =>
      Some ("Reverse Image Search Results for " ++ x ++ ":", "div", "result")
  | A_saps_wanted_missing =>
      Some ("SAPS Wanted/Missing Persons for " ++ x ++ ":", "div", "person-info")
  | A_international_wanted_missing =>
      Some ("International Wanted/Missing Persons for " ++ x ++ ":", "div", "result")
  | A_social_network_search t =>
      Some ("Social Network Search Results for " ++ t ++ " " ++ x ++ ":", "div", "result")
  | A_google_dorks =>
      Some ("Google Dorks Search Results for query: " ++ x, "h3", "r")
  | _ => None
  end.

(** The message of the failure, if the next GET of [url] fails: a transport
    error, or an answer with a 4xx or 5xx status. *)
Definition fetch_failure (env : Env) (w : World) (url : string) : option string :=
  match http_get env (List.length (http_trace w)) url with
  | inl (GetRaises k msg) =>
      if is_RequestException (requests_class k) then Some msg else None
  | inl GetHangs => None
  | inr r => if is_error_status r then Some (http_error_msg env r) else None
  end.

(** The shape every fetching action has. *)
Definition fetching (env : Env) (a : Action) (prompt : string)
           (url failure : string -> string) (yes : string -> Response -> M unit)
  : M unit :=
  enter a ;;
  x <- input prompt ;;
  response <- make_request env (url x) ;;
  if_response response (yes x) (print (failure x)).

(** The world in which a fetching action issues its GET. *)
Definition before_get (a : Action) (prompt : string) (rest : list string)
           (w : World) : World :=
  mkWorld rest (console w ++ [Prompted prompt]) (logfile w) (http_trace w)
          (geo_trace w) (calls w ++ [a]).

(** The listing every scraping action makes of a fetched page. *)
Definition listing (env : Env) (heading tag cls : string) (r : Response) : M unit :=
  soup <- parse_html env (text r) ;;
  print heading ;;
  for_each (soup_find_all env soup tag cls) print.

(** The world once a fetching action has read [x] and its GET has failed
    with [msg]. *)
Definition fetch_reported_failed (env : Env) (a : Action)
           (prompt url line msg : string) (rest : list string) (w : World) : World :=
  mkWorld rest
          (console w ++ [Prompted prompt;
                         Printed ("Request failed: " ++ msg);
                         Printed line])
          (logfile w ++ [mkLog (asctime env (List.length (logfile w))) ERROR
                               ("Request failed: " ++ msg)])
          (http_trace w ++ [url])
          (geo_trace w)
          (calls w ++ [a]).

(** The world once a scraping action has read its input and listed the
    texts [found]. *)
Definition scraped (a : Action) (prompt url heading : string)
           (found : list string) (rest : list string) (w : World) : World :=
  mkWorld rest
          (console w ++ [Prompted prompt; Printed heading] ++ map Printed found)
          (logfile w)
          (http_trace w ++ [url])
          (geo_trace w)
          (calls w ++ [a]).

(** What [for record in v] runs over, when [v] can be iterated. *)
Definition iterable (v : JSON) : option (list JSON) :=
  match v with
  | JArr items => Some items
  | JObj members => Some (map (fun kv => JStr (fst kv)) members)
  | JStr s => Some (map (fun c => JStr (Py.str_of [c])) (Py.chars s))
  | _ => None
  end.

(** The decoded body is not an object, or its 'records' cannot be iterated. *)
Definition records_unreadable (data : JSON) : bool :=
  match data with
  | JObj members =>
      match dict_get members "records" with
      | Some v => match iterable v with Some _ => false | None => true end
      | None => false
      end
  | _ => true
  end.

(** The world once Geolocation Tools has shown its sub-menu and read the
    choice. *)
Definition tools_asked (rest : list string) (w : World) : World :=
  mkWorld rest
          (console w ++ [Printed "Geolocation Tools:";
                         Printed "1. IP-based Geolocation";
                         Printed "2. Location Search";
                         Prompted "Enter your choice (1-2): "])
          (logfile w) (http_trace w) (geo_trace w)
          (calls w ++ [A_geolocation_tools]).

(** [m] returns normally whenever [n] lines of input are left, and reads at
    most [n] of them. *)
Definition returns_within {A} (n : nat) (m : M A) : Prop :=
  forall w, (n <= List.length (stdin w))%nat ->
    exists a w', m w = (Ok a, w')
                 /\ (List.length (stdin w) <= List.length (stdin w') + n)%nat.

(** The world once a record of level [l] has been added to the log. *)
Definition logged (env : Env) (l : Level) (msg : string) (w : World) : World :=
  mkWorld (stdin w) (console w)
          (logfile w ++ [mkLog (asctime env (List.length (logfile w))) l msg])
          (http_trace w) (geo_trace w) (calls w).

(** ** Start-up, and more environments *)

(** A page on which two results are found. *)
Definition two_results_env : Env :=
  mkEnv (fun _ _ => inr (mkResponse 200 "<div class='result'>A</div><div class='result'>B</div>"))
        (fun _ => "Error")
        (fun _ => inl (DJSONDecodeError, "no body"))
        (fun _ => None)
        (fun _ tag cls => if String.eqb tag "div" && String.eqb cls "result"
                          then ["A"; "B"] else [])
        (fun _ => None)
        (fun _ => inr pretoria)
        (fun n => "t" ++ Py.str_nat n).

(** An environment whose server answers with two records. *)
Definition records_env : Env :=
  fixed_env (inr (mkResponse 200 "{}"))
            (inr (JObj [("records", JArr [JStr "Jan Smuts"; JNum "1870"])]))
            None (inr pretoria).

(** An environment whose GETs never return. *)
Definition hanging_env : Env :=
  mkEnv (fun _ _ => inl GetHangs)
        (fun _ => "Error")
        (fun _ => inl (DJSONDecodeError, "no body"))
        (fun _ => None)
        (fun _ _ _ => [])
        (fun _ => None)
        (fun _ => inr pretoria)
        (fun n => "t" ++ Py.str_nat n).

(** An environment whose server answers 200 with a page the parser
    rejects. *)
Definition rejecting_env : Env :=
  mkEnv (fun _ _ => inr (mkResponse 200 "<![if"))
        (fun _ => "Error")
        (fun _ => inl (DJSONDecodeError, "no body"))
        (fun _ => Some (PRejectedMarkup,
                        "The markup you provided was rejected by the parser."))
        (fun _ _ _ => [])
        (fun _ => None)
        (fun _ => inr pretoria)
        (fun n => "t" ++ Py.str_nat n).

(** An environment whose server redirects to a location that cannot be
    parsed. *)
Definition redirecting_env : Env :=
  fixed_env (inl (RValueError, "Invalid IPv6 URL")) (inl "no body") None
            (inr pretoria).

(** An environment whose server answers 200 with a body nested too deep
    for the decoder. *)
Definition recursing_env : Env :=
  mkEnv (fun _ _ => inr (mkResponse 200 "[[[[[[[["))
        (fun _ => "Error")
        (fun _ => inl (DRecursionError,
                       "maximum recursion depth exceeded while decoding a JSON array from a unicode string"))
        (fun _ => None)
        (fun _ _ _ => [])
        (fun _ => None)
        (fun _ => inr pretoria)
        (fun n => "t" ++ Py.str_nat n).

(** An environment whose server answers with the JSON array []. *)
Definition array_env : Env :=
  fixed_env (inr (mkResponse 200 "[]")) (inr (JArr [])) None (inr pretoria).

(** A module that fails on any arguments. *)
Definition failing_module : PyModule :=
  fun _ => raise KeyError "'target'".

(** [name.startswith('module_')] *)
Definition has_module_prefix (name : string) : bool := String.prefix "module_" name.

(** The lines of input a procedure reads at most. *)
Definition prompts (a : Action) : nat :=
  match a with
  | A_print_help | A_print_settings | A_exit_program => 0
  | A_geolocation_tools => 2
  | _ => 1
  end.

(** * Properties *)

(** Unfold the monad and the primitive effects, then compute. *)
Ltac run_effects :=
  unfold bind, ret, raise, print, input, enter, geo_event, try_except, finally,
    logging_error, logging_info, logging_log, if_response;
  cbn.

Ltac flatten_lists := repeat rewrite <- List.app_assoc; cbn [List.app].

(** ** The fetch wrapper *)

Lemma make_request_transport_error env url w k msg :
  http_get env (List.length (http_trace w)) url = inl (GetRaises k msg) ->
  is_RequestException (requests_class k) = true ->
  make_request env url w = (Ok None, failed_fetch env url msg w).
Proof.
  intros H C. unfold make_request, try_except, bind, requests_get.
  rewrite H. cbn. rewrite C. reflexivity.
Qed.

(** An exception of [requests.get] that is no [RequestException] leaves
    the wrapper. *)
Lemma make_request_other_error env url w k msg :
  http_get env (List.length (http_trace w)) url = inl (GetRaises k msg) ->
  is_RequestException (requests_class k) = false ->
  make_request env url w = (Raise (mkExn (requests_class k) msg), quiet_fetch url w).
Proof.
  intros H C. unfold make_request, try_except, bind, requests_get.
  rewrite H. cbn. rewrite C. reflexivity.
Qed.

Lemma make_request_hangs env url w :
  http_get env (List.length (http_trace w)) url = inl GetHangs ->
  make_request env url w = (Hang, quiet_fetch url w).
Proof.
  intros H. unfold make_request, try_except, bind, requests_get.
  rewrite H. reflexivity.
Qed.

Lemma make_request_error_status env url w r :
  http_get env (List.length (http_trace w)) url = inr r ->
  is_error_status r = true ->
  make_request env url w = (Ok None, failed_fetch env url (http_error_msg env r) w).
Proof.
  intros H E. unfold is_error_status in E.
  unfold make_request, try_except, bind, requests_get, raise_for_status.
  rewrite H. cbn. rewrite E. reflexivity.
Qed.

Lemma make_request_success env url w r :
  http_get env (List.length (http_trace w)) url = inr r ->
  is_error_status r = false ->
  make_request env url w = (Ok (Some r), quiet_fetch url w).
Proof.
  intros H E. unfold is_error_status in E.
  unfold make_request, try_except, bind, requests_get, raise_for_status.
  rewrite H. cbn. rewrite E. reflexivity.
Qed.

(** C3, as amended. Every call of [make_request] issues exactly one GET. If
    the GET raises a transport error (an exception deriving from
    [RequestException]), or yields a response with a 4xx or 5xx status, the
    wrapper returns [None], appends exactly one record to the log
    (timestamped, severity ERROR) and prints exactly one line. If the GET
    yields a response with any other status, and so with every 2xx status,
    the wrapper returns that response, logs nothing and prints nothing.
    These are not all the outcomes of a GET: an exception of another class
    leaves the wrapper as it is, nothing logged or printed, and when the
    GET never returns neither does the wrapper. *)
Theorem make_request_spec (env : Env) (url : string) (w : World) :
  http_trace (snd (make_request env url w)) = (http_trace w ++ [url])%list
  /\ match http_get env (List.length (http_trace w)) url with
     | inl (GetRaises k msg) =>
         if is_RequestException (requests_class k)
         then make_request env url w = (Ok None, failed_fetch env url msg w)
         else make_request env url w
              = (Raise (mkExn (requests_class k) msg), quiet_fetch url w)
     | inl GetHangs => make_request env url w = (Hang, quiet_fetch url w)
     | inr r =>
         if ((400 <=? status_code r) && (status_code r <? 600))%Z
         then make_request env url w
              = (Ok None, failed_fetch env url (http_error_msg env r) w)
         else make_request env url w = (Ok (Some r), quiet_fetch url w)
     end.
Proof.
  destruct (http_get env (List.length (http_trace w)) url) as [[k msg |] | r] eqn:G.
  - destruct (is_RequestException (requests_class k)) eqn:C.
    + rewrite (make_request_transport_error env url w k msg G C).
      split; reflexivity.
    + rewrite (make_request_other_error env url w k msg G C).
      split; reflexivity.
  - rewrite (make_request_hangs env url w G). split; reflexivity.
  - destruct ((400 <=? status_code r) && (status_code r <? 600))%Z eqn:E.
    + rewrite (make_request_error_status env url w r G E). split; reflexivity.
    + rewrite (make_request_success env url w r G E). split; reflexivity.
Qed.

(** Every 2xx response is handed back untouched. *)
Lemma make_request_2xx env url w r :
  http_get env (List.length (http_trace w)) url = inr r ->
  (200 <= status_code r < 300)%Z ->
  make_request env url w = (Ok (Some r), quiet_fetch url w).
Proof.
  intros G Hr. apply make_request_success; [exact G |].
  unfold is_error_status. apply andb_false_iff. left. apply Z.leb_gt. lia.
Qed.

(** The line a failed fetch adds to the log file. *)
Lemma failed_fetch_log_line env url msg w :
  map format_record (logfile (failed_fetch env url msg w))
  = (map format_record (logfile w)
     ++ [(asctime env (List.length (logfile w)) ++ ":ERROR:Request failed: " ++ msg)%string])%list.
Proof. unfold failed_fetch. cbn. rewrite map_app. reflexivity. Qed.

(** A 304 answer is not a 2xx status, yet [raise_for_status] lets it through:
    the wrapper returns the response, logs nothing and prints nothing. *)
Lemma make_request_304_returned :
  let r := mkResponse 304 EmptyString in
  let env := fixed_env (inr r) (inl "no body") None (inr pretoria) in
  let w := session [] in
  ~ (200 <= status_code r < 300)%Z
  /\ make_request env "https://tineye.com/search?url=x" w
     = (Ok (Some r), mkWorld [] [] [] ["https://tineye.com/search?url=x"] [] [])
  /\ logfile (snd (make_request env "https://tineye.com/search?url=x" w)) = []
  /\ console (snd (make_request env "https://tineye.com/search?url=x" w)) = [].
Proof. cbn. repeat split; try reflexivity. lia. Qed.

(** ** Stub actions *)

Lemma fill_contains template s : Py.contains s (fill template s).
Proof. exists (fst template), (snd template). reflexivity. Qed.

Lemma append_empty (s : string) : s ++ EmptyString = s.
Proof. induction s as [| c s IH]; cbn; [reflexivity | now rewrite IH]. Qed.

(** C8. A stub action, whatever the user types, returns normally having
    written the prompt and exactly two lines, each a fixed template filled
    with the input verbatim (so each contains it); it issues no GET, does
    not touch the geo-database and logs nothing. The username search on
    "alice" prints exactly the two lines shown. *)
Theorem stub_action_spec (env : Env) (a : Action) (prompt : string)
        (line1 line2 : string * string) (typed : string) (rest : list string)
        (w : World) :
  stub_format a = Some (prompt, line1, line2) ->
  stdin w = typed :: rest ->
  proc env a w
  = (Ok tt,
     mkWorld rest
             (console w ++ [Prompted prompt;
                            Printed (fill line1 typed);
                            Printed (fill line2 typed)])
             (logfile w) (http_trace w) (geo_trace w) (calls w ++ [a]))
  /\ Py.contains typed (fill line1 typed)
  /\ Py.contains typed (fill line2 typed)
  /\ (a = A_username_search -> typed = "alice" ->
      fill line1 typed = "Searching for information related to username: alice"
      /\ fill line2 typed = "Username alice found on various platforms.").
Proof.
  intros F I.
  split; [| split; [apply fill_contains | split; [apply fill_contains |]]].
  - destruct w as [inp con lg ht gt cs]. cbn in I. subst inp.
    destruct a; cbn in F; try discriminate;
      injection F as <- <- <-;
      cbn; run_effects; flatten_lists; unfold fill; cbn;
      rewrite ?append_empty; reflexivity.
  - intros -> ->. cbn in F. injection F as _ <- <-. split; reflexivity.
Qed.

Lemma stub_action_spec_witness :
  proc offline_env A_username_search (session ["alice"])
  = (Ok tt,
     mkWorld []
             [Prompted "Enter the username for search: ";
              Printed "Searching for information related to username: alice";
              Printed "Username alice found on various platforms."]
             [] [] [] [A_username_search]).
Proof.
  exact (proj1 (stub_action_spec offline_env A_username_search
                  "Enter the username for search: "
                  ("Searching for information related to username: ", EmptyString)
                  ("Username ", " found on various platforms.")
                  "alice" [] (session ["alice"]) eq_refl eq_refl)).
Defined.

Lemma stub_actions_have_format a :
  In a stub_actions <-> stub_format a <> None.
Proof.
  split.
  - cbn. intros H. repeat (destruct H as [<- | H]; [cbn; discriminate |]). destruct H.
  - destruct a; cbn; intros H; try (exfalso; apply H; reflexivity); tauto.
Qed.

(** ** Geolocation *)

Lemma open_readers_app tr1 tr2 :
  open_readers (tr1 ++ tr2) = (open_readers tr1 + open_readers tr2)%Z.
Proof.
  induction tr1 as [| ev tr1 IH]; cbn; [reflexivity |].
  destruct ev; rewrite IH; lia.
Qed.

Lemma geo_class_is_Exception k : is_Exception (geo_class k) = true.
Proof. destruct k; reflexivity. Qed.

(** C5. An IP geolocation, once its prompt is answered, always returns
    normally, and every reader it opened is closed by then, on each path:
    database missing or malformed (no reader is ever open), lookup failed
    (opened, queried, closed), lookup succeeded (opened, queried, closed).
    On either error it appends one ERROR record to the log and prints one
    line naming the address and the error. *)
Theorem run_ip_geolocation_spec (env : Env) (ip : string) (rest : list string)
        (w : World) :
  stdin w = ip :: rest ->
  run_ip_geolocation env w = (Ok tt, geolocation_outcome env ip rest w)
  /\ open_readers (geo_trace (geolocation_outcome env ip rest w))
     = open_readers (geo_trace w).
Proof.
  intros I. destruct w as [inp con lg ht gt cs]. cbn in I. subst inp.
  unfold geolocation_outcome, run_ip_geolocation, with_reader, reader_city, geo_db.
  destruct (geo_open env "GeoLite2-City.mmdb") as [[k msg] |] eqn:O.
  - split.
    + destruct k; run_effects;
        unfold after_geo_failure, geo_failure; cbn; flatten_lists;
        rewrite app_nil_r; reflexivity.
    + cbn. rewrite app_nil_r. reflexivity.
  - destruct (geo_city env ip) as [[k msg] | c] eqn:C.
    + split.
      * destruct k; run_effects; rewrite C; cbn;
          unfold after_geo_failure, geo_failure; cbn; flatten_lists; reflexivity.
      * cbn. rewrite open_readers_app. cbn. lia.
    + split.
      * run_effects. rewrite C. cbn.
        unfold after_geo_success, geo_db. cbn. flatten_lists. reflexivity.
      * cbn. rewrite open_readers_app. cbn. lia.
Qed.

Lemma run_ip_geolocation_spec_witness :
  run_ip_geolocation offline_env (session ["8.8.8.8"])
  = (Ok tt, geolocation_outcome offline_env "8.8.8.8" [] (session ["8.8.8.8"])).
Proof.
  exact (proj1 (run_ip_geolocation_spec offline_env "8.8.8.8" []
                  (session ["8.8.8.8"]) eq_refl)).
Defined.

(** The three paths, run: database missing, address not in the database,
    address found. *)
Example geolocation_database_missing :
  run_ip_geolocation offline_env (session ["8.8.8.8"])
  = (Ok tt,
     mkWorld []
       [Prompted "Enter the IP address to geolocate: ";
        Printed "Failed to geolocate IP address 8.8.8.8: [Errno 2] No such file or directory: 'GeoLite2-City.mmdb'"]
       [mkLog "t0" ERROR
          "Failed to geolocate IP address 8.8.8.8: [Errno 2] No such file or directory: 'GeoLite2-City.mmdb'"]
       [] [] [A_ip_geolocation]).
Proof. reflexivity. Qed.

Example geolocation_address_absent :
  run_ip_geolocation
    (fixed_env (inl (RTimeout, "timed out")) (inl "no body") None
               (inl (GAddressNotFound, "The address 10.0.0.1 is not in the database.")))
    (session ["10.0.0.1"])
  = (Ok tt,
     mkWorld []
       [Prompted "Enter the IP address to geolocate: ";
        Printed "Failed to geolocate IP address 10.0.0.1: The address 10.0.0.1 is not in the database."]
       [mkLog "t0" ERROR
          "Failed to geolocate IP address 10.0.0.1: The address 10.0.0.1 is not in the database."]
       []
       [GeoOpened "GeoLite2-City.mmdb"; GeoLookup "10.0.0.1"; GeoClosed]
       [A_ip_geolocation]).
Proof. reflexivity. Qed.

Example geolocation_found :
  run_ip_geolocation
    (fixed_env (inl (RTimeout, "timed out")) (inl "no body") None (inr pretoria))
    (session ["196.25.1.1"])
  = (Ok tt,
     mkWorld []
       [Prompted "Enter the IP address to geolocate: ";
        Printed "Geolocation for IP 196.25.1.1:";
        Printed "City: Pretoria";
        Printed "Country: South Africa";
        Printed "Latitude: -25.7069";
        Printed "Longitude: 28.2294"]
       [] []
       [GeoOpened "GeoLite2-City.mmdb"; GeoLookup "196.25.1.1"; GeoClosed]
       [A_ip_geolocation]).
Proof. reflexivity. Qed.

(** C10. In Geolocation Tools, a sub-menu answer other than '1' and '2'
    makes the procedure print its three header lines and the prompt,
    nothing else (no invalid-choice message), enter no other procedure,
    touch neither the network nor the geo-database nor the log, and return
    normally. *)
Theorem run_geolocation_tools_other_choice (env : Env) (choice : string)
        (rest : list string) (w : World) :
  stdin w = choice :: rest ->
  choice <> "1" ->
  choice <> "2" ->
  run_geolocation_tools env w
  = (Ok tt,
     mkWorld rest
             (console w ++ [Printed "Geolocation Tools:";
                            Printed "1. IP-based Geolocation";
                            Printed "2. Location Search";
                            Prompted "Enter your choice (1-2): "])
             (logfile w) (http_trace w) (geo_trace w)
             (calls w ++ [A_geolocation_tools])).
Proof.
  intros I N1 N2. destruct w as [inp con lg ht gt cs]. cbn in I. subst inp.
  apply String.eqb_neq in N1, N2.
  unfold run_geolocation_tools. run_effects. rewrite N1, N2.
  flatten_lists. reflexivity.
Qed.

Lemma run_geolocation_tools_other_choice_witness :
  run_geolocation_tools offline_env (session ["3"])
  = (Ok tt,
     mkWorld []
             [Printed "Geolocation Tools:";
              Printed "1. IP-based Geolocation";
              Printed "2. Location Search";
              Prompted "Enter your choice (1-2): "]
             [] [] [] [A_geolocation_tools]).
Proof.
  apply (run_geolocation_tools_other_choice offline_env "3" [] (session ["3"]) eq_refl);
    discriminate.
Defined.

(** ** Real-name pattern search *)

Section WholeWord.

Lemma in_capitals u : In u capitals <-> (65 <= u <= 90)%N.
Proof.
  unfold capitals. rewrite in_map_iff. split.
  - intros (n & <- & H). apply in_seq in H. lia.
  - intros H. exists (N.to_nat u). split; [apply N2Nat.id | apply in_seq; lia].
Qed.

(** What the case folding of the pattern matcher does to a character. *)
Lemma fold_cases n :
  ((65 <= n <= 90)%N /\ Py.fold n = (n + 32)%N)
  \/ ((n = 304 \/ n = 305)%N /\ Py.fold n = 105%N)
  \/ (n = 383%N /\ Py.fold n = 115%N)
  \/ (n = 8490%N /\ Py.fold n = 107%N)
  \/ (~ (65 <= n <= 90)%N /\ n <> 304%N /\ n <> 305%N /\ n <> 383%N
      /\ n <> 8490%N /\ Py.fold n = n).
Proof.
  unfold Py.fold, Py.between.
  destruct (N.leb_spec 65 n); destruct (N.leb_spec n 90); cbn [andb];
    try (left; split; [lia | reflexivity]);
    (destruct (N.eqb_spec n 304); [right; left; split; [lia | reflexivity] |]);
    (destruct (N.eqb_spec n 305); [right; left; split; [lia | reflexivity] |]);
    cbn [orb];
    (destruct (N.eqb_spec n 383); [right; right; left; split; [lia | reflexivity] |]);
    (destruct (N.eqb_spec n 8490);
     [right; right; right; left; split; [lia | reflexivity] |]);
    right; right; right; right; repeat split; try assumption; lia.
Qed.

Lemma in_variants u n :
  (65 <= u <= 90)%N ->
  existsb (N.eqb n) (variants u) = true <-> Py.fold n = (u + 32)%N.
Proof.
  intros U. rewrite existsb_exists.
  assert (V : forall x, In x (variants u)
                        <-> x = u \/ x = (u + 32)%N
                            \/ (u = 73%N /\ (x = 304%N \/ x = 305%N))
                            \/ (u = 83%N /\ x = 383%N)
                            \/ (u = 75%N /\ x = 8490%N)).
  { intros x. unfold variants.
    destruct (N.eqb_spec u 73); [| destruct (N.eqb_spec u 83);
                                   [| destruct (N.eqb_spec u 75)]];
      cbn; intuition lia. }
  split.
  - intros (x & I & E). apply N.eqb_eq in E. subst x. apply V in I.
    destruct (fold_cases n) as [[R F] | [[R F] | [[R F] | [[R F] | R]]]];
      try (rewrite F; lia).
    destruct R as (R1 & R2 & R3 & R4 & R5 & F). rewrite F. lia.
  - intros F. exists n. split; [| apply N.eqb_refl]. apply V.
    destruct (fold_cases n) as [[R E] | [[R E] | [[R E] | [[R E] | R]]]];
      try (rewrite E in F; lia).
    destruct R as (R1 & R2 & R3 & R4 & R5 & E). rewrite E in F. lia.
Qed.

(** The matcher's comparison of a character of the pattern with one of
    the text is the comparison of letters up to case. *)
Lemma fold_same_letter c x : (Py.fold x =? Py.fold c)%N = same_letter c x.
Proof.
  apply eq_true_iff_eq. unfold same_letter.
  rewrite N.eqb_eq, orb_true_iff, N.eqb_eq, existsb_exists. split.
  - intros E.
    destruct (fold_cases c) as [[R F] | [[R F] | [[R F] | [[R F] | R]]]].
    + right. exists c. split; [now apply in_capitals |].
      apply andb_true_iff. split; apply in_variants; congruence.
    + right. exists 73%N. split; [apply in_capitals; lia |].
      apply andb_true_iff. split; apply in_variants; try lia; congruence.
    + right. exists 83%N. split; [apply in_capitals; lia |].
      apply andb_true_iff. split; apply in_variants; try lia; congruence.
    + right. exists 75%N. split; [apply in_capitals; lia |].
      apply andb_true_iff. split; apply in_variants; try lia; congruence.
    + destruct R as (R1 & R2 & R3 & R4 & R5 & F).
      destruct (fold_cases x) as [[S G] | [[S G] | [[S G] | [[S G] | S]]]].
      * right. exists x. split; [now apply in_capitals |].
        apply andb_true_iff. split; apply in_variants; congruence.
      * right. exists 73%N. split; [apply in_capitals; lia |].
        apply andb_true_iff. split; apply in_variants; try lia; congruence.
      * right. exists 83%N. split; [apply in_capitals; lia |].
        apply andb_true_iff. split; apply in_variants; try lia; congruence.
      * right. exists 75%N. split; [apply in_capitals; lia |].
        apply andb_true_iff. split; apply in_variants; try lia; congruence.
      * destruct S as (_ & _ & _ & _ & _ & G). left. congruence.
  - intros [-> | (u & U & V)]; [reflexivity |].
    apply in_capitals in U. apply andb_true_iff in V. destruct V as [Vc Vx].
    apply (proj1 (in_variants u c U)) in Vc.
    apply (proj1 (in_variants u x U)) in Vx. congruence.
Qed.

Lemma is_word_word_char n : Py.is_word n = word_char n.
Proof. reflexivity. Qed.

Lemma ends_in_word_last before x :
  ends_in_word (before ++ [x]) = word_char x.
Proof. unfold ends_in_word. rewrite rev_app_distr. reflexivity. Qed.

(** The boundary test of the matcher is the word edge. *)
Lemma at_boundary_word_edge prev before t :
  Py.word_before prev = ends_in_word before ->
  Py.at_boundary prev t = word_edge before (map Py.ord t).
Proof.
  intros H. unfold Py.at_boundary, word_edge. rewrite H.
  replace (starts_with_word (map Py.ord t)) with (Py.word_here t)
    by (destruct t; reflexivity).
  destruct (ends_in_word before), (Py.word_here t); reflexivity.
Qed.

Lemma reads_as_length name : forall m,
  reads_as name m = true -> List.length m = List.length name.
Proof.
  induction name as [| c name IH]; intros [| x m]; cbn; try discriminate.
  - reflexivity.
  - intros H. apply andb_true_iff in H. destruct H as [_ H].
    now rewrite (IH m H).
Qed.

(** The literals of the name followed by the closing boundary. *)
Lemma match_literals name : forall prev before t,
  Py.word_before prev = ends_in_word before ->
  Py.match_here true (map Py.Literal name ++ [Py.WordBoundary]) prev t
  = if reads_as name (firstn (List.length name) (map Py.ord t))
       && word_edge (before ++ firstn (List.length name) (map Py.ord t))
                    (skipn (List.length name) (map Py.ord t))
    then Some (firstn (List.length name) t)
    else None.
Proof.
  induction name as [| c name IH]; intros prev before t H.
  - cbn [map List.app Py.match_here List.length firstn skipn reads_as andb].
    rewrite app_nil_r, (at_boundary_word_edge prev before t H).
    destruct (word_edge before (map Py.ord t)); reflexivity.
  - destruct t as [| x t]; [reflexivity |].
    cbn [map List.app Py.match_here List.length firstn skipn reads_as].
    unfold Py.char_matches. rewrite fold_same_letter.
    destruct (same_letter c (Py.ord x)); [| reflexivity].
    rewrite (IH (Some x) (before ++ [Py.ord x])%list t)
      by (rewrite ends_in_word_last; reflexivity).
    rewrite <- List.app_assoc. cbn [List.app andb].
    destruct (_ && _); reflexivity.
Qed.

(** A match of the whole pattern at a position: the name stands there. *)
Lemma match_name name prev before t :
  Py.word_before prev = ends_in_word before ->
  Py.match_here true (Py.atoms (name_pattern name)) prev t
  = if stands_at (code_points name) before (map Py.ord t)
    then Some (firstn (List.length (code_points name)) t)
    else None.
Proof.
  intros H. unfold name_pattern, Py.escape, stands_at, code_points.
  cbn [Py.atoms List.app Py.match_here].
  rewrite <- (map_map Py.ord Py.Literal).
  rewrite (at_boundary_word_edge prev before t H).
  rewrite (match_literals _ prev before t H).
  destruct (reads_as _ _), (word_edge before _), (word_edge _ _); reflexivity.
Qed.

Lemma stands_at_length name before (t : list Py.Char) :
  stands_at name before (map Py.ord t) = true ->
  List.length (firstn (List.length name) t) = List.length name.
Proof.
  unfold stands_at. intros H.
  apply andb_true_iff in H. destruct H as [H _].
  apply andb_true_iff in H. destruct H as [H _].
  apply reads_as_length in H.
  rewrite length_firstn, length_map in H. rewrite length_firstn. exact H.
Qed.

(** The scan of [findall] counts the whole-word occurrences. *)
Lemma scan_counts name : forall t prev before skip,
  Py.word_before prev = ends_in_word before ->
  List.length (Py.scan (name_pattern name) skip prev t)
  = count_from (code_points name) before (map Py.ord t) skip.
Proof.
  induction t as [| x t IH]; intros prev before skip H;
    cbn [Py.scan map count_from];
    change (Py.ignorecase (name_pattern name)) with true.
  - destruct skip as [| skip]; cbn [Nat.eqb andb]; [| reflexivity].
    rewrite (match_name name prev before [] H). cbn [map].
    destruct (stands_at (code_points name) before []); reflexivity.
  - destruct skip as [| skip]; cbn [Nat.eqb andb].
    + rewrite (match_name name prev before (x :: t) H). cbn [map].
      destruct (stands_at (code_points name) before (Py.ord x :: map Py.ord t))
        eqn:S.
      * rewrite length_app. cbn [List.length].
        rewrite (stands_at_length _ before (x :: t) S).
        rewrite (IH (Some x) (before ++ [Py.ord x])%list)
          by (rewrite ends_in_word_last; reflexivity).
        reflexivity.
      * cbn [List.app pred].
        rewrite (IH (Some x) (before ++ [Py.ord x])%list)
          by (rewrite ends_in_word_last; reflexivity).
        reflexivity.
    + cbn [List.app pred].
      rewrite (IH (Some x) (before ++ [Py.ord x])%list)
        by (rewrite ends_in_word_last; reflexivity).
      reflexivity.
Qed.

Lemma findall_counts (name text : string) :
  List.length (Py.findall (name_pattern name) text)
  = whole_word_count (code_points name) (code_points text).
Proof.
  unfold Py.findall, whole_word_count, code_points.
  rewrite length_map. apply scan_counts. reflexivity.
Qed.

(** Nothing is counted exactly when the name stands nowhere. *)
Lemma count_from_zero name : forall after before,
  count_from name before after 0 = 0%nat
  <-> forall pre post, after = (pre ++ post)%list ->
                       stands_at name (before ++ pre) post = false.
Proof.
  induction after as [| x after IH]; intros before; cbn [count_from Nat.eqb andb].
  - split.
    + intros H pre post E. symmetry in E. apply app_eq_nil in E.
      destruct E as [-> ->]. rewrite app_nil_r.
      destruct (stands_at name before []); [discriminate | reflexivity].
    + intros H. specialize (H [] [] eq_refl). rewrite app_nil_r in H.
      rewrite H. reflexivity.
  - split.
    + intros H pre post E.
      destruct (stands_at name before (x :: after)) eqn:S; [discriminate |].
      cbn [Nat.add pred] in H.
      destruct pre as [| y pre].
      * cbn in E. subst post. rewrite app_nil_r. exact S.
      * cbn in E. injection E as <- E.
        replace (before ++ x :: pre)%list with ((before ++ [x]) ++ pre)%list
          by (rewrite <- List.app_assoc; reflexivity).
        apply (proj1 (IH (before ++ [x])%list) H pre post E).
    + intros H.
      pose proof (H [] (x :: after) eq_refl) as S. rewrite app_nil_r in S.
      rewrite S. cbn [Nat.add pred]. apply IH.
      intros pre post E. rewrite <- List.app_assoc. apply (H (x :: pre) post).
      cbn. now rewrite E.
Qed.

End WholeWord.

Lemma pattern_search_run (name : string) (rest : list string) (w : World) :
  stdin w = name :: rest ->
  run_real_name_search_pattern w
  = (Ok tt,
     mkWorld rest
             (console w ++
              [Prompted "Enter the real name for pattern search: ";
               Printed ("Searching for patterns matching real name: " ++ name);
               Printed ("Found " ++ Py.str_nat (List.length (matches_of name))
                        ++ " matches for name " ++ name ++ " in sample text.")])
             (logfile w) (http_trace w) (geo_trace w)
             (calls w ++ [A_real_name_search_pattern])).
Proof.
  intros I. destruct w as [inp con lg ht gt cs]. cbn in I. subst inp.
  unfold run_real_name_search_pattern, matches_of.
  unfold bind, ret, print, input, enter.
  cbn -[Py.findall Py.str_nat name_pattern sample_text String.append].
  flatten_lists. reflexivity.
Qed.

Lemma matches_counted (name : string) :
  List.length (matches_of name)
  = whole_word_count (code_points name) (code_points sample_text).
Proof. exact (findall_counts name sample_text). Qed.

Lemma no_match_stands_nowhere (name : string) :
  List.length (matches_of name) = 0%nat
  <-> forall before after,
        code_points sample_text = (before ++ after)%list ->
        stands_at (code_points name) before after = false.
Proof.
  rewrite matches_counted. unfold whole_word_count.
  exact (count_from_zero (code_points name) (code_points sample_text) []).
Qed.

Lemma matches_of_John_Doe : matches_of "John Doe" = ["John Doe"].
Proof. vm_compute. reflexivity. Qed.

(** C4. The real-name pattern search, once its prompt is answered, issues no
    GET and touches neither the geo-database nor the log; it prints two
    lines, the second reporting the number of matches of the name in the
    one sample sentence. That number is the whole-word, case-insensitive
    count of the name in the sentence: the places where the name stands
    letter by letter up to case with a word edge on each side, counted from
    the left, none counted that starts inside the one before; it is zero
    exactly when the name stands nowhere that way. "John Doe" gives 1 and
    "Jane" gives 0; case is ignored ("john doe", "JOHN DOE" and 'with'
    written with a dotless i give 1), a part of a word does not count
    ("Joh", "ohn Doe", "John Do" and "e" give 0), and the empty name is
    counted at each of the twenty word edges. *)
Theorem run_real_name_search_pattern_spec (name : string) (rest : list string)
        (w : World) :
  stdin w = name :: rest ->
  run_real_name_search_pattern w
  = (Ok tt,
     mkWorld rest
             (console w ++
              [Prompted "Enter the real name for pattern search: ";
               Printed ("Searching for patterns matching real name: " ++ name);
               Printed ("Found " ++ Py.str_nat (List.length (matches_of name))
                        ++ " matches for name " ++ name ++ " in sample text.")])
             (logfile w) (http_trace w) (geo_trace w)
             (calls w ++ [A_real_name_search_pattern]))
  /\ List.length (matches_of name)
     = whole_word_count (code_points name) (code_points sample_text)
  /\ (List.length (matches_of name) = 0%nat
      <-> forall before after,
            code_points sample_text = (before ++ after)%list ->
            stands_at (code_points name) before after = false)
  /\ map (fun n => List.length (matches_of n))
         ["John Doe"; "Jane"; "john doe"; "JOHN DOE"; "John"; "Doe"; "Joh";
          "ohn Doe"; "John Do"; "name John"; "Example"; "content"; "content.";
          "e"; dotless_with; EmptyString]
     = [1; 0; 1; 1; 1; 1; 0; 0; 0; 1; 1; 1; 0; 0; 1; 20]%nat.
Proof.
  intros I. split; [| split; [| split]].
  - now apply pattern_search_run.
  - apply matches_counted.
  - apply no_match_stands_nowhere.
  - vm_compute. reflexivity.
Qed.

Lemma run_real_name_search_pattern_spec_witness :
  run_real_name_search_pattern (session ["John Doe"])
  = (Ok tt,
     mkWorld []
             [Prompted "Enter the real name for pattern search: ";
              Printed "Searching for patterns matching real name: John Doe";
              Printed "Found 1 matches for name John Doe in sample text."]
             [] [] [] [A_real_name_search_pattern]).
Proof.
  pose proof (run_real_name_search_pattern_spec "John Doe" [] (session ["John Doe"])
                eq_refl) as [H _].
  rewrite matches_of_John_Doe in H. exact H.
Defined.

(** The search run on two names. *)
Example pattern_search_Jane :
  run_real_name_search_pattern (session ["Jane"])
  = (Ok tt,
     mkWorld []
             [Prompted "Enter the real name for pattern search: ";
              Printed "Searching for patterns matching real name: Jane";
              Printed "Found 0 matches for name Jane in sample text."]
             [] [] [] [A_real_name_search_pattern]).
Proof. vm_compute. reflexivity. Qed.

Example pattern_search_lower_case :
  run_real_name_search_pattern (session ["john doe"])
  = (Ok tt,
     mkWorld []
             [Prompted "Enter the real name for pattern search: ";
              Printed "Searching for patterns matching real name: john doe";
              Printed "Found 1 matches for name john doe in sample text."]
             [] [] [] [A_real_name_search_pattern]).
Proof. vm_compute. reflexivity. Qed.

(** ** Which procedures a computation enters *)

Section Kept.

Context {R : World -> World -> Prop} {K : Kept R}.

Lemma preserves_ret {A} (a : A) : preserves R (ret a).
Proof. intro w. apply kept_refl. Qed.

Lemma preserves_raise {A} c msg : preserves R (@raise A c msg).
Proof. intro w. apply kept_refl. Qed.

Lemma preserves_bind {A B} (m : M A) (k : A -> M B) :
  preserves R m -> (forall a, preserves R (k a)) -> preserves R (bind m k).
Proof.
  intros Hm Hk w. unfold bind. specialize (Hm w).
  destruct (m w) as [[a | e |] w']; cbn in *; [| exact Hm | exact Hm].
  eapply kept_trans; [exact Hm | apply Hk].
Qed.

Lemma preserves_try_except {A} (m : M A) catches handler :
  preserves R m -> (forall e, preserves R (handler e)) ->
  preserves R (try_except m catches handler).
Proof.
  intros Hm Hh w. unfold try_except. specialize (Hm w).
  destruct (m w) as [[a | e |] w']; cbn in *; [exact Hm | | exact Hm].
  destruct (catches (exn_class e)); cbn; [| exact Hm].
  eapply kept_trans; [exact Hm | apply Hh].
Qed.

Lemma preserves_finally {A} (m : M A) cleanup :
  preserves R m -> preserves R cleanup -> preserves R (finally m cleanup).
Proof.
  intros Hm Hc w. unfold finally. specialize (Hm w).
  destruct (m w) as [[a | e |] w']; cbn in *; [| | exact Hm];
    (eapply kept_trans; [exact Hm | apply Hc]).
Qed.

Lemma preserves_for_each {A} (l : list A) (body : A -> M unit) :
  (forall x, preserves R (body x)) -> preserves R (for_each l body).
Proof.
  intros Hb. induction l as [| x l IH]; cbn.
  - apply preserves_ret.
  - apply preserves_bind; [apply Hb | intros _; exact IH].
Qed.

Lemma preserves_if_response {A} response (yes : Response -> M A) no :
  (forall r, preserves R (yes r)) -> preserves R no ->
  preserves R (if_response response yes no).
Proof.
  intros Hy Hn. unfold if_response.
  destruct response as [r |]; [destruct (response_ok r) |]; auto.
Qed.

Lemma preserves_subscript data key : preserves R (subscript data key).
Proof.
  unfold subscript. destruct data; try apply preserves_raise.
  destruct (dict_get _ _); [apply preserves_ret | apply preserves_raise].
Qed.

Lemma preserves_iterate v : preserves R (iterate v).
Proof. unfold iterate. destruct v; first [apply preserves_ret | apply preserves_raise]. Qed.

Context {env : Env} {KE : KeptIn env R}.

Lemma preserves_logging_error msg : preserves R (logging_error env msg).
Proof. apply kept_logging. Qed.

Lemma preserves_logging_info msg : preserves R (logging_info env msg).
Proof. apply kept_logging. Qed.

Lemma preserves_raise_for_status r : preserves R (raise_for_status env r).
Proof.
  unfold raise_for_status.
  destruct (_ && _); [apply preserves_raise | apply preserves_ret].
Qed.

Lemma preserves_make_request url : preserves R (make_request env url).
Proof.
  unfold make_request. apply preserves_try_except.
  - apply preserves_bind; [apply kept_requests_get | intros r].
    apply preserves_bind; [apply preserves_raise_for_status | intros _].
    apply preserves_ret.
  - intros e. apply preserves_bind; [apply preserves_logging_error | intros _].
    apply preserves_bind; [apply kept_print | intros _]. apply preserves_ret.
Qed.

Lemma preserves_response_json r : preserves R (response_json env r).
Proof.
  unfold response_json.
  destruct (json_decode env _) as [[k msg] | v];
    [apply preserves_raise | apply preserves_ret].
Qed.

Lemma preserves_parse_html html : preserves R (parse_html env html).
Proof.
  unfold parse_html.
  destruct (html_parser env html) as [[k msg] |];
    [apply preserves_raise | apply preserves_ret].
Qed.

Lemma preserves_reader_city ip : preserves R (reader_city env ip).
Proof.
  unfold reader_city. apply preserves_bind; [apply kept_geo_event | intros _].
  destruct (geo_city env ip) as [[k msg] | c];
    [apply preserves_raise | apply preserves_ret].
Qed.

Lemma preserves_with_reader {A} path (body : M A) :
  preserves R body -> preserves R (with_reader env path body).
Proof.
  intros Hb. unfold with_reader.
  destruct (geo_open env path) as [[k msg] |]; [apply preserves_raise |].
  apply preserves_bind; [apply kept_geo_event | intros _].
  apply preserves_finally; [exact Hb | apply kept_geo_event].
Qed.

End Kept.

(** Take a computation apart down to the effects a kept relation is
    stated on. *)
Ltac kept :=
  repeat
    (cbv beta zeta;
     lazymatch goal with
     | |- preserves _ (bind _ _) => apply preserves_bind; [| intro]
     | |- preserves _ (ret _) => apply preserves_ret
     | |- preserves _ (raise _ _) => apply preserves_raise
     | |- preserves _ (print _) => apply kept_print
     | |- preserves _ (input _) => apply kept_input
     | |- preserves _ (geo_event _) => apply kept_geo_event
     | |- preserves _ (logging_error _ _) => apply preserves_logging_error
     | |- preserves _ (logging_info _ _) => apply preserves_logging_info
     | |- preserves _ (make_request _ _) => apply preserves_make_request
     | |- preserves _ (response_json _ _) => apply preserves_response_json
     | |- preserves _ (parse_html _ _) => apply preserves_parse_html
     | |- preserves _ (subscript _ _) => apply preserves_subscript
     | |- preserves _ (iterate _) => apply preserves_iterate
     | |- preserves _ (reader_city _ _) => apply preserves_reader_city
     | |- preserves _ (with_reader _ _ _) => apply preserves_with_reader
     | |- preserves _ (try_except _ _ _) => apply preserves_try_except; [| intro]
     | |- preserves _ (for_each _ _) => apply preserves_for_each; intro
     | |- preserves _ (if_response _ _ _) => apply preserves_if_response; [intro |]
     end).

#[export] Instance same_calls_kept : Kept same_calls.
Proof.
  split; unfold same_calls, preserves.
  - reflexivity.
  - intros w1 w2 w3 H1 H2. congruence.
  - reflexivity.
  - intros prompt w. unfold input. destruct (stdin w); reflexivity.
  - reflexivity.
Qed.

#[export] Instance same_calls_kept_in env : KeptIn env same_calls.
Proof.
  split; unfold same_calls, preserves.
  - intros l msg w. unfold logging_log. destruct (_ <=? _)%Z; reflexivity.
  - intros url w. unfold requests_get.
    destruct (http_get env _ url) as [[k msg |] | r]; reflexivity.
Qed.

#[export] Instance input_not_longer_kept : Kept input_not_longer.
Proof.
  split; unfold input_not_longer, preserves.
  - reflexivity.
  - intros w1 w2 w3 H1 H2. lia.
  - reflexivity.
  - intros prompt w. unfold input. destruct (stdin w); cbn; lia.
  - reflexivity.
Qed.

#[export] Instance input_not_longer_kept_in env : KeptIn env input_not_longer.
Proof.
  split; unfold input_not_longer, preserves.
  - intros l msg w. unfold logging_log. destruct (_ <=? _)%Z; reflexivity.
  - intros url w. unfold requests_get.
    destruct (http_get env _ url) as [[k msg |] | r]; reflexivity.
Qed.

Ltac unfold_procedures :=
  unfold run_domain_lookup, run_ip_geolocation, run_public_records,
    run_reverse_image_search, run_saps_wanted_missing,
    run_international_wanted_missing, run_social_network_search,
    run_real_name_search_pattern, run_google_dorks, run_username_search,
    run_email_address_search, run_compromised_databases_search,
    run_phone_number_search, run_whois, run_reverse_whois, run_passive_dns,
    print_help, print_settings, exit_program.

Section Entered.

Variable env : Env.

Lemma enters_then {A} a (body : M A) :
  preserves same_calls body -> enters a (fun _ => []) (enter a ;; body).
Proof.
  intros Hb w. unfold bind, enter. rewrite Hb. reflexivity.
Qed.

Lemma enters_ip_geolocation :
  enters A_ip_geolocation (fun _ => []) (run_ip_geolocation env).
Proof. unfold run_ip_geolocation. apply enters_then. kept. Qed.

Lemma enters_geolocation_tools :
  enters A_geolocation_tools geolocation_tools_nested (run_geolocation_tools env).
Proof.
  intros w. unfold run_geolocation_tools, geolocation_tools_nested.
  destruct w as [inp con lg ht gt cs].
  destruct inp as [| choice rest]; [reflexivity |].
  unfold bind at 1 2 3 4 5. unfold enter, print, input.
  cbn [stdin console logfile http_trace geo_trace calls].
  destruct (String.eqb choice "1").
  - rewrite enters_ip_geolocation. cbn. rewrite <- List.app_assoc. reflexivity.
  - destruct (String.eqb choice "2").
    + assert (K : preserves same_calls
                    (location <- input "Enter the location to search: " ;;
                     print ("Performing location search for: " ++ location) ;;
                     print ("Location information for " ++ location ++ "."))).
      { kept. }
      rewrite K. reflexivity.
    + reflexivity.
Qed.

(** Every procedure enters itself first, once; only Geolocation Tools
    goes on to enter another one. *)
Lemma proc_enters a :
  exists nested, enters a nested (proc env a)
                 /\ forall w, ~ In a (nested w).
Proof.
  destruct a;
    try solve
        [exists (fun _ => []); split; [| intros w []];
         cbn [proc];
         first [ exact enters_ip_geolocation
               | unfold_procedures; apply enters_then; kept ]].
  exists geolocation_tools_nested. split; [exact enters_geolocation_tools |].
  intros w. unfold geolocation_tools_nested.
  destruct (stdin w) as [| choice rest]; [intros [] |].
  destruct (String.eqb choice "1"); [| intros []].
  intros [H | []]. discriminate.
Qed.

End Entered.

(** A kept relation that entering a procedure respects is respected by
    every procedure. *)
Section Procedures.

Context {R : World -> World -> Prop} {K : Kept R}.
Context {env : Env} {KE : KeptIn env R}.
Hypothesis kept_enter : forall a, preserves R (enter a).

Lemma proc_preserves a : preserves R (proc env a).
Proof.
  destruct a; cbn [proc]; unfold_procedures;
    try solve [apply preserves_bind; [apply kept_enter | intros _; kept]].
  unfold run_geolocation_tools.
  apply preserves_bind; [apply kept_enter | intros _].
  do 4 (apply preserves_bind; [kept | intro]).
  destruct (String.eqb _ "1").
  - unfold run_ip_geolocation.
    apply preserves_bind; [apply kept_enter | intros _; kept].
  - destruct (String.eqb _ "2"); kept.
Qed.

End Procedures.

(** No procedure adds to the input. *)
Lemma enter_keeps_input a : preserves input_not_longer (enter a).
Proof. intros w. unfold input_not_longer. reflexivity. Qed.

Lemma proc_keeps_input env a : preserves input_not_longer (proc env a).
Proof. apply proc_preserves. exact enter_keeps_input. Qed.

(** No procedure takes anything back from the console. *)
#[export] Instance console_extends_kept : Kept console_extends.
Proof.
  split; unfold console_extends, preserves.
  - intros w. exists []. now rewrite app_nil_r.
  - intros w1 w2 w3 [t1 H1] [t2 H2]. exists (t1 ++ t2)%list.
    rewrite H2, H1, List.app_assoc. reflexivity.
  - intros line w. eexists. reflexivity.
  - intros prompt w. unfold input. destruct (stdin w); eexists; reflexivity.
  - intros ev w. exists []. cbn. now rewrite app_nil_r.
Qed.

#[export] Instance console_extends_kept_in env : KeptIn env console_extends.
Proof.
  split; unfold console_extends, preserves.
  - intros l msg w. unfold logging_log. exists [].
    destruct (_ <=? _)%Z; cbn; now rewrite app_nil_r.
  - intros url w. unfold requests_get. exists [].
    destruct (http_get env _ url) as [[k msg |] | r]; cbn; now rewrite app_nil_r.
Qed.

Lemma enter_extends_console a : preserves console_extends (enter a).
Proof. intros w. exists []. cbn. now rewrite app_nil_r. Qed.

Lemma proc_extends_console env a : preserves console_extends (proc env a).
Proof. apply proc_preserves. exact enter_extends_console. Qed.

(** ** Numerals *)

Section Numerals.

Lemma split_digits l :
  forallb is_ascii_digit l = true -> Py.split l = map (fun c => [c]) l.
Proof.
  induction l as [| c l IH]; [reflexivity |].
  cbn [forallb map]. intros H. apply andb_true_iff in H. destruct H as [D H].
  unfold is_ascii_digit in D. apply andb_true_iff in D. destruct D as [_ D].
  apply N.leb_le in D.
  cbn [Py.split].
  replace (Py.byte c <? 128)%N with true by (symmetry; apply N.ltb_lt; lia).
  now rewrite IH.
Qed.

Lemma digit_of_ascii_digit c :
  is_ascii_digit c = true ->
  Py.digit (Py.ord [c]) = Some (Z.of_N (Py.byte c) - 48)%Z.
Proof.
  intros D. unfold is_ascii_digit in D. unfold Py.digit.
  cbn [Py.ord Py.decimal_zeros find]. change (48 + 9)%N with 57%N.
  unfold Py.between at 1. rewrite D. cbn [option_map]. f_equal.
  apply andb_true_iff in D. destruct D as [D _]. apply N.leb_le in D. lia.
Qed.

Lemma ascii_digit_cases c :
  is_ascii_digit c = true ->
  In (Py.byte c) [48; 49; 50; 51; 52; 53; 54; 55; 56; 57]%N.
Proof.
  intros D. unfold is_ascii_digit in D. apply andb_true_iff in D.
  destruct D as [D1 D2]. apply N.leb_le in D1, D2. cbn [In]. lia.
Qed.

Lemma not_space_digit c : is_ascii_digit c = true -> Py.is_space (Py.ord [c]) = false.
Proof.
  intros D. apply ascii_digit_cases in D. cbn [Py.ord]. cbn [In] in D.
  repeat (destruct D as [<- | D]; [reflexivity |]). destruct D.
Qed.

Lemma lstrip_digits l :
  forallb is_ascii_digit l = true ->
  Py.lstrip (map (fun c => [c]) l) = map (fun c => [c]) l.
Proof.
  destruct l as [| c l]; [reflexivity |]. cbn [forallb map Py.lstrip].
  intros H. apply andb_true_iff in H. destruct H as [D _].
  now rewrite (not_space_digit c D).
Qed.

Lemma forallb_rev {A} (f : A -> bool) l : forallb f (rev l) = forallb f l.
Proof.
  induction l as [| x l IH]; [reflexivity |].
  cbn. rewrite forallb_app, IH. cbn. rewrite andb_true_r. apply andb_comm.
Qed.

Lemma concat_singletons (l : list ascii) : List.concat (map (fun c => [c]) l) = l.
Proof. induction l as [| c l IH]; cbn; [reflexivity | now rewrite IH]. Qed.

(** A line of digits is its own [strip]. *)
Lemma strip_digits line :
  forallb is_ascii_digit (list_ascii_of_string line) = true ->
  Py.strip line = line.
Proof.
  intros H. unfold Py.strip, Py.chars, Py.str_of.
  rewrite (split_digits _ H), (lstrip_digits _ H), <- map_rev.
  rewrite lstrip_digits by (now rewrite forallb_rev).
  rewrite <- map_rev, rev_involutive, concat_singletons.
  apply string_of_list_ascii_of_string.
Qed.

Lemma scan_digits_all l : forall value count,
  forallb is_ascii_digit l = true ->
  Py.scan_digits value count false (map (fun c => [c]) l)
  = Some (fold_left (fun v c => (10 * v + (Z.of_N (Py.byte c) - 48))%Z) l value,
          (count + N.of_nat (List.length l))%N, []).
Proof.
  induction l as [| c l IH]; intros value count H.
  - cbn. now rewrite N.add_0_r.
  - cbn [forallb] in H. apply andb_true_iff in H. destruct H as [D H].
    cbn [map Py.scan_digits]. rewrite (digit_of_ascii_digit c D).
    rewrite (IH _ _ H). cbn [fold_left List.length].
    replace (count + 1 + N.of_nat (List.length l))%N
      with (count + N.of_nat (S (List.length l)))%N by lia.
    reflexivity.
Qed.

(** [int] on a numeral: the number it writes, unless it has more than 4300
    digits. *)
Lemma int_numeral line :
  is_numeral line = true ->
  Py.int (Py.strip line)
  = if (String.length line <=? 4300)%nat then Some (numeral_value line) else None.
Proof.
  unfold is_numeral, numeral_value. intros H.
  assert (L : String.length line = List.length (list_ascii_of_string line)).
  { rewrite <- (string_of_list_ascii_of_string line) at 1.
    generalize (list_ascii_of_string line). intros l.
    induction l as [| c l IH]; cbn; [reflexivity | now rewrite IH]. }
  rewrite L. clear L.
  destruct (list_ascii_of_string line) as [| c l] eqn:E; [discriminate |].
  change (forallb is_ascii_digit (c :: l) = true) in H.
  rewrite strip_digits by (now rewrite E).
  unfold Py.int, Py.int_result, Py.chars. rewrite E, (split_digits _ H).
  pose proof H as H'. cbn [forallb] in H'. apply andb_true_iff in H'.
  destruct H' as [D _].
  assert (B : Py.is_blank (Py.ord [c]) = false /\ (Py.ord [c] =? 43)%N = false
              /\ (Py.ord [c] =? 45)%N = false /\ (Py.ord [c] =? 95)%N = false).
  { apply ascii_digit_cases in D. cbn [Py.ord]. cbn [In] in D.
    repeat (destruct D as [<- | D]; [repeat split |]). destruct D. }
  destruct B as (B1 & B2 & B3 & B4).
  cbn [map Py.skip_blanks]. rewrite B1, B2, B3.
  unfold Py.int_unsigned. rewrite B4.
  change ([c] :: map (fun c0 => [c0]) l) with (map (fun c0 : ascii => [c0]) (c :: l)).
  rewrite (scan_digits_all (c :: l) 0 0 H).
  replace (0 + N.of_nat (List.length (c :: l)) =? 0)%N with false
    by (symmetry; apply N.eqb_neq; cbn [List.length]; lia).
  unfold Py.max_str_digits.
  destruct (Nat.leb_spec (List.length (c :: l)) 4300) as [Le | Gt].
  - replace (4300 <? 0 + N.of_nat (List.length (c :: l)))%N with false
      by (symmetry; apply N.ltb_ge; lia).
    reflexivity.
  - replace (4300 <? 0 + N.of_nat (List.length (c :: l)))%N with true
      by (symmetry; apply N.ltb_lt; lia).
    reflexivity.
Qed.

End Numerals.

(** ** The menu and the loop *)

Lemma menu_output_lines :
  menu_output
  = map Printed
      ["Choose an action:";
       "1. Domain Lookup";
       "2. IP Geolocation";
       "3. Public Records Search";
       "4. Reverse Image Search (TinEye)";
       "5. SAPS Wanted/Missing Persons";
       "6. International Wanted/Missing Persons";
       "7. Social Network Search by Email";
       "8. Social Network Search by IP";
       "9. Social Network Search by VIN";
       "10. Real Name Search Pattern";
       "11. Google Dorks";
       "12. Username Search";
       "13. Email Address Search";
       "14. Compromised Databases Search";
       "15. Phone Number Search";
       "16. Whois Lookup";
       "17. Reverse Whois Lookup";
       "18. Passive DNS Lookup";
       "19. Geolocation Tools";
       "20. Help";
       "21. Settings";
       "22. Exit"].
Proof. vm_compute. reflexivity. Qed.

Lemma for_each_print {A} (f : A -> string) (l : list A) : forall w,
  for_each l (fun x => print (f x)) w
  = (Ok tt, mkWorld (stdin w) (console w ++ map (fun x => Printed (f x)) l)
                    (logfile w) (http_trace w) (geo_trace w) (calls w)).
Proof.
  induction l as [| x l IH]; intros w.
  - cbn. rewrite app_nil_r. destruct w; reflexivity.
  - cbn [for_each map]. unfold bind at 1. unfold print at 1. rewrite IH.
    cbn. rewrite <- List.app_assoc. reflexivity.
Qed.

Lemma print_menu_run (w : World) :
  print_menu w
  = (Ok tt, mkWorld (stdin w) (console w ++ menu_output) (logfile w)
                    (http_trace w) (geo_trace w) (calls w)).
Proof.
  unfold print_menu, menu_output. unfold bind, print at 1.
  rewrite for_each_print. cbn [stdin console logfile http_trace geo_trace calls].
  rewrite <- List.app_assoc. reflexivity.
Qed.

Section Loop.

Variable env : Env.

Lemma normal_turn_continues w w' turns :
  start_iteration env w = (Ok tt, w') -> start env (S turns) w = start env turns w'.
Proof. intros H. cbn [start]. rewrite H. reflexivity. Qed.

Lemma raising_turn_ends w w' e turns :
  start_iteration env w = (Raise e, w') -> start env (S turns) w = Some (e, w').
Proof. intros H. cbn [start]. rewrite H. reflexivity. Qed.

Lemma hanging_turn_never_ends w w' turns :
  start_iteration env w = (Hang, w') -> start env turns w = None.
Proof. intros H. destruct turns; [reflexivity |]. cbn [start]. rewrite H. reflexivity. Qed.

(** A turn whose input parses as the number [n]. *)
Lemma start_iteration_number line rest w n :
  stdin w = line :: rest ->
  Py.int (Py.strip line) = Some n ->
  start_iteration env w
  = try_except (start_choice env n) is_ValueError
               (fun _ => print invalid_input_message) (asked rest w).
Proof.
  intros I P. destruct w as [inp con lg ht gt cs]. cbn in I. subst inp.
  unfold start_iteration. unfold bind at 1. rewrite print_menu_run.
  unfold try_except, bind, input, py_int, asked.
  cbn [stdin console logfile http_trace geo_trace calls].
  rewrite P. unfold ret. rewrite <- List.app_assoc. reflexivity.
Qed.

(** A turn whose input does not parse as a number. *)
Lemma start_iteration_not_a_number line rest w :
  stdin w = line :: rest ->
  Py.int (Py.strip line) = None ->
  start_iteration env w = (Ok tt, said invalid_input_message (asked rest w)).
Proof.
  intros I P. destruct w as [inp con lg ht gt cs]. cbn in I. subst inp.
  unfold start_iteration. unfold bind at 1. rewrite print_menu_run.
  unfold try_except, bind, input, py_int, asked, said.
  cbn [stdin console logfile http_trace geo_trace calls].
  rewrite P. unfold raise. cbn [exn_class is_ValueError]. unfold print.
  cbn [stdin console logfile http_trace geo_trace calls].
  repeat rewrite <- List.app_assoc. reflexivity.
Qed.

Lemma py_index_in_range {A} (l : list A) (i : Z) :
  (0 <= i < Z.of_nat (List.length l))%Z ->
  py_index l i = nth_error l (Z.to_nat i).
Proof.
  intros H. unfold py_index.
  replace ((0 <=? i) && (i <? Z.of_nat (List.length l)))%Z with true; [reflexivity |].
  symmetry. apply andb_true_iff. split; [apply Z.leb_le | apply Z.ltb_lt]; lia.
Qed.

Lemma small_choice (s : Z) :
  (1 <= s <= 22)%Z ->
  s = 1%Z \/ s = 2%Z \/ s = 3%Z \/ s = 4%Z \/ s = 5%Z \/ s = 6%Z \/ s = 7%Z
  \/ s = 8%Z \/ s = 9%Z \/ s = 10%Z \/ s = 11%Z \/ s = 12%Z \/ s = 13%Z
  \/ s = 14%Z \/ s = 15%Z \/ s = 16%Z \/ s = 17%Z \/ s = 18%Z \/ s = 19%Z
  \/ s = 20%Z \/ s = 21%Z \/ s = 22%Z.
Proof. lia. Qed.

(** The two tables agree: the list [run_menu_choice] indexes is the first
    nineteen procedures of the table [print_menu] shows, and the three
    entries left are the ones [start] branches on. *)
Lemma menu_tables_agree :
  map snd print_menu_options
  = (run_menu_choice_options ++ [A_print_help; A_print_settings; A_exit_program])%list.
Proof. reflexivity. Qed.

(** What [start] runs for a selection in range is the procedure shown at
    that position of the menu. *)
Lemma start_choice_in_range (s : Z) :
  (1 <= s <= 22)%Z ->
  exists label a,
    nth_error print_menu_options (Z.to_nat (s - 1)) = Some (label, a)
    /\ nth_error menu_output (Z.to_nat s)
       = Some (Printed (Py.str_nat (Z.to_nat s) ++ ". " ++ label))
    /\ start_choice env s = proc env a.
Proof.
  intros H. apply small_choice in H.
  repeat (destruct H as [-> | H];
          [eexists; eexists; split; [reflexivity | split; [vm_compute |]; reflexivity] |]).
  subst s. eexists; eexists; split; [reflexivity | split; [vm_compute |]; reflexivity].
Qed.

End Loop.

(** ** Which exceptions leave a computation *)

Section Raised.

Context {P : ExnClass -> bool}.

Lemma raises_weaken {A} (Q : ExnClass -> bool) (m : M A) :
  raises_only Q m -> (forall c, Q c = true -> P c = true) -> raises_only P m.
Proof. intros H I w e w' X. apply I. exact (H w e w' X). Qed.

Lemma raises_ret {A} (a : A) : raises_only P (ret a).
Proof. intros w e w' X. discriminate. Qed.

Lemma raises_raise {A} c msg : P c = true -> raises_only P (@raise A c msg).
Proof. intros H w e w' [= <- _]. exact H. Qed.

Lemma raises_print line : raises_only P (print line).
Proof. intros w e w' X. discriminate. Qed.

Lemma raises_enter a : raises_only P (enter a).
Proof. intros w e w' X. discriminate. Qed.

Lemma raises_geo_event ev : raises_only P (geo_event ev).
Proof. intros w e w' X. discriminate. Qed.

Lemma raises_logging env l msg : raises_only P (logging_log env l msg).
Proof.
  intros w e w'. unfold logging_log. destruct (_ <=? _)%Z; discriminate.
Qed.

Lemma raises_input prompt : P EOFError = true -> raises_only P (input prompt).
Proof.
  intros H w e w'. unfold input. destruct (stdin w); [| discriminate].
  intros [= <- _]. exact H.
Qed.

Lemma raises_bind {A B} (m : M A) (k : A -> M B) :
  raises_only P m -> (forall a, raises_only P (k a)) -> raises_only P (bind m k).
Proof.
  intros Hm Hk w e w'. unfold bind.
  destruct (m w) as [[a | e0 |] w0] eqn:X.
  - apply Hk.
  - intros [= <- <-]. exact (Hm w e0 w0 X).
  - discriminate.
Qed.

Lemma raises_try_except {A} (Q : ExnClass -> bool) (m : M A) catches handler :
  raises_only Q m ->
  (forall c, Q c = true -> catches c = false -> P c = true) ->
  (forall e, raises_only P (handler e)) ->
  raises_only P (try_except m catches handler).
Proof.
  intros Hm I Hh w e w'. unfold try_except.
  destruct (m w) as [[a | e0 |] w0] eqn:X; [discriminate | | discriminate].
  destruct (catches (exn_class e0)) eqn:C.
  - apply Hh.
  - intros [= <- <-]. apply I; [exact (Hm w e0 w0 X) | exact C].
Qed.

Lemma raises_finally {A} (m : M A) cleanup :
  raises_only P m -> raises_only P (finally m cleanup).
Proof.
  intros Hm w e w'. unfold finally.
  destruct (m w) as [[a | e0 |] w0] eqn:X; try discriminate.
  intros [= -> _]. exact (Hm w e w0 X).
Qed.

Lemma raises_for_each {A} (l : list A) (body : A -> M unit) :
  (forall x, raises_only P (body x)) -> raises_only P (for_each l body).
Proof.
  intros Hb. induction l as [| x l IH]; cbn.
  - apply raises_ret.
  - apply raises_bind; [apply Hb | intros _; exact IH].
Qed.

Lemma raises_if_response {A} response (yes : Response -> M A) no :
  (forall r, raises_only P (yes r)) -> raises_only P no ->
  raises_only P (if_response response yes no).
Proof.
  intros Hy Hn. unfold if_response.
  destruct response as [r |]; [destruct (response_ok r) |]; auto.
Qed.

Lemma raises_response_json env r :
  (forall k, P (decode_class k) = true) -> raises_only P (response_json env r).
Proof.
  intros H. unfold response_json.
  destruct (json_decode env _) as [[k msg] | v];
    [apply raises_raise, H | apply raises_ret].
Qed.

Lemma raises_parse_html env html :
  (forall k, P (parser_class k) = true) -> raises_only P (parse_html env html).
Proof.
  intros H. unfold parse_html.
  destruct (html_parser env html) as [[k msg] |];
    [apply raises_raise, H | apply raises_ret].
Qed.

Lemma raises_subscript data key :
  P KeyError = true -> P TypeError = true -> raises_only P (subscript data key).
Proof.
  intros HK HT. unfold subscript. destruct data; try now apply raises_raise.
  destruct (dict_get _ _); [apply raises_ret | now apply raises_raise].
Qed.

Lemma raises_iterate v : P TypeError = true -> raises_only P (iterate v).
Proof.
  intros HT. unfold iterate.
  destruct v; first [apply raises_ret | now apply raises_raise].
Qed.

Lemma raises_reader_city env ip :
  (forall k, P (geo_class k) = true) -> raises_only P (reader_city env ip).
Proof.
  intros H. unfold reader_city. apply raises_bind; [apply raises_geo_event | intros _].
  destruct (geo_city env ip) as [[k msg] | c];
    [apply raises_raise, H | apply raises_ret].
Qed.

Lemma raises_with_reader {A} env path (body : M A) :
  (forall k, P (geo_class k) = true) -> raises_only P body ->
  raises_only P (with_reader env path body).
Proof.
  intros H Hb. unfold with_reader.
  destruct (geo_open env path) as [[k msg] |]; [apply raises_raise, H |].
  apply raises_bind; [apply raises_geo_event | intros _].
  now apply raises_finally.
Qed.

End Raised.

(** The fetch wrapper lets out what [requests.get] raises other than a
    [RequestException], and nothing else. *)
Lemma raises_make_request {P} env url :
  P ValueError = true -> (forall name, P (OtherException name) = true) ->
  raises_only P (make_request env url).
Proof.
  intros PV PO. unfold make_request.
  apply raises_try_except
    with (Q := fun c => is_RequestException c
                        || match c with
                           | ValueError | OtherException _ => true
                           | _ => false
                           end).
  - apply raises_bind.
    + intros w e w'. unfold requests_get.
      destruct (http_get env _ url) as [[k msg |] | r]; try discriminate.
      intros [= <- _]. destruct k; reflexivity.
    + intros r. apply raises_bind; [| intros _; apply raises_ret].
      unfold raise_for_status.
      destruct (_ && _); [now apply raises_raise | apply raises_ret].
  - intros c Q C. rewrite C in Q. destruct c; try discriminate; auto.
  - intros e. apply raises_bind; [apply raises_logging | intros _].
    apply raises_bind; [apply raises_print | intros _; apply raises_ret].
Qed.

(** When the network answers, it lets nothing out. *)
Lemma raises_make_request_answered {P} env url :
  network_answers env -> raises_only P (make_request env url).
Proof.
  intros NA w e w' X. exfalso.
  specialize (NA (List.length (http_trace w)) url).
  destruct (http_get env (List.length (http_trace w)) url) as [[k msg |] | r] eqn:G.
  - rewrite (make_request_transport_error env url w k msg G NA) in X. discriminate.
  - destruct NA.
  - destruct (is_error_status r) eqn:E.
    + rewrite (make_request_error_status env url w r G E) in X. discriminate.
    + rewrite (make_request_success env url w r G E) in X. discriminate.
Qed.

(** When the parser reads every page, it raises nothing. *)
Lemma raises_parse_html_accepted {P} env html :
  parser_accepts env -> raises_only P (parse_html env html).
Proof.
  intros PA w e w'. unfold parse_html. rewrite (PA html). discriminate.
Qed.

Ltac raised :=
  repeat
    (cbv beta zeta;
     lazymatch goal with
     | |- raises_only _ (bind _ _) => apply raises_bind; [| intro]
     | |- raises_only _ (ret _) => apply raises_ret
     | |- raises_only _ (raise _ _) => apply raises_raise; reflexivity
     | |- raises_only _ (print _) => apply raises_print
     | |- raises_only _ (enter _) => apply raises_enter
     | |- raises_only _ (input _) => apply raises_input; reflexivity
     | |- raises_only _ (geo_event _) => apply raises_geo_event
     | |- raises_only _ (logging_error _ _) => apply raises_logging
     | |- raises_only _ (logging_info _ _) => apply raises_logging
     | |- raises_only _ (make_request _ _) =>
         first [ apply raises_make_request_answered; assumption
               | apply raises_make_request; [reflexivity | intro; reflexivity] ]
     | |- raises_only _ (response_json _ _) =>
         apply raises_response_json; intros []; reflexivity
     | |- raises_only _ (parse_html _ _) =>
         first [ apply raises_parse_html_accepted; assumption
               | apply raises_parse_html; intros []; reflexivity ]
     | |- raises_only _ (subscript _ _) => apply raises_subscript; reflexivity
     | |- raises_only _ (iterate _) => apply raises_iterate; reflexivity
     | |- raises_only _ (for_each _ _) => apply raises_for_each; intro
     | |- raises_only _ (if_response _ _ _) => apply raises_if_response; [intro |]
     end).

(** ** Which computations return or raise *)

Section Hanging.

Lemma never_hangs_ret {A} (a : A) : never_hangs (ret a).
Proof. intros w. discriminate. Qed.

Lemma never_hangs_raise {A} c msg : never_hangs (@raise A c msg).
Proof. intros w. discriminate. Qed.

Lemma never_hangs_print line : never_hangs (print line).
Proof. intros w. discriminate. Qed.

Lemma never_hangs_enter a : never_hangs (enter a).
Proof. intros w. discriminate. Qed.

Lemma never_hangs_geo_event ev : never_hangs (geo_event ev).
Proof. intros w. discriminate. Qed.

Lemma never_hangs_input prompt : never_hangs (input prompt).
Proof. intros w. unfold input. destruct (stdin w); discriminate. Qed.

Lemma never_hangs_logging env l msg : never_hangs (logging_log env l msg).
Proof. intros w. unfold logging_log. destruct (_ <=? _)%Z; discriminate. Qed.

Lemma never_hangs_bind {A B} (m : M A) (k : A -> M B) :
  never_hangs m -> (forall a, never_hangs (k a)) -> never_hangs (bind m k).
Proof.
  intros Hm Hk w. unfold bind. specialize (Hm w).
  destruct (m w) as [[a | e |] w']; cbn in *;
    [apply Hk | discriminate | now destruct Hm].
Qed.

Lemma never_hangs_try_except {A} (m : M A) catches handler :
  never_hangs m -> (forall e, never_hangs (handler e)) ->
  never_hangs (try_except m catches handler).
Proof.
  intros Hm Hh w. unfold try_except. specialize (Hm w).
  destruct (m w) as [[a | e |] w']; cbn in *; [discriminate | | now destruct Hm].
  destruct (catches (exn_class e)); [apply Hh | discriminate].
Qed.

Lemma never_hangs_finally {A} (m : M A) cleanup :
  never_hangs m -> never_hangs (finally m cleanup).
Proof.
  intros Hm w. unfold finally. specialize (Hm w).
  destruct (m w) as [[a | e |] w']; cbn in *;
    [discriminate | discriminate | now destruct Hm].
Qed.

Lemma never_hangs_for_each {A} (l : list A) (body : A -> M unit) :
  (forall x, never_hangs (body x)) -> never_hangs (for_each l body).
Proof.
  intros Hb. induction l as [| x l IH]; cbn.
  - apply never_hangs_ret.
  - apply never_hangs_bind; [apply Hb | intros _; exact IH].
Qed.

Lemma never_hangs_if_response {A} response (yes : Response -> M A) no :
  (forall r, never_hangs (yes r)) -> never_hangs no ->
  never_hangs (if_response response yes no).
Proof.
  intros Hy Hn. unfold if_response.
  destruct response as [r |]; [destruct (response_ok r) |]; auto.
Qed.

Lemma never_hangs_subscript data key : never_hangs (subscript data key).
Proof.
  unfold subscript. destruct data; try apply never_hangs_raise.
  destruct (dict_get _ _); [apply never_hangs_ret | apply never_hangs_raise].
Qed.

Lemma never_hangs_iterate v : never_hangs (iterate v).
Proof.
  unfold iterate. destruct v; first [apply never_hangs_ret | apply never_hangs_raise].
Qed.

Variable env : Env.

Lemma never_hangs_response_json r : never_hangs (response_json env r).
Proof.
  unfold response_json.
  destruct (json_decode env _) as [[k msg] | v];
    [apply never_hangs_raise | apply never_hangs_ret].
Qed.

Lemma never_hangs_parse_html html : never_hangs (parse_html env html).
Proof.
  unfold parse_html.
  destruct (html_parser env html) as [[k msg] |];
    [apply never_hangs_raise | apply never_hangs_ret].
Qed.

Lemma never_hangs_reader_city ip : never_hangs (reader_city env ip).
Proof.
  unfold reader_city. apply never_hangs_bind; [apply never_hangs_geo_event | intros _].
  destruct (geo_city env ip) as [[k msg] | c];
    [apply never_hangs_raise | apply never_hangs_ret].
Qed.

Lemma never_hangs_with_reader {A} path (body : M A) :
  never_hangs body -> never_hangs (with_reader env path body).
Proof.
  intros Hb. unfold with_reader.
  destruct (geo_open env path) as [[k msg] |]; [apply never_hangs_raise |].
  apply never_hangs_bind; [apply never_hangs_geo_event | intros _].
  now apply never_hangs_finally.
Qed.

Hypothesis returns : get_returns env.

(** The fetch wrapper hangs only if the GET does. *)
Lemma never_hangs_make_request url : never_hangs (make_request env url).
Proof.
  unfold make_request. apply never_hangs_try_except.
  - apply never_hangs_bind.
    + intros w. unfold requests_get. specialize (returns (List.length (http_trace w)) url).
      destruct (http_get env _ url) as [[k msg |] | r]; cbn; congruence.
    + intros r. apply never_hangs_bind; [| intros _; apply never_hangs_ret].
      unfold raise_for_status.
      destruct (_ && _); [apply never_hangs_raise | apply never_hangs_ret].
  - intros e. apply never_hangs_bind; [apply never_hangs_logging | intros _].
    apply never_hangs_bind; [apply never_hangs_print | intros _; apply never_hangs_ret].
Qed.

End Hanging.

Ltac returning :=
  repeat
    (cbv beta zeta;
     lazymatch goal with
     | |- never_hangs (bind _ _) => apply never_hangs_bind; [| intro]
     | |- never_hangs (ret _) => apply never_hangs_ret
     | |- never_hangs (raise _ _) => apply never_hangs_raise
     | |- never_hangs (print _) => apply never_hangs_print
     | |- never_hangs (enter _) => apply never_hangs_enter
     | |- never_hangs (input _) => apply never_hangs_input
     | |- never_hangs (geo_event _) => apply never_hangs_geo_event
     | |- never_hangs (logging_error _ _) => apply never_hangs_logging
     | |- never_hangs (logging_info _ _) => apply never_hangs_logging
     | |- never_hangs (make_request _ _) => apply never_hangs_make_request; assumption
     | |- never_hangs (response_json _ _) => apply never_hangs_response_json
     | |- never_hangs (parse_html _ _) => apply never_hangs_parse_html
     | |- never_hangs (subscript _ _) => apply never_hangs_subscript
     | |- never_hangs (iterate _) => apply never_hangs_iterate
     | |- never_hangs (reader_city _ _) => apply never_hangs_reader_city
     | |- never_hangs (with_reader _ _ _) => apply never_hangs_with_reader
     | |- never_hangs (try_except _ _ _) => apply never_hangs_try_except; [| intro]
     | |- never_hangs (for_each _ _) => apply never_hangs_for_each; intro
     | |- never_hangs (if_response _ _ _) => apply never_hangs_if_response; [intro |]
     end).

Section Leaving.

Variable env : Env.

(** IP geolocation lets nothing out but the end of input at its prompt. *)
Lemma run_ip_geolocation_may_leave :
  raises_only (may_leave A_ip_geolocation) (run_ip_geolocation env).
Proof.
  unfold run_ip_geolocation.
  apply raises_bind; [apply raises_enter | intros _].
  apply raises_bind; [apply raises_input; reflexivity | intros ip].
  apply raises_try_except with (Q := is_Exception).
  - apply raises_with_reader; [apply geo_class_is_Exception |].
    apply raises_bind; [apply raises_reader_city, geo_class_is_Exception | intros c].
    raised.
  - intros c Q C. congruence.
  - intros e. raised.
Qed.

(** The exceptions that can leave each procedure, as [may_leave] lists
    them. *)
Lemma proc_may_leave a : raises_only (may_leave a) (proc env a).
Proof.
  destruct a; cbn [proc];
    try exact run_ip_geolocation_may_leave;
    try solve [unfold_procedures; raised].
  unfold run_geolocation_tools.
  do 5 (apply raises_bind; [raised | intro]).
  destruct (String.eqb _ "1").
  - exact run_ip_geolocation_may_leave.
  - destruct (String.eqb _ "2"); raised.
Qed.

Lemma raises_print_menu {P} : raises_only P print_menu.
Proof. unfold print_menu. raised. Qed.

Lemma start_choice_may_leave s :
  raises_only (fun c => may_end_loop c || is_ValueError c) (start_choice env s).
Proof.
  unfold start_choice.
  destruct ((1 <=? s) && (s <=? 22))%Z eqn:R; [| apply raises_print].
  apply andb_true_iff in R. destruct R as [R1 R2].
  apply Z.leb_le in R1, R2.
  destruct (start_choice_in_range env s (conj R1 R2)) as (label & a & _ & _ & D).
  unfold start_choice in D.
  replace ((1 <=? s) && (s <=? 22))%Z with true in D
    by (symmetry; apply andb_true_iff; split; apply Z.leb_le; assumption).
  rewrite D. apply raises_weaken with (Q := may_leave a); [apply proc_may_leave |].
  intros c. destruct a, c; cbn; congruence.
Qed.

(** No [ValueError] ends the loop, whatever raised it, and no
    [RequestException] does: the loop is left by [SystemExit] (Exit), by
    [EOFError] (end of input at a prompt), by the [KeyError] or [TypeError]
    of the public-records procedure, or by what a library raises outside
    those two families. *)
Lemma start_iteration_may_end : raises_only may_end_loop (start_iteration env).
Proof.
  unfold start_iteration.
  apply raises_bind; [apply raises_print_menu | intros _].
  apply raises_try_except with (Q := fun c => may_end_loop c || is_ValueError c).
  - apply raises_bind; [apply raises_input; reflexivity | intros line].
    apply raises_bind; [| intros choice; apply start_choice_may_leave].
    unfold py_int. destruct (Py.int _); [apply raises_ret | now apply raises_raise].
  - intros c Q C. rewrite C, orb_false_r in Q. exact Q.
  - intros e. apply raises_print.
Qed.

(** What [start] runs for a number read is the printing of a message or
    one of the procedures. *)
Lemma start_choice_cases s :
  start_choice env s = print invalid_choice_message
  \/ exists a, start_choice env s = proc env a.
Proof.
  destruct ((1 <=? s) && (s <=? 22))%Z eqn:R.
  - right. apply andb_true_iff in R. destruct R as [R1 R2].
    apply Z.leb_le in R1, R2.
    destruct (start_choice_in_range env s (conj R1 R2)) as (label & a & _ & _ & D).
    now exists a.
  - left. unfold start_choice. rewrite R. reflexivity.
Qed.

Lemma start_choice_keeps_input s : preserves input_not_longer (start_choice env s).
Proof.
  destruct (start_choice_cases s) as [-> | [a ->]];
    [apply kept_print | apply proc_keeps_input].
Qed.

Lemma start_choice_extends_console s :
  preserves console_extends (start_choice env s).
Proof.
  destruct (start_choice_cases s) as [-> | [a ->]];
    [apply kept_print | apply proc_extends_console].
Qed.

Lemma proc_never_hangs a : get_returns env -> never_hangs (proc env a).
Proof.
  intros G. destruct a; cbn [proc]; unfold_procedures;
    try solve [returning].
  unfold run_geolocation_tools.
  do 5 (apply never_hangs_bind; [returning | intro]).
  destruct (String.eqb _ "1"); [unfold run_ip_geolocation; returning |].
  destruct (String.eqb _ "2"); returning.
Qed.

Lemma start_iteration_never_hangs :
  get_returns env -> never_hangs (start_iteration env).
Proof.
  intros G. unfold start_iteration.
  apply never_hangs_bind; [unfold print_menu; returning | intros _].
  apply never_hangs_try_except; [| intros e; apply never_hangs_print].
  apply never_hangs_bind; [apply never_hangs_input | intros line].
  apply never_hangs_bind.
  - unfold py_int. destruct (Py.int _); [apply never_hangs_ret | apply never_hangs_raise].
  - intros s. destruct (start_choice_cases s) as [-> | [a ->]];
      [apply never_hangs_print | now apply proc_never_hangs].
Qed.

(** A turn that ends normally has read at least one line. *)
Lemma turn_reads_a_line w w' :
  start_iteration env w = (Ok tt, w') ->
  (List.length (stdin w') < List.length (stdin w))%nat.
Proof.
  destruct (stdin w) as [| line rest] eqn:I.
  - unfold start_iteration. unfold bind at 1. rewrite print_menu_run.
    unfold try_except, bind, input. cbn [stdin]. rewrite I. cbn. discriminate.
  - destruct (Py.int (Py.strip line)) as [n |] eqn:P.
    + rewrite (start_iteration_number env line rest w n I P). intros X.
      assert (H : input_not_longer (asked rest w) w').
      { change w' with (snd (Ok tt, w')). rewrite <- X.
        apply preserves_try_except; [apply start_choice_keeps_input |].
        intros e. apply kept_print. }
      unfold input_not_longer in H. cbn in H. cbn. lia.
    + rewrite (start_iteration_not_a_number env line rest w I P).
      intros [= <-]. cbn. lia.
Qed.

(** When every GET returns or raises, the loop ends once the input is
    used up, if not before, by an exception of one of the classes that can
    end it. *)
Lemma start_ends : get_returns env -> forall turns w,
  (List.length (stdin w) < turns)%nat ->
  exists e w', start env turns w = Some (e, w')
               /\ may_end_loop (exn_class e) = true.
Proof.
  intros G. induction turns as [| turns IH]; intros w L; [lia |].
  cbn [start]. pose proof (start_iteration_never_hangs G w) as NH.
  destruct (start_iteration env w) as [[[] | e |] w'] eqn:T.
  - apply IH. apply turn_reads_a_line in T. lia.
  - exists e, w'. split; [reflexivity |].
    exact (start_iteration_may_end w e w' T).
  - exfalso. apply NH. reflexivity.
Qed.

End Leaving.

Section Turns.

Variable env : Env.

(** A turn on a selection in range runs the procedure of that menu entry
    inside the [try] of the loop. *)
Lemma turn_on_selection line rest w s :
  stdin w = line :: rest ->
  Py.int (Py.strip line) = Some s ->
  (1 <= s <= 22)%Z ->
  exists label a,
    nth_error print_menu_options (Z.to_nat (s - 1)) = Some (label, a)
    /\ start_iteration env w
       = match proc env a (asked rest w) with
         | (Ok _, w1) => (Ok tt, w1)
         | (Raise e, w1) =>
             if is_ValueError (exn_class e)
             then (Ok tt, said invalid_input_message w1)
             else (Raise e, w1)
         | (Hang, w1) => (Hang, w1)
         end.
Proof.
  intros I P R. destruct (start_choice_in_range env s R) as (label & a & T & _ & D).
  exists label, a. split; [exact T |].
  rewrite (start_iteration_number env line rest w s I P), D.
  unfold try_except. destruct (proc env a (asked rest w)) as [[[] | e |] w1];
    reflexivity.
Qed.

(** Every turn begins by showing the menu and the prompt. *)
Lemma start_iteration_prompts w :
  exists tail,
    console (snd (start_iteration env w))
    = (console w ++ menu_output ++ Prompted "Enter your choice (1-22): " :: tail)%list.
Proof.
  destruct (stdin w) as [| line rest] eqn:I.
  - exists []. unfold start_iteration. unfold bind at 1. rewrite print_menu_run.
    unfold try_except, bind, input. cbn [stdin]. rewrite I. cbn.
    rewrite <- List.app_assoc. reflexivity.
  - destruct (Py.int (Py.strip line)) as [n |] eqn:P.
    + rewrite (start_iteration_number env line rest w n I P).
      assert (K : preserves console_extends
                    (try_except (start_choice env n) is_ValueError
                                (fun _ => print invalid_input_message))).
      { apply preserves_try_except; [apply start_choice_extends_console |].
        intros e. apply kept_print. }
      destruct (K (asked rest w)) as [tail E].
      exists tail. rewrite E. cbn. repeat rewrite <- List.app_assoc. reflexivity.
    + rewrite (start_iteration_not_a_number env line rest w I P).
      exists [Printed invalid_input_message]. cbn.
      repeat rewrite <- List.app_assoc. reflexivity.
Qed.

(** After a turn that ends normally the loop runs the next one. *)
Lemma normal_turn_prompts_again w w' :
  start_iteration env w = (Ok tt, w') -> prompts_again env w w'.
Proof.
  intros H. split; [| apply start_iteration_prompts].
  intros turns. cbn [start]. rewrite H. reflexivity.
Qed.

(** C2. For every selection from 1 to 22, what the loop runs is the
    procedure bound to the label printed at that position of the menu:
    the procedure is entered exactly once (first, and not again by what
    it goes on to call), the whole effect of the dispatch is the effect
    of that one call, and the nineteen-entry list of [run_menu_choice]
    followed by the Help, Settings and Exit branches is, position by
    position, the table [print_menu] shows. Help and Settings are reached
    by the same numbered selection as the lookups. *)
Theorem dispatch_runs_menu_entry (s : Z) :
  (1 <= s <= 22)%Z ->
  exists label a nested,
    nth_error print_menu_options (Z.to_nat (s - 1)) = Some (label, a)
    /\ nth_error menu_output (Z.to_nat s)
       = Some (Printed (Py.str_nat (Z.to_nat s) ++ ". " ++ label))
    /\ start_choice env s = proc env a
    /\ (forall w, calls (snd (start_choice env s w)) = (calls w ++ a :: nested w)%list
                  /\ ~ In a (nested w))
    /\ map snd print_menu_options
       = (run_menu_choice_options
          ++ [A_print_help; A_print_settings; A_exit_program])%list
    /\ start_choice env 20 = proc env A_print_help
    /\ start_choice env 21 = proc env A_print_settings.
Proof.
  intros R. destruct (start_choice_in_range env s R) as (label & a & T & L & D).
  destruct (proc_enters env a) as (nested & E & N).
  exists label, a, nested.
  split; [exact T | split; [exact L | split; [exact D | split; [| split; [| split]]]]].
  - intros w. rewrite D. split; [apply E | apply N].
  - reflexivity.
  - reflexivity.
  - reflexivity.
Qed.

(** C7, as amended. A menu input that [int] reads as a number outside
    1..22 makes the turn print the invalid-choice message; an input that
    [int] does not read as a number makes it print the invalid-input
    message. A numeral (the digits 0 to 9 and nothing else) is read as the
    number it writes when it has at most 4300 digits, and is not read as a
    number when it has more. Either way no action procedure is entered,
    nothing is logged, fetched or looked up, and the loop goes on to its
    next turn, which shows the menu and prompts again. *)
Theorem invalid_menu_input (line : string) (rest : list string) (w : World) :
  stdin w = line :: rest ->
  (forall n, Py.int (Py.strip line) = Some n -> ~ (1 <= n <= 22)%Z ->
             start_iteration env w = (Ok tt, said invalid_choice_message (asked rest w))
             /\ prompts_again env w (said invalid_choice_message (asked rest w)))
  /\ (Py.int (Py.strip line) = None ->
      start_iteration env w = (Ok tt, said invalid_input_message (asked rest w))
      /\ prompts_again env w (said invalid_input_message (asked rest w)))
  /\ (is_numeral line = true ->
      Py.int (Py.strip line)
      = if (String.length line <=? 4300)%nat then Some (numeral_value line) else None)
  /\ (forall message,
        calls (said message (asked rest w)) = calls w
        /\ logfile (said message (asked rest w)) = logfile w
        /\ http_trace (said message (asked rest w)) = http_trace w
        /\ geo_trace (said message (asked rest w)) = geo_trace w
        /\ console (said message (asked rest w))
           = (console w ++ menu_output
              ++ [Prompted "Enter your choice (1-22): "; Printed message])%list).
Proof.
  intros I. split; [| split; [| split]].
  - intros n P O.
    assert (T : start_iteration env w
                = (Ok tt, said invalid_choice_message (asked rest w))).
    { rewrite (start_iteration_number env line rest w n I P).
      unfold try_except, start_choice.
      replace ((1 <=? n) && (n <=? 22))%Z with false; [reflexivity |].
      symmetry. apply andb_false_iff.
      destruct (Z.leb_spec 1 n); [right; apply Z.leb_gt; lia | left; reflexivity]. }
    split; [exact T | now apply normal_turn_prompts_again].
  - intros P.
    pose proof (start_iteration_not_a_number env line rest w I P) as T.
    split; [exact T | now apply normal_turn_prompts_again].
  - apply int_numeral.
  - intros message. repeat split. cbn.
    repeat rewrite <- List.app_assoc. reflexivity.
Qed.

(** C9. When the procedure run for a selection raises a [ValueError] (as
    the body decoder does, with its subclass), the handler the loop keeps
    for a non-numeric choice catches it: the turn prints "Invalid input.
    Please enter a number.", ends normally, and the loop goes on to its
    next turn, which shows the menu and prompts again. *)
Theorem action_value_error_reported_as_invalid_input
        (line : string) (rest : list string) (w : World) (n : Z) (a : Action)
        (e : Exn) (w1 : World) :
  stdin w = line :: rest ->
  Py.int (Py.strip line) = Some n ->
  (1 <= n <= 19)%Z ->
  nth_error run_menu_choice_options (Z.to_nat (n - 1)) = Some a ->
  proc env a (asked rest w) = (Raise e, w1) ->
  is_ValueError (exn_class e) = true ->
  start_iteration env w = (Ok tt, said "Invalid input. Please enter a number." w1)
  /\ prompts_again env w (said "Invalid input. Please enter a number." w1).
Proof.
  intros I P R T X V.
  assert (S : start_iteration env w
              = (Ok tt, said "Invalid input. Please enter a number." w1)).
  { destruct (turn_on_selection line rest w n I P ltac:(lia))
      as (label & a' & T' & S).
    assert (a' = a) as ->.
    { assert (T2 : nth_error (map snd print_menu_options) (Z.to_nat (n - 1))
                   = Some a') by (rewrite nth_error_map, T'; reflexivity).
      rewrite menu_tables_agree, nth_error_app1 in T2
        by (cbn; lia).
      congruence. }
    rewrite S, X, V. reflexivity. }
  split; [exact S | now apply normal_turn_prompts_again].
Qed.

End Turns.

Lemma dispatch_runs_menu_entry_witness :
  exists label a nested,
    nth_error print_menu_options (Z.to_nat (12 - 1)) = Some (label, a)
    /\ nth_error menu_output (Z.to_nat 12)
       = Some (Printed (Py.str_nat (Z.to_nat 12) ++ ". " ++ label))
    /\ start_choice offline_env 12 = proc offline_env a
    /\ (forall w, calls (snd (start_choice offline_env 12 w))
                  = (calls w ++ a :: nested w)%list
                  /\ ~ In a (nested w))
    /\ map snd print_menu_options
       = (run_menu_choice_options
          ++ [A_print_help; A_print_settings; A_exit_program])%list
    /\ start_choice offline_env 20 = proc offline_env A_print_help
    /\ start_choice offline_env 21 = proc offline_env A_print_settings.
Proof. apply (dispatch_runs_menu_entry offline_env 12). lia. Defined.

Lemma invalid_menu_input_witness :
  start_iteration offline_env (session ["23"])
  = (Ok tt, said invalid_choice_message (asked [] (session ["23"])))
  /\ start_iteration offline_env (session ["abc"])
     = (Ok tt, said invalid_input_message (asked [] (session ["abc"]))).
Proof.
  split.
  - apply (proj1 (invalid_menu_input offline_env "23" [] (session ["23"]) eq_refl) 23%Z).
    + vm_compute. reflexivity.
    + lia.
  - apply (proj1 (proj2 (invalid_menu_input offline_env "abc" [] (session ["abc"])
                           eq_refl))).
    vm_compute. reflexivity.
Defined.

(** A numeral of 4301 digits is numeric and outside 1..22, yet [int]
    raises [ValueError] on it: the turn prints the invalid-input message,
    not the invalid-choice one. *)
Lemma long_numeral_reported_as_invalid_input :
  is_numeral long_numeral = true
  /\ String.length long_numeral = 4301%nat
  /\ (22 < numeral_value long_numeral)%Z
  /\ start_iteration offline_env (session [long_numeral])
     = (Ok tt, said invalid_input_message (asked [] (session [long_numeral])))
  /\ start_iteration offline_env (session [long_numeral])
     <> (Ok tt, said invalid_choice_message (asked [] (session [long_numeral]))).
Proof.
  assert (T : start_iteration offline_env (session [long_numeral])
              = (Ok tt, said invalid_input_message (asked [] (session [long_numeral]))))
    by (vm_compute; reflexivity).
  split; [vm_compute; reflexivity |].
  split; [vm_compute; reflexivity |].
  split; [vm_compute; reflexivity |].
  split; [exact T |].
  rewrite T. intros H.
  apply (f_equal (fun r => last (console (snd r)) (Prompted EmptyString))) in H.
  cbn [snd said console] in H. rewrite !last_last in H. discriminate H.
Qed.

(** An invalid choice, then the end of input: the menu and the prompt are
    shown a second time before the loop ends. *)
Example invalid_choice_then_prompt_again :
  start offline_env 2 (session ["23"])
  = Some (mkExn EOFError "EOF when reading a line",
          mkWorld []
                  (menu_output
                   ++ [Prompted "Enter your choice (1-22): ";
                       Printed "Invalid choice. Please enter a number between 1 and 22."]
                   ++ menu_output
                   ++ [Prompted "Enter your choice (1-22): "])
                  [] [] [] []).
Proof. vm_compute. reflexivity. Qed.

(** ** Public records *)

Section PublicRecords.

Variable env : Env.
Variables (name : string) (rest : list string) (w : World) (r : Response).
Hypothesis typed : stdin w = name :: rest.
Hypothesis fetched :
  http_get env (List.length (http_trace w)) (public_records_url name) = inr r.
Hypothesis good_status : is_error_status r = false.

Lemma run_public_records_fetched :
  run_public_records env w
  = (data <- response_json env r ;;
     print ("Public Records for " ++ name ++ ":") ;;
     records <- subscript data "records" ;;
     items <- iterate records ;;
     for_each items (fun record => print (str record)))
      (records_fetched name rest w).
Proof.
  unfold run_public_records. unfold bind at 1. unfold enter.
  unfold bind at 1. unfold input. cbn [stdin]. rewrite typed.
  unfold bind at 1. fold (public_records_url name).
  rewrite (make_request_success env (public_records_url name) _ r);
    [| exact fetched | exact good_status].
  unfold if_response, response_ok.
  unfold is_error_status in good_status. rewrite good_status.
  reflexivity.
Qed.

(** A body that does not decode: the decoder's error leaves the
    procedure. *)
Lemma run_public_records_undecodable k msg :
  json_decode env (text r) = inl (k, msg) ->
  run_public_records env w
  = (Raise (mkExn (decode_class k) msg), records_fetched name rest w).
Proof.
  intros D. rewrite run_public_records_fetched.
  unfold bind, response_json. rewrite D. reflexivity.
Qed.

(** A body that decodes to an object without the key: the [KeyError]
    leaves the procedure, after the heading has been printed. *)
Lemma run_public_records_missing_key members :
  json_decode env (text r) = inr (JObj members) ->
  dict_get members "records" = None ->
  run_public_records env w
  = (Raise (mkExn KeyError "'records'"),
     said ("Public Records for " ++ name ++ ":") (records_fetched name rest w)).
Proof.
  intros D K. rewrite run_public_records_fetched.
  unfold bind, response_json. rewrite D. unfold ret, print, subscript.
  rewrite K. reflexivity.
Qed.

End PublicRecords.

Lemma action_value_error_reported_as_invalid_input_witness :
  start_iteration undecodable_env (session ["3"; "Jan"])
  = (Ok tt,
     said "Invalid input. Please enter a number."
          (records_fetched "Jan" [] (asked ["Jan"] (session ["3"; "Jan"])))).
Proof.
  apply (proj1 (action_value_error_reported_as_invalid_input
                  undecodable_env "3" ["Jan"] (session ["3"; "Jan"]) 3
                  A_public_records
                  (mkExn JSONDecodeError "Expecting value: line 1 column 1 (char 0)")
                  (records_fetched "Jan" [] (asked ["Jan"] (session ["3"; "Jan"])))
                  eq_refl eq_refl ltac:(lia) eq_refl
                  (run_public_records_undecodable
                     undecodable_env "Jan" [] (asked ["Jan"] (session ["3"; "Jan"]))
                     (mkResponse 200 "<html>maintenance</html>")
                     eq_refl eq_refl eq_refl DJSONDecodeError _ eq_refl)
                  eq_refl)).
Defined.

(** The console of that turn: the menu, the two prompts, and the message
    meant for a choice that is not a number. Nothing is logged. *)
Example undecodable_body_turn :
  start_iteration undecodable_env (session ["3"; "Jan"])
  = (Ok tt,
     mkWorld []
             (menu_output
              ++ [Prompted "Enter your choice (1-22): ";
                  Prompted "Enter the name to search public records: ";
                  Printed "Invalid input. Please enter a number."])
             []
             ["https://www.sa-publicrecords-example.com/search?name=Jan"]
             []
             [A_public_records]).
Proof. vm_compute. reflexivity. Qed.

(** ** Failures that leave the loop *)

(** C1, at the input on which the code departs from it. Selection 3 with a
    200 answer whose JSON object has no 'records' key: the [KeyError] is
    caught nowhere, it leaves the turn and ends the loop, and nothing was
    logged or reported to the user. *)
Theorem missing_records_key_escapes_the_turn :
  start_iteration keyless_env (session ["3"; "Jan"])
  = (Raise (mkExn KeyError "'records'"),
     mkWorld []
             (menu_output
              ++ [Prompted "Enter your choice (1-22): ";
                  Prompted "Enter the name to search public records: ";
                  Printed "Public Records for Jan:"])
             []
             ["https://www.sa-publicrecords-example.com/search?name=Jan"]
             []
             [A_public_records])
  /\ logfile (snd (start_iteration keyless_env (session ["3"; "Jan"]))) = []
  /\ is_ValueError KeyError = false.
Proof. vm_compute. repeat split; reflexivity. Qed.

(** C6, at the input on which the code departs from it. With the same
    answer from the server, the loop stops on the [KeyError] of a valid,
    non-exit selection: Exit was never entered, no farewell was printed,
    and the line typed next is never read. *)
Theorem loop_ends_without_exit :
  start keyless_env 3 (session ["3"; "Jan"; "22"])
  = Some (mkExn KeyError "'records'",
          mkWorld ["22"]
                  (menu_output
                   ++ [Prompted "Enter your choice (1-22): ";
                       Prompted "Enter the name to search public records: ";
                       Printed "Public Records for Jan:"])
                  []
                  ["https://www.sa-publicrecords-example.com/search?name=Jan"]
                  []
                  [A_public_records])
  /\ ~ In A_exit_program [A_public_records]
  /\ ~ In (Printed "Exiting...")
          (menu_output
           ++ [Prompted "Enter your choice (1-22): ";
               Prompted "Enter the name to search public records: ";
               Printed "Public Records for Jan:"]).
Proof.
  split; [vm_compute; reflexivity | split].
  - intros [H | []]. discriminate.
  - rewrite menu_output_lines. cbn.
    intros H. repeat (destruct H as [H | H]; [discriminate |]). exact H.
Qed.

Section Ending.

Variable env : Env.

(** X11. Exit: on any line that [int] reads as the number 22, the turn
    prints the menu and the farewell, then the [SystemExit] of [exit()],
    which carries no exit code, ends the loop at once: nothing is logged,
    fetched or looked up, and the input typed after it stays unread. *)
Lemma exit_selection_ends_the_loop line rest w turns :
  stdin w = line :: rest ->
  Py.int (Py.strip line) = Some 22%Z ->
  start env (S turns) w
  = Some (mkExn SystemExit "None",
          mkWorld rest
                  (console w ++ menu_output
                   ++ [Prompted "Enter your choice (1-22): "; Printed "Exiting..."])
                  (logfile w) (http_trace w) (geo_trace w)
                  (calls w ++ [A_exit_program])).
Proof.
  intros I P. apply raising_turn_ends.
  rewrite (start_iteration_number env line rest w 22 I P).
  destruct w as [inp con lg ht gt cs]. cbn.
  repeat rewrite <- List.app_assoc. reflexivity.
Qed.

(** After a selection whose procedure returns, the loop prompts again. *)
Lemma returning_selection_prompts_again line rest w s label a w1 :
  stdin w = line :: rest ->
  Py.int (Py.strip line) = Some s ->
  (1 <= s <= 22)%Z ->
  nth_error print_menu_options (Z.to_nat (s - 1)) = Some (label, a) ->
  proc env a (asked rest w) = (Ok tt, w1) ->
  prompts_again env w w1.
Proof.
  intros I P R T X. apply normal_turn_prompts_again.
  destruct (turn_on_selection env line rest w s I P R) as (label' & a' & T' & S).
  rewrite T in T'. injection T' as <- <-. rewrite S, X. reflexivity.
Qed.

(** An exception of a procedure that is not a [ValueError] ends the loop. *)
Lemma raising_selection_ends_the_loop line rest w s label a e w1 turns :
  stdin w = line :: rest ->
  Py.int (Py.strip line) = Some s ->
  (1 <= s <= 22)%Z ->
  nth_error print_menu_options (Z.to_nat (s - 1)) = Some (label, a) ->
  proc env a (asked rest w) = (Raise e, w1) ->
  is_ValueError (exn_class e) = false ->
  start env (S turns) w = Some (e, w1).
Proof.
  intros I P R T X V. apply raising_turn_ends.
  destruct (turn_on_selection env line rest w s I P R) as (label' & a' & T' & S).
  rewrite T in T'. injection T' as <- <-. rewrite S, X, V. reflexivity.
Qed.

(** *** The module runner, which does contain failures *)

(** [run_module] catches whatever [Exception] the module raises, logs it
    with the module name and arguments, and reports it. *)
Lemma run_module_failure modules module_name module_run args w e w1 :
  modules_get modules module_name = Some module_run ->
  module_run args w = (Raise e, w1) ->
  is_Exception (exn_class e) = true ->
  run_module env modules module_name args w
  = (Ok tt,
     mkWorld (stdin w1)
             (console w1 ++ [Printed ("An error occurred: " ++ exn_msg e)])
             (logfile w1 ++ [mkLog (asctime env (List.length (logfile w1))) ERROR
                                   (module_error module_name args e)])
             (http_trace w1) (geo_trace w1) (calls w1)).
Proof.
  intros F X E. unfold run_module. rewrite F.
  unfold try_except, bind. rewrite X, E.
  unfold logging_error, logging_log, print, module_error. cbn. reflexivity.
Qed.

Lemma run_module_lets_no_Exception_out modules module_name args w e w1 :
  run_module env modules module_name args w = (Raise e, w1) ->
  is_Exception (exn_class e) = false.
Proof.
  unfold run_module.
  destruct (modules_get modules module_name) as [module_run |]; [| discriminate].
  unfold try_except, bind.
  destruct (module_run args w) as [[[] | e0 |] w0].
  - unfold logging_info, logging_log. cbn. discriminate.
  - destruct (is_Exception (exn_class e0)) eqn:E.
    + unfold logging_error, logging_log, print. cbn. discriminate.
    + intros [= <- <-]. exact E.
  - discriminate.
Qed.

End Ending.


(** * Further properties *)

(** ** Fetching actions *)

Lemma make_request_failed env url w msg :
  fetch_failure env w url = Some msg ->
  make_request env url w = (Ok None, failed_fetch env url msg w).
Proof.
  unfold fetch_failure. intros F.
  destruct (http_get env (List.length (http_trace w)) url) as [[k m |] | r] eqn:G.
  - destruct (is_RequestException (requests_class k)) eqn:C; [| discriminate].
    injection F as <-. now apply make_request_transport_error with (k := k).
  - discriminate.
  - destruct (is_error_status r) eqn:E; [| discriminate].
    injection F as <-. now apply make_request_error_status.
Qed.

Section Fetching.

Variable env : Env.
Variables (a : Action) (prompt : string) (url failure : string -> string).
Variable yes : string -> Response -> M unit.
Variables (typed : string) (rest : list string) (w : World).
Hypothesis answered : stdin w = typed :: rest.

Lemma fetching_asks :
  fetching env a prompt url failure yes w
  = (response <- make_request env (url typed) ;;
     if_response response (yes typed) (print (failure typed))) (before_get a prompt rest w).
Proof.
  unfold fetching. unfold bind at 1. unfold enter.
  unfold bind at 1. unfold input. cbn [stdin]. rewrite answered. reflexivity.
Qed.

Lemma fetching_failed msg :
  fetch_failure env w (url typed) = Some msg ->
  fetching env a prompt url failure yes w
  = (Ok tt, fetch_reported_failed env a prompt (url typed) (failure typed) msg rest w).
Proof.
  intros F. rewrite fetching_asks. unfold bind.
  rewrite (make_request_failed env (url typed) (before_get a prompt rest w) msg F).
  unfold if_response, print, failed_fetch, fetch_reported_failed, before_get. cbn.
  repeat rewrite <- List.app_assoc. reflexivity.
Qed.

Lemma fetching_fetched r :
  http_get env (List.length (http_trace w)) (url typed) = inr r ->
  is_error_status r = false ->
  fetching env a prompt url failure yes w
  = yes typed r (quiet_fetch (url typed) (before_get a prompt rest w)).
Proof.
  intros G E. rewrite fetching_asks. unfold bind.
  rewrite (make_request_success env (url typed) (before_get a prompt rest w) r G E).
  unfold if_response, response_ok. unfold is_error_status in E. rewrite E.
  reflexivity.
Qed.

End Fetching.

Lemma listing_run env heading tag cls r w :
  html_parser env (text r) = None ->
  listing env heading tag cls r w
  = (Ok tt, mkWorld (stdin w)
                    (console w ++ Printed heading
                                  :: map Printed (find_all env (text r) tag cls))
                    (logfile w) (http_trace w) (geo_trace w) (calls w)).
Proof.
  intros H. unfold listing, parse_html. rewrite H.
  unfold bind, ret, print at 1.
  rewrite (for_each_print (fun x => x)). cbn.
  rewrite <- List.app_assoc. reflexivity.
Qed.

(** A page the parser rejects: its exception leaves the listing before
    anything is printed. *)
Lemma listing_rejected env heading tag cls r w k msg :
  html_parser env (text r) = Some (k, msg) ->
  listing env heading tag cls r w = (Raise (mkExn (parser_class k) msg), w).
Proof. intros H. unfold listing, parse_html. rewrite H. reflexivity. Qed.

(** Read a procedure as an instance of the fetching shape. *)
Ltac as_fetching env a :=
  let S := fresh "S" in
  eassert (S : proc env a = fetching env a _ _ _ _)
    by (cbn [proc]; unfold_procedures; unfold fetching; reflexivity);
  rewrite S; clear S.

(** X1. Each of the seven fetching actions (domain lookup, public records,
    reverse image search, the two wanted/missing searches, social network
    search, Google dorks), when its one GET fails by a transport error (an
    exception deriving from [RequestException]) or a 4xx/5xx answer,
    returns normally: the wrapper's "Request failed" line and the action's
    own failure line naming the input are printed, one ERROR record is
    logged, and the URL requested is the fixed prefix with the input
    appended as typed. *)
Theorem fetching_action_failed (env : Env) (a : Action) (prompt url line : string)
        (typed : string) (rest : list string) (w : World) (msg : string) :
  fetch_texts a typed = Some (prompt, url, line) ->
  stdin w = typed :: rest ->
  fetch_failure env w url = Some msg ->
  proc env a w = (Ok tt, fetch_reported_failed env a prompt url line msg rest w).
Proof.
  intros T I F.
  destruct a; cbn in T; try discriminate; injection T as <- <- <-;
    match goal with
    | |- proc env ?a w = _ => as_fetching env a
    end;
    rewrite (fetching_failed env _ _ _ _ _ typed rest w I msg F); reflexivity.
Qed.

(** X2. Each of the six scraping actions, when its GET succeeds, hands the
    page to the parser. If the parser reads it, the action prints its
    heading for the input and then the text of every element of the page
    that matches its fixed tag and class, in document order, one line each
    (none when nothing matches); it has issued that one GET, logs nothing
    and returns normally. If the parser raises, its exception leaves the
    action: nothing is printed after the prompt and nothing is logged. *)
Theorem scraping_action_lists (env : Env) (a : Action)
        (prompt url line heading tag cls : string)
        (typed : string) (rest : list string) (w : World) (r : Response) :
  fetch_texts a typed = Some (prompt, url, line) ->
  scrape_texts a typed = Some (heading, tag, cls) ->
  stdin w = typed :: rest ->
  http_get env (List.length (http_trace w)) url = inr r ->
  is_error_status r = false ->
  (html_parser env (text r) = None ->
   proc env a w
   = (Ok tt, scraped a prompt url heading (find_all env (text r) tag cls) rest w))
  /\ (forall k msg,
        html_parser env (text r) = Some (k, msg) ->
        proc env a w
        = (Raise (mkExn (parser_class k) msg),
           quiet_fetch url (before_get a prompt rest w))).
Proof.
  intros T S I G E. split.
  - intros H.
    destruct a; cbn in T, S; try discriminate;
      injection T as <- <- <-; injection S as <- <- <-;
      match goal with
      | |- proc env ?a w = _ => as_fetching env a
      end;
      rewrite (fetching_fetched env _ _ _ _ _ typed rest w I r G E);
      cbv beta zeta;
      (etransitivity; [exact (listing_run env _ _ _ r _ H) |]);
      unfold scraped, quiet_fetch, before_get; cbn;
      repeat rewrite <- List.app_assoc; reflexivity.
  - intros k msg H.
    destruct a; cbn in T, S; try discriminate;
      injection T as <- <- <-; injection S as <- <- <-;
      match goal with
      | |- proc env ?a w = _ => as_fetching env a
      end;
      rewrite (fetching_fetched env _ _ _ _ _ typed rest w I r G E);
      cbv beta zeta;
      exact (listing_rejected env _ _ _ r _ k msg H).
Qed.

Lemma fetching_action_failed_witness :
  proc offline_env A_domain_lookup (session ["example.co.za"])
  = (Ok tt,
     mkWorld []
       [Prompted "Enter the domain to lookup: ";
        Printed "Request failed: connection refused";
        Printed "Failed to retrieve data for example.co.za"]
       [mkLog "t0" ERROR "Request failed: connection refused"]
       ["https://www.za-example.com/domain-lookup/example.co.za"]
       [] [A_domain_lookup]).
Proof.
  exact (fetching_action_failed offline_env A_domain_lookup _ _ _ "example.co.za" []
           (session ["example.co.za"]) "connection refused" eq_refl eq_refl eq_refl).
Defined.

Lemma scraping_action_lists_witness :
  proc two_results_env (A_social_network_search "email") (session ["a@b.c"])
  = (Ok tt,
     mkWorld []
       [Prompted "Enter the email for social network search: ";
        Printed "Social Network Search Results for email a@b.c:";
        Printed "A"; Printed "B"]
       []
       ["https://www.socialnetworksearch-example.com/search?email=a@b.c"]
       [] [A_social_network_search "email"]).
Proof.
  exact (proj1 (scraping_action_lists two_results_env (A_social_network_search "email")
                  _ _ _ _ _ _ "a@b.c" [] (session ["a@b.c"]) _
                  eq_refl eq_refl eq_refl eq_refl eq_refl) eq_refl).
Defined.

(** ** Public records, when the body decodes *)

Lemma iterate_iterable v items w :
  iterable v = Some items -> iterate v w = (Ok items, w).
Proof. destruct v; cbn; intros [= <-]; reflexivity. Qed.

Lemma iterate_not_iterable v w :
  iterable v = None ->
  exists msg, iterate v w = (Raise (mkExn TypeError msg), w).
Proof. destruct v; cbn; intros E; try discriminate; eexists; reflexivity. Qed.

(** X3. Public records, on a 2xx answer whose body decodes to an object
    with a 'records' entry that can be iterated, prints the heading and
    then one line per record, in order: the items of a list, the keys of
    an object, or the characters of a text one by one. *)
Theorem public_records_listed (env : Env) (name : string) (rest : list string)
        (w : World) (r : Response) (members : list (string * JSON))
        (records : JSON) (items : list JSON) :
  stdin w = name :: rest ->
  http_get env (List.length (http_trace w)) (public_records_url name) = inr r ->
  is_error_status r = false ->
  json_decode env (text r) = inr (JObj members) ->
  dict_get members "records" = Some records ->
  iterable records = Some items ->
  run_public_records env w
  = (Ok tt,
     mkWorld rest
             (console w ++ [Prompted "Enter the name to search public records: ";
                            Printed ("Public Records for " ++ name ++ ":")]
                        ++ map (fun v => Printed (str v)) items)
             (logfile w)
             (http_trace w ++ [public_records_url name])
             (geo_trace w)
             (calls w ++ [A_public_records])).
Proof.
  intros I G E D K It.
  rewrite (run_public_records_fetched env name rest w r I G E).
  unfold bind at 1. unfold response_json. rewrite D. unfold ret at 1.
  unfold bind at 1. unfold print at 1.
  unfold bind at 1. unfold subscript. rewrite K. unfold ret at 1.
  unfold bind at 1. rewrite (iterate_iterable records items _ It).
  rewrite for_each_print. unfold records_fetched. cbn.
  repeat rewrite <- List.app_assoc. reflexivity.
Qed.

(** X4. Public records, on a 2xx answer whose body decodes to something
    other than an object, or to an object whose 'records' is a number, a
    boolean or null, raises [TypeError] out of the procedure after the
    heading has been printed; nothing is logged. *)
Theorem public_records_type_error (env : Env) (name : string) (rest : list string)
        (w : World) (r : Response) (data : JSON) :
  stdin w = name :: rest ->
  http_get env (List.length (http_trace w)) (public_records_url name) = inr r ->
  is_error_status r = false ->
  json_decode env (text r) = inr data ->
  records_unreadable data = true ->
  exists msg,
    run_public_records env w
    = (Raise (mkExn TypeError msg),
       said ("Public Records for " ++ name ++ ":") (records_fetched name rest w)).
Proof.
  intros I G E D U.
  rewrite (run_public_records_fetched env name rest w r I G E).
  unfold bind at 1. unfold response_json. rewrite D. unfold ret at 1.
  unfold bind at 1. unfold print at 1.
  fold (said ("Public Records for " ++ name ++ ":") (records_fetched name rest w)).
  unfold bind at 1.
  destruct data; cbn in U; try discriminate;
    try (eexists; unfold subscript, raise; reflexivity).
  unfold subscript.
  destruct (dict_get members "records") as [v |]; [| discriminate].
  unfold ret at 1. unfold bind at 1.
  destruct (iterable v) eqn:It; [discriminate |].
  destruct (iterate_not_iterable v
              (said ("Public Records for " ++ name ++ ":")
                    (records_fetched name rest w)) It) as (msg & R).
  exists msg. rewrite R. reflexivity.
Qed.

Lemma public_records_listed_witness :
  run_public_records records_env (session ["Jan"])
  = (Ok tt,
     mkWorld []
       [Prompted "Enter the name to search public records: ";
        Printed "Public Records for Jan:";
        Printed "Jan Smuts"; Printed "1870"]
       []
       ["https://www.sa-publicrecords-example.com/search?name=Jan"]
       [] [A_public_records]).
Proof.
  exact (public_records_listed records_env "Jan" [] (session ["Jan"])
           (mkResponse 200 "{}")
           [("records", JArr [JStr "Jan Smuts"; JNum "1870"])]
           (JArr [JStr "Jan Smuts"; JNum "1870"]) [JStr "Jan Smuts"; JNum "1870"]
           eq_refl eq_refl eq_refl eq_refl eq_refl eq_refl).
Defined.

Lemma public_records_type_error_witness :
  exists msg,
    run_public_records array_env (session ["Jan"])
    = (Raise (mkExn TypeError msg),
       said "Public Records for Jan:" (records_fetched "Jan" [] (session ["Jan"]))).
Proof.
  exact (public_records_type_error array_env "Jan" [] (session ["Jan"])
           (mkResponse 200 "[]")
           (JArr []) eq_refl eq_refl eq_refl eq_refl eq_refl).
Defined.

(** ** Geolocation Tools, on its two choices *)

Lemma run_ip_geolocation_run env ip rest w :
  stdin w = ip :: rest ->
  run_ip_geolocation env w = (Ok tt, geolocation_outcome env ip rest w).
Proof.
  intros I. destruct w as [inp con lg ht gt cs]. cbn in I. subst inp.
  unfold geolocation_outcome, run_ip_geolocation, with_reader, reader_city, geo_db.
  destruct (geo_open env "GeoLite2-City.mmdb") as [[k msg] |] eqn:O.
  - destruct k; run_effects;
      unfold after_geo_failure, geo_failure; cbn; flatten_lists;
      rewrite app_nil_r; reflexivity.
  - destruct (geo_city env ip) as [[k msg] | c] eqn:C.
    + destruct k; run_effects; rewrite C; cbn;
        unfold after_geo_failure, geo_failure; cbn; flatten_lists; reflexivity.
    + run_effects. rewrite C. cbn.
      unfold after_geo_success, geo_db. cbn. flatten_lists. reflexivity.
Qed.

Lemma geolocation_outcome_balanced env ip rest w :
  open_readers (geo_trace (geolocation_outcome env ip rest w))
  = open_readers (geo_trace w).
Proof.
  unfold geolocation_outcome.
  destruct (geo_open env geo_db) as [[k msg] |].
  - cbn. rewrite app_nil_r. reflexivity.
  - destruct (geo_city env ip) as [[k msg] | c]; cbn;
      rewrite open_readers_app; cbn; lia.
Qed.

(** X5. Geolocation Tools on the answer '1' shows its sub-menu and then
    does exactly what IP geolocation does on the next line typed: the
    outcome is that of the lookup, the procedure returns normally whatever
    the database does, and no reader is left open. *)
Theorem geolocation_tools_ip_choice (env : Env) (ip : string) (rest : list string)
        (w : World) :
  stdin w = "1" :: ip :: rest ->
  run_geolocation_tools env w
  = (Ok tt, geolocation_outcome env ip rest (tools_asked (ip :: rest) w))
  /\ run_geolocation_tools env w = run_ip_geolocation env (tools_asked (ip :: rest) w)
  /\ open_readers (geo_trace (geolocation_outcome env ip rest
                                (tools_asked (ip :: rest) w)))
     = open_readers (geo_trace w).
Proof.
  intros I.
  assert (S : run_geolocation_tools env w
              = run_ip_geolocation env (tools_asked (ip :: rest) w)).
  { destruct w as [inp con lg ht gt cs]. cbn in I. subst inp.
    unfold run_geolocation_tools, tools_asked.
    unfold bind at 1 2 3 4 5. unfold enter, print, input. cbn.
    repeat rewrite <- List.app_assoc. reflexivity. }
  split; [| split; [exact S |]].
  - rewrite S. apply run_ip_geolocation_run. reflexivity.
  - rewrite geolocation_outcome_balanced. reflexivity.
Qed.

(** X6. Geolocation Tools on the answer '2' asks for a location and prints
    two fixed lines naming it as typed; it looks nothing up: no GET, no use
    of the geo-database, no log record, no other procedure entered. *)
Theorem geolocation_tools_location_choice (env : Env) (location : string)
        (rest : list string) (w : World) :
  stdin w = "2" :: location :: rest ->
  run_geolocation_tools env w
  = (Ok tt,
     mkWorld rest
             (console w ++ [Printed "Geolocation Tools:";
                            Printed "1. IP-based Geolocation";
                            Printed "2. Location Search";
                            Prompted "Enter your choice (1-2): ";
                            Prompted "Enter the location to search: ";
                            Printed ("Performing location search for: " ++ location);
                            Printed ("Location information for " ++ location ++ ".")])
             (logfile w) (http_trace w) (geo_trace w)
             (calls w ++ [A_geolocation_tools])).
Proof.
  intros I. destruct w as [inp con lg ht gt cs]. cbn in I. subst inp.
  unfold run_geolocation_tools. run_effects. flatten_lists. reflexivity.
Qed.

Lemma geolocation_tools_ip_choice_witness :
  run_geolocation_tools offline_env (session ["1"; "8.8.8.8"])
  = (Ok tt, geolocation_outcome offline_env "8.8.8.8" []
              (tools_asked ["8.8.8.8"] (session ["1"; "8.8.8.8"]))).
Proof.
  exact (proj1 (geolocation_tools_ip_choice offline_env "8.8.8.8" []
                  (session ["1"; "8.8.8.8"]) eq_refl)).
Defined.

Lemma geolocation_tools_location_choice_witness :
  run_geolocation_tools offline_env (session ["2"; "Durban"])
  = (Ok tt,
     mkWorld []
             [Printed "Geolocation Tools:";
              Printed "1. IP-based Geolocation";
              Printed "2. Location Search";
              Prompted "Enter your choice (1-2): ";
              Prompted "Enter the location to search: ";
              Printed "Performing location search for: Durban";
              Printed "Location information for Durban."]
             [] [] [] [A_geolocation_tools]).
Proof.
  exact (geolocation_tools_location_choice offline_env "Durban" []
           (session ["2"; "Durban"]) eq_refl).
Defined.

(** ** The module runner and start-up *)

(** X7. [run_module] contains a module's failures. An unknown name prints
    "Module ... not found" and does nothing else; a module that returns is
    recorded in the log at INFO with its name and arguments; one that
    raises an [Exception] is recorded at ERROR with its name, arguments and
    message, reported on the console, and the call returns normally. The
    only exceptions that leave [run_module] are those outside [Exception]
    ([SystemExit]). *)
Theorem run_module_contains_failures (env : Env)
        (mods : list (string * PyModule)) (name : string) (args : list string)
        (w : World) :
  (modules_get mods name = None ->
   run_module env mods name args w
   = (Ok tt, said ("Module " ++ name ++ " not found") w))
  /\ (forall module_run w1,
        modules_get mods name = Some module_run ->
        module_run args w = (Ok tt, w1) ->
        run_module env mods name args w
        = (Ok tt, logged env INFO
                    ("Successfully ran module " ++ name ++ " with args "
                     ++ repr_tuple args) w1))
  /\ (forall module_run e w1,
        modules_get mods name = Some module_run ->
        module_run args w = (Raise e, w1) ->
        is_Exception (exn_class e) = true ->
        run_module env mods name args w
        = (Ok tt, said ("An error occurred: " ++ exn_msg e)
                    (logged env ERROR (module_error name args e) w1)))
  /\ (forall e w1,
        run_module env mods name args w = (Raise e, w1) ->
        is_Exception (exn_class e) = false).
Proof.
  split; [| split; [| split]].
  - intros N. unfold run_module. rewrite N. reflexivity.
  - intros module_run w1 F X. unfold run_module. rewrite F.
    unfold try_except, bind. rewrite X. reflexivity.
  - intros module_run e w1 F X E.
    rewrite (run_module_failure env mods name module_run args w e w1 F X E).
    reflexivity.
  - intros e w1. apply run_module_lets_no_Exception_out.
Qed.

Lemma run_module_contains_failures_witness :
  run_module offline_env [("module_scan", failing_module)] "module_scan" ["10.0.0.1"]
             (session [])
  = (Ok tt,
     mkWorld []
       [Printed "An error occurred: 'target'"]
       [mkLog "t0" ERROR
          "Error running module module_scan with args ('10.0.0.1',): 'target'"]
       [] [] []).
Proof.
  exact (proj1 (proj2 (proj2
           (run_module_contains_failures offline_env
              [("module_scan", failing_module)] "module_scan" ["10.0.0.1"]
              (session []))))
           failing_module (mkExn KeyError "'target'") (session [])
           eq_refl eq_refl eq_refl).
Defined.

Section Discovery.

Variable import_module : string -> M PyModule.

Lemma load_modules_from_filter names : forall mods w,
  load_modules_from import_module names mods w
  = load_modules_from import_module (filter has_module_prefix names) mods w.
Proof.
  induction names as [| name names IH]; intros mods w; [reflexivity |].
  cbn [load_modules_from filter]. unfold has_module_prefix at 1.
  destruct (String.prefix "module_" name) eqn:P.
  - cbn [load_modules_from]. rewrite P. unfold bind.
    destruct (import_module name w) as [[module | e |] w1];
      [apply IH | reflexivity | reflexivity].
  - apply IH.
Qed.

Lemma dict_set_keys {V} (d : list (string * V)) k v (Q : string -> Prop) :
  Forall Q (map fst d) -> Q k -> Forall Q (map fst (dict_set d k v)).
Proof.
  induction d as [| [k' v'] d IH]; cbn; intros F Qk.
  - constructor; [exact Qk | constructor].
  - inversion F as [| ? ? Qk' F']; subst.
    destruct (String.eqb k' k); cbn; constructor; auto.
Qed.

Lemma load_modules_from_keys names : forall mods w result w',
  Forall (fun k => has_module_prefix k = true) (map fst mods) ->
  load_modules_from import_module names mods w = (Ok result, w') ->
  Forall (fun k => has_module_prefix k = true) (map fst result).
Proof.
  induction names as [| name names IH]; intros mods w result w' F.
  - cbn. intros [= <- _]. exact F.
  - cbn [load_modules_from].
    destruct (String.prefix "module_" name) eqn:P.
    + unfold bind. destruct (import_module name w) as [[module | e |] w1];
        [| discriminate | discriminate].
      apply IH. apply dict_set_keys; [exact F | exact P].
    + now apply IH.
Qed.

Lemma load_modules_from_none names : forall mods w,
  (forall name, In name names -> has_module_prefix name = false) ->
  load_modules_from import_module names mods w = (Ok mods, w).
Proof.
  induction names as [| name names IH]; intros mods w N; [reflexivity |].
  cbn [load_modules_from].
  replace (String.prefix "module_" name) with false
    by (symmetry; apply (N name); left; reflexivity).
  apply IH. intros n H. apply N. right. exact H.
Qed.

End Discovery.

(** X8. [load_modules] imports the names that start with "module_" and no
    others: it runs as it would on the list with the other names removed,
    every key of the table it returns has the prefix, and when no name has
    it the table is empty and nothing was run; with that table every call
    of [run_module] prints "not found". An exception of a discovered
    module's import leaves [load_modules]. *)
Theorem load_modules_discovers_by_prefix (env : Env)
        (import_module : string -> M PyModule) (names : list string) (w : World) :
  load_modules names import_module w
  = load_modules (filter has_module_prefix names) import_module w
  /\ (forall result w',
        load_modules names import_module w = (Ok result, w') ->
        Forall (fun k => has_module_prefix k = true) (map fst result))
  /\ ((forall name, In name names -> has_module_prefix name = false) ->
      load_modules names import_module w = (Ok [], w)
      /\ forall name args w1,
           run_module env [] name args w1
           = (Ok tt, said ("Module " ++ name ++ " not found") w1))
  /\ (forall skipped name later e w',
        names = (skipped ++ name :: later)%list ->
        (forall n, In n skipped -> has_module_prefix n = false) ->
        has_module_prefix name = true ->
        import_module name w = (Raise e, w') ->
        load_modules names import_module w = (Raise e, w')).
Proof.
  unfold load_modules. split; [| split; [| split]].
  - apply load_modules_from_filter.
  - intros result w' L.
    apply (load_modules_from_keys import_module names [] w result w');
      [constructor | exact L].
  - intros N. split; [now apply load_modules_from_none |]. reflexivity.
  - intros skipped name later e w' -> N P X.
    rewrite load_modules_from_filter, filter_app.
    replace (filter has_module_prefix skipped) with (@nil string).
    + cbn [List.app filter]. rewrite P. cbn [load_modules_from].
      unfold has_module_prefix in P. rewrite P. unfold bind. rewrite X. reflexivity.
    + symmetry. induction skipped as [| n skipped IH]; [reflexivity |].
      cbn. rewrite (N n) by (left; reflexivity).
      apply IH. intros n' H. apply N. right. exact H.
Qed.


Lemma load_modules_discovers_by_prefix_witness :
  load_modules ["os"; "json"; "requests"] (fun _ => ret failing_module) (session [])
  = (Ok [], session []).
Proof.
  apply (proj1 (proj2 (proj2 (load_modules_discovers_by_prefix offline_env
                                (fun _ => ret failing_module)
                                ["os"; "json"; "requests"] (session []))))).
  intros name H. cbn in H.
  destruct H as [<- | [<- | [<- | []]]]; reflexivity.
Defined.


(** ** The bounds of [run_menu_choice] *)

Lemma py_index_from_end {A} (l : list A) (i : Z) :
  (- Z.of_nat (List.length l) <= i < 0)%Z ->
  py_index l i = nth_error l (Z.to_nat (Z.of_nat (List.length l) + i)).
Proof.
  intros H. unfold py_index.
  replace ((0 <=? i) && (i <? Z.of_nat (List.length l)))%Z with false
    by (symmetry; apply andb_false_iff; left; apply Z.leb_gt; lia).
  replace ((- Z.of_nat (List.length l) <=? i) && (i <? 0))%Z with true
    by (symmetry; apply andb_true_iff; split; [apply Z.leb_le | apply Z.ltb_lt]; lia).
  reflexivity.
Qed.

Lemma py_index_out_of_range {A} (l : list A) (i : Z) :
  (i < - Z.of_nat (List.length l) \/ Z.of_nat (List.length l) <= i)%Z ->
  py_index l i = None.
Proof.
  intros H. unfold py_index.
  replace ((0 <=? i) && (i <? Z.of_nat (List.length l)))%Z with false
    by (symmetry; apply andb_false_iff;
        destruct H; [left; apply Z.leb_gt | right; apply Z.ltb_ge]; lia).
  replace ((- Z.of_nat (List.length l) <=? i) && (i <? 0))%Z with false
    by (symmetry; apply andb_false_iff;
        destruct H; [left; apply Z.leb_gt | right; apply Z.ltb_ge]; lia).
  reflexivity.
Qed.

Lemma nth_error_in_range {A} (l : list A) (n : nat) :
  (n < List.length l)%nat -> exists a, nth_error l n = Some a.
Proof.
  intros H. destruct (nth_error l n) as [a |] eqn:E; [now exists a |].
  apply nth_error_None in E. lia.
Qed.

(** X12. [run_menu_choice] on its own: a choice from 1 to 19 runs the entry
    at that place of its list; a choice from -18 to 0 runs an entry counted
    from the end of the list (0 runs the last one, Geolocation Tools); any
    other choice raises [IndexError] without running anything. The loop
    guards the call, so no [IndexError] ever leaves what [start] runs for a
    number read. *)
Theorem run_menu_choice_bounds (env : Env) (choice : Z) :
  ((1 <= choice <= 19)%Z ->
   exists a, nth_error run_menu_choice_options (Z.to_nat (choice - 1)) = Some a
             /\ run_menu_choice env choice = proc env a)
  /\ ((-18 <= choice <= 0)%Z ->
      exists a, nth_error run_menu_choice_options (Z.to_nat (choice + 18)) = Some a
                /\ run_menu_choice env choice = proc env a)
  /\ run_menu_choice env 0 = proc env A_geolocation_tools
  /\ ((choice <= -19 \/ 20 <= choice)%Z ->
      forall w, run_menu_choice env choice w
                = (Raise (mkExn IndexError "list index out of range"), w))
  /\ (forall w e w', start_choice env choice w = (Raise e, w') ->
                     exn_class e <> IndexError).
Proof.
  split; [| split; [| split; [| split]]].
  - intros R.
    destruct (nth_error_in_range run_menu_choice_options (Z.to_nat (choice - 1)))
      as (a & E); [cbn; lia |].
    exists a. split; [exact E |].
    unfold run_menu_choice. rewrite py_index_in_range by (cbn; lia).
    rewrite E. reflexivity.
  - intros R.
    destruct (nth_error_in_range run_menu_choice_options (Z.to_nat (choice + 18)))
      as (a & E); [cbn; lia |].
    exists a. split; [exact E |].
    unfold run_menu_choice. rewrite py_index_from_end by (cbn; lia).
    replace (Z.of_nat (List.length run_menu_choice_options) + (choice - 1))%Z
      with (choice + 18)%Z
      by (change (Z.of_nat (List.length run_menu_choice_options)) with 19%Z; lia).
    rewrite E. reflexivity.
  - reflexivity.
  - intros R w. unfold run_menu_choice.
    rewrite py_index_out_of_range by (cbn; lia). reflexivity.
  - intros w e w' X C.
    pose proof (start_choice_may_leave env choice w e w' X) as L.
    rewrite C in L. discriminate.
Qed.

Lemma run_menu_choice_bounds_witness :
  (exists a, nth_error run_menu_choice_options (Z.to_nat (-18 + 18)) = Some a
             /\ run_menu_choice offline_env (-18) = proc offline_env a)
  /\ forall w, run_menu_choice offline_env 20 w
               = (Raise (mkExn IndexError "list index out of range"), w).
Proof.
  split.
  - apply (proj1 (proj2 (run_menu_choice_bounds offline_env (-18)))). lia.
  - apply (proj1 (proj2 (proj2 (proj2 (run_menu_choice_bounds offline_env 20))))).
    lia.
Defined.

(** ** Procedures whose prompts are answered *)

Section Returning.

Lemma returns_ret {A} (a : A) : returns_within 0 (ret a).
Proof. intros w _. exists a, w. split; [reflexivity | lia]. Qed.

Lemma returns_print line : returns_within 0 (print line).
Proof. intros w _. eexists; eexists. split; [reflexivity | cbn; lia]. Qed.

Lemma returns_enter a : returns_within 0 (enter a).
Proof. intros w _. eexists; eexists. split; [reflexivity | cbn; lia]. Qed.

Lemma returns_input prompt : returns_within 1 (input prompt).
Proof.
  intros w L. unfold input. destruct (stdin w) as [| line rest]; [cbn in L; lia |].
  eexists; eexists. split; [reflexivity | cbn; lia].
Qed.

Lemma returns_weaken {A} n n' (m : M A) :
  (n <= n')%nat -> returns_within n m -> returns_within n' m.
Proof.
  intros Le H w L. destruct (H w) as (a & w' & X & B); [lia |].
  exists a, w'. split; [exact X | lia].
Qed.

Lemma returns_bind {A B} n1 n2 (m : M A) (k : A -> M B) :
  returns_within n1 m -> (forall a, returns_within n2 (k a)) ->
  returns_within (n1 + n2) (bind m k).
Proof.
  intros Hm Hk w L. destruct (Hm w) as (a & w1 & X & B1); [lia |].
  destruct (Hk a w1) as (b & w2 & Y & B2); [lia |].
  exists b, w2. unfold bind. rewrite X. split; [exact Y | lia].
Qed.

Lemma returns_for_each {A} (l : list A) (body : A -> M unit) :
  (forall x, returns_within 0 (body x)) -> returns_within 0 (for_each l body).
Proof.
  intros Hb. induction l as [| x l IH]; cbn.
  - apply returns_ret.
  - apply (returns_bind 0 0); [apply Hb | intros _; exact IH].
Qed.

Lemma returns_if_response {A} n response (yes : Response -> M A) no :
  (forall r, returns_within n (yes r)) -> returns_within n no ->
  returns_within n (if_response response yes no).
Proof.
  intros Hy Hn. unfold if_response.
  destruct response as [r |]; [destruct (response_ok r) |]; auto.
Qed.

Variable env : Env.

(** When the network answers, the fetch wrapper returns. *)
Lemma returns_make_request url :
  network_answers env -> returns_within 0 (make_request env url).
Proof.
  intros NA w _. specialize (NA (List.length (http_trace w)) url).
  destruct (http_get env (List.length (http_trace w)) url) as [[k m |] | r] eqn:G.
  - rewrite (make_request_transport_error env url w k m G NA).
    eexists; eexists. split; [reflexivity | cbn; lia].
  - destruct NA.
  - destruct (is_error_status r) eqn:E.
    + rewrite (make_request_error_status env url w r G E).
      eexists; eexists. split; [reflexivity | cbn; lia].
    + rewrite (make_request_success env url w r G E).
      eexists; eexists. split; [reflexivity | cbn; lia].
Qed.

Lemma returns_parse_html html :
  parser_accepts env -> returns_within 0 (parse_html env html).
Proof.
  intros PA w _. unfold parse_html. rewrite (PA html).
  eexists; eexists. split; [reflexivity | lia].
Qed.

Lemma geolocation_outcome_input ip rest w :
  stdin (geolocation_outcome env ip rest w) = rest.
Proof.
  unfold geolocation_outcome.
  destruct (geo_open env geo_db) as [[k msg] |]; [reflexivity |].
  destruct (geo_city env ip) as [[k msg] | c]; reflexivity.
Qed.

Lemma returns_run_ip_geolocation : returns_within 1 (run_ip_geolocation env).
Proof.
  intros w L. destruct (stdin w) as [| ip rest] eqn:I; [cbn in L; lia |].
  exists tt, (geolocation_outcome env ip rest w).
  split; [now apply run_ip_geolocation_run |].
  rewrite geolocation_outcome_input. cbn. lia.
Qed.

End Returning.

(** Take a procedure apart, counting the prompts on the way. *)
Ltac returned :=
  repeat
    (cbv beta zeta;
     lazymatch goal with
     | |- returns_within _ (bind (input _) _) =>
         apply (returns_bind 1 _); [apply returns_input | intro]
     | |- returns_within _ (bind _ _) => apply (returns_bind 0 _); [| intro]
     | |- returns_within 0 (ret _) => apply returns_ret
     | |- returns_within 0 (print _) => apply returns_print
     | |- returns_within 0 (enter _) => apply returns_enter
     | |- returns_within 0 (make_request _ _) =>
         apply returns_make_request; assumption
     | |- returns_within 0 (parse_html _ _) =>
         apply returns_parse_html; assumption
     | |- returns_within 0 (for_each _ _) => apply returns_for_each; intro
     | |- returns_within _ (if_response _ _ _) =>
         apply returns_if_response; [intro |]
     end).

Section Answered.

Variable env : Env.
Variable a : Action.
Hypothesis not_public_records : a <> A_public_records.
Hypothesis not_exit : a <> A_exit_program.
Hypothesis libraries :
  fetches a = true -> network_answers env /\ parser_accepts env.

Lemma proc_returns : returns_within (prompts a) (proc env a).
Proof.
  destruct a; try congruence; cbn [proc prompts];
    try exact (returns_run_ip_geolocation env);
    try solve [unfold_procedures; returned];
    try solve [destruct (libraries eq_refl) as [NA PA];
               unfold_procedures; returned].
  unfold run_geolocation_tools.
  do 4 (apply (returns_bind 0 _); [returned | intro]).
  apply (returns_bind 1 1); [apply returns_input | intros choice].
  destruct (String.eqb choice "1"); [exact (returns_run_ip_geolocation env) |].
  destruct (String.eqb choice "2"); [returned |].
  apply (returns_weaken 0 1); [lia | apply returns_ret].
Qed.

Lemma proc_leaves_at_end_of_input : raises_only is_EOFError (proc env a).
Proof.
  destruct a; try congruence;
    try solve [eapply raises_weaken;
               [apply proc_may_leave | intros c; destruct c; cbn; congruence]];
    destruct (libraries eq_refl) as [NA PA];
    cbn [proc]; unfold_procedures; raised.
Qed.

End Answered.

Lemma offline_network_answers : network_answers offline_env.
Proof. intros n url. reflexivity. Qed.

Lemma offline_parser_accepts : parser_accepts offline_env.
Proof. intros html. reflexivity. Qed.

Lemma is_EOFError_true c : is_EOFError c = true -> c = EOFError.
Proof. destruct c; cbn; congruence. Qed.

(** X13. Every procedure other than public records and Exit returns
    normally whenever the lines it prompts for are there to be read (one at
    most, two for Geolocation Tools, none for Help and Settings), and reads
    no more than those; the only exception that can leave such a procedure
    is the [EOFError] of a prompt at the end of input. For a procedure that
    does not fetch this holds whatever the geo-database and the other
    libraries do; for one that fetches it holds when every GET returns,
    with a response or a [RequestException], and the parser reads every
    page. *)
Theorem procedures_return_when_answered (env : Env) (a : Action) :
  a <> A_public_records -> a <> A_exit_program ->
  (fetches a = true -> network_answers env /\ parser_accepts env) ->
  (forall w, (prompts a <= List.length (stdin w))%nat ->
             exists w', proc env a w = (Ok tt, w')
                        /\ (List.length (stdin w)
                            <= List.length (stdin w') + prompts a)%nat)
  /\ (forall w e w', proc env a w = (Raise e, w') -> exn_class e = EOFError).
Proof.
  intros NP NE L. split.
  - intros w B. destruct (proc_returns env a NP NE L w B) as ([] & w' & X & B').
    exists w'. split; assumption.
  - intros w e w' X. apply is_EOFError_true.
    exact (proc_leaves_at_end_of_input env a NP NE L w e w' X).
Qed.

Lemma procedures_return_when_answered_witness :
  exists w', proc offline_env A_google_dorks (session ["site:gov.za"]) = (Ok tt, w')
             /\ (List.length (stdin (session ["site:gov.za"]))
                 <= List.length (stdin w') + prompts A_google_dorks)%nat.
Proof.
  apply (proj1 (procedures_return_when_answered offline_env A_google_dorks
                  ltac:(discriminate) ltac:(discriminate)
                  (fun _ => conj offline_network_answers offline_parser_accepts))).
  cbn. lia.
Defined.

(** X14. When every GET returns, with a response or a [RequestException],
    and the parser reads every page, a turn on any selection from 1 to 21
    other than 3, with two more lines of input after the choice, ends
    normally, having read at most those two, and the loop goes on to its
    next turn, which shows the menu and prompts again. *)
Theorem answered_selection_goes_round (env : Env) (line : string)
        (rest : list string) (w : World) (s : Z) :
  network_answers env ->
  parser_accepts env ->
  stdin w = line :: rest ->
  Py.int (Py.strip line) = Some s ->
  (1 <= s <= 21)%Z ->
  s <> 3%Z ->
  (2 <= List.length rest)%nat ->
  exists w1, start_iteration env w = (Ok tt, w1)
             /\ prompts_again env w w1
             /\ (List.length rest <= List.length (stdin w1) + 2)%nat.
Proof.
  intros NA PA I P R N3 L.
  destruct (turn_on_selection env line rest w s I P ltac:(lia))
    as (label & a & T & S).
  assert (NX : a <> A_public_records /\ a <> A_exit_program).
  { assert (C : (s = 1 \/ s = 2 \/ s = 4 \/ s = 5 \/ s = 6 \/ s = 7 \/ s = 8
                \/ s = 9 \/ s = 10 \/ s = 11 \/ s = 12 \/ s = 13 \/ s = 14
                \/ s = 15 \/ s = 16 \/ s = 17 \/ s = 18 \/ s = 19 \/ s = 20
                \/ s = 21)%Z) by lia.
    repeat (destruct C as [-> | C];
            [cbn in T; injection T as _ <-; split; discriminate |]).
    subst s. cbn in T. injection T as _ <-. split; discriminate. }
  destruct NX as [NP NE].
  destruct (proc_returns env a NP NE (fun _ => conj NA PA) (asked rest w))
    as ([] & w1 & X & B).
  { cbn. destruct a; cbn; lia. }
  exists w1. rewrite X in S.
  split; [exact S | split; [now apply normal_turn_prompts_again |]].
  cbn in B. destruct a; cbn in B; lia.
Qed.

Lemma answered_selection_goes_round_witness :
  exists w1,
    start_iteration offline_env (session ["1"; "example.co.za"; "x"]) = (Ok tt, w1)
    /\ prompts_again offline_env (session ["1"; "example.co.za"; "x"]) w1
    /\ (List.length ["example.co.za"; "x"] <= List.length (stdin w1) + 2)%nat.
Proof.
  apply (answered_selection_goes_round offline_env "1" ["example.co.za"; "x"]
           (session ["1"; "example.co.za"; "x"]) 1
           offline_network_answers offline_parser_accepts eq_refl eq_refl);
    [lia | lia | cbn; lia].
Defined.

(** ** The end of the loop *)

Lemma start_more_turns env : forall turns more w r,
  start env turns w = Some r -> start env (turns + more) w = Some r.
Proof.
  induction turns as [| turns IH]; intros more w r; [discriminate |].
  cbn [start Nat.add]. destruct (start_iteration env w) as [[[] | e |] w'].
  - apply IH.
  - intros H. exact H.
  - discriminate.
Qed.

Lemma start_iteration_keeps_input env :
  preserves input_not_longer (start_iteration env).
Proof.
  unfold start_iteration.
  apply preserves_bind; [unfold print_menu; kept | intros _].
  apply preserves_try_except; [| intros e; apply kept_print].
  apply preserves_bind; [apply kept_input | intros line].
  apply preserves_bind; [| intros n; apply start_choice_keeps_input].
  unfold py_int. destruct (Py.int _); [apply preserves_ret | apply preserves_raise].
Qed.

Lemma offline_get_returns : get_returns offline_env.
Proof. intros n url. discriminate. Qed.

(** X10. When every GET returns or raises, the loop on a finite input
    always ends, after at most one turn more than there are lines, and
    however many turns it is allowed beyond that the outcome is the same.
    What ends it is never a [ValueError] or one of its subclasses, nor a
    [RequestException]: it is [SystemExit] (Exit), [EOFError] (a prompt at
    the end of input), the [KeyError] or [TypeError] of public records, or
    an exception of a library outside those two families. The loop never
    adds lines to the input. *)
Theorem loop_ends_with_the_input (env : Env) (turns : nat) (w : World) :
  get_returns env ->
  (List.length (stdin w) < turns)%nat ->
  exists e w',
    (forall more, start env (turns + more) w = Some (e, w'))
    /\ may_end_loop (exn_class e) = true
    /\ is_ValueError (exn_class e) = false
    /\ is_RequestException (exn_class e) = false
    /\ (List.length (stdin w') <= List.length (stdin w))%nat.
Proof.
  intros G L. destruct (start_ends env G turns w L) as (e & w' & S & C).
  exists e, w'.
  split; [| split; [exact C | split; [| split]]].
  - intros more. now apply start_more_turns.
  - revert C. destruct (exn_class e); cbn; congruence.
  - revert C. destruct (exn_class e); cbn; congruence.
  - clear L C. revert w S.
    induction turns as [| turns IH]; intros w S; [discriminate |].
    destruct (start_iteration env w) as [[[] | e0 |] w0] eqn:T.
    + rewrite (normal_turn_continues env w w0 turns T) in S.
      apply IH in S. apply turn_reads_a_line in T. lia.
    + rewrite (raising_turn_ends env w w0 e0 turns T) in S.
      injection S as <- <-.
      pose proof (start_iteration_keeps_input env w) as K.
      rewrite T in K. exact K.
    + rewrite (hanging_turn_never_ends env w w0 _ T) in S. discriminate S.
Qed.

Lemma loop_ends_with_the_input_witness :
  exists e w',
    (forall more, start offline_env (3 + more) (session ["abc"; "7"]) = Some (e, w'))
    /\ may_end_loop (exn_class e) = true
    /\ is_ValueError (exn_class e) = false
    /\ is_RequestException (exn_class e) = false
    /\ (List.length (stdin w') <= List.length (stdin (session ["abc"; "7"])))%nat.
Proof.
  apply (loop_ends_with_the_input offline_env 3 (session ["abc"; "7"])
           offline_get_returns).
  cbn. lia.
Defined.

(** A GET that never returns: the turn does not end, and neither does the
    loop, however many turns it is allowed. *)
Example hanging_get_never_ends (turns : nat) :
  start hanging_env turns (session ["1"; "example.co.za"; "22"]) = None.
Proof.
  apply (hanging_turn_never_ends hanging_env _
           (mkWorld ["22"]
                    (menu_output ++ [Prompted "Enter your choice (1-22): ";
                                     Prompted "Enter the domain to lookup: "])
                    [] ["https://www.za-example.com/domain-lookup/example.co.za"]
                    [] [A_domain_lookup])).
  vm_compute. reflexivity.
Qed.

(** A page the parser rejects, on selection 4: the parser's exception ends
    the loop, nothing having been logged or printed about it. *)
Example rejected_page_ends_the_loop :
  start rejecting_env 1 (session ["4"; "http://x/i.png"; "22"])
  = Some (mkExn ParserRejectedMarkup "The markup you provided was rejected by the parser.",
          mkWorld ["22"]
                  (menu_output
                   ++ [Prompted "Enter your choice (1-22): ";
                       Prompted "Enter the image URL for reverse image search: "])
                  [] ["https://tineye.com/search?url=http://x/i.png"]
                  [] [A_reverse_image_search]).
Proof. vm_compute. reflexivity. Qed.

(** A body nested too deep, on selection 3: the decoder's [RecursionError]
    is no [ValueError], it ends the loop. *)
Example deeply_nested_body_ends_the_loop :
  start recursing_env 1 (session ["3"; "Jan"; "22"])
  = Some (mkExn RecursionError
                "maximum recursion depth exceeded while decoding a JSON array from a unicode string",
          mkWorld ["22"]
                  (menu_output
                   ++ [Prompted "Enter your choice (1-22): ";
                       Prompted "Enter the name to search public records: "])
                  [] ["https://www.sa-publicrecords-example.com/search?name=Jan"]
                  [] [A_public_records]).
Proof. vm_compute. reflexivity. Qed.

(** A redirect that cannot be parsed, on selection 1: the [ValueError] of
    [requests.get] passes the wrapper and is taken by the loop for a
    choice that is not a number. *)
Example unparsable_redirect_reported_as_invalid_input :
  start_iteration redirecting_env (session ["1"; "example.co.za"])
  = (Ok tt,
     mkWorld []
             (menu_output
              ++ [Prompted "Enter your choice (1-22): ";
                  Prompted "Enter the domain to lookup: ";
                  Printed "Invalid input. Please enter a number."])
             [] ["https://www.za-example.com/domain-lookup/example.co.za"]
             [] [A_domain_lookup]).
Proof. vm_compute. reflexivity. Qed.

Lemma exit_selection_ends_the_loop_witness :
  start offline_env 1 (session [" +2_2 "; "never read"])
  = Some (mkExn SystemExit "None",
          mkWorld ["never read"]
                  (menu_output
                   ++ [Prompted "Enter your choice (1-22): "; Printed "Exiting..."])
                  [] [] [] [A_exit_program]).
Proof.
  exact (exit_selection_ends_the_loop offline_env " +2_2 " ["never read"]
           (session [" +2_2 "; "never read"]) 0 eq_refl eq_refl).
Defined.

(** X15. Selection 3 on a 2xx answer whose body decodes to an object that
    has no 'records' key: the heading is printed, then the [KeyError] of
    the lookup leaves the procedure and the loop, whatever the name typed
    and the other members of the object; nothing is logged and the lines
    typed after the name are never read. *)
Theorem public_records_missing_key_ends_the_loop (env : Env) (line name : string)
        (rest : list string) (w : World) (r : Response)
        (members : list (string * JSON)) (turns : nat) :
  stdin w = line :: name :: rest ->
  Py.int (Py.strip line) = Some 3%Z ->
  http_get env (List.length (http_trace w)) (public_records_url name) = inr r ->
  is_error_status r = false ->
  json_decode env (text r) = inr (JObj members) ->
  dict_get members "records" = None ->
  start env (S turns) w
  = Some (mkExn KeyError "'records'",
          said ("Public Records for " ++ name ++ ":")
               (records_fetched name rest (asked (name :: rest) w)))
  /\ logfile (said ("Public Records for " ++ name ++ ":")
                   (records_fetched name rest (asked (name :: rest) w)))
     = logfile w
  /\ stdin (said ("Public Records for " ++ name ++ ":")
                 (records_fetched name rest (asked (name :: rest) w)))
     = rest.
Proof.
  intros I P G E D K. split; [| split; reflexivity].
  apply (raising_selection_ends_the_loop env line (name :: rest) w 3
           "Public Records Search" A_public_records);
    [exact I | exact P | lia | reflexivity | | reflexivity].
  exact (run_public_records_missing_key env name rest (asked (name :: rest) w) r
           eq_refl G E members D K).
Qed.

Lemma public_records_missing_key_ends_the_loop_witness :
  start keyless_env 1 (session ["3"; "Jan"; "22"])
  = Some (mkExn KeyError "'records'",
          said "Public Records for Jan:"
               (records_fetched "Jan" ["22"] (asked ["Jan"; "22"]
                                                (session ["3"; "Jan"; "22"])))).
Proof.
  exact (proj1 (public_records_missing_key_ends_the_loop keyless_env "3" "Jan"
                  ["22"] (session ["3"; "Jan"; "22"]) (mkResponse 200 "{}") [] 0
                  eq_refl eq_refl eq_refl eq_refl eq_refl eq_refl)).
Defined.
